(** * sni-proxy: the TLS ClientHello sniffer of [src/listener.c]

    A shallow embedding of [listener.c] and the properties of its
    wire-format decoder, alert encoder, session state machine and
    listener set-up.

    Conventions of the embedding.
    - C [int] and [unsigned int] are 32 bits wide; values live in [Z] and
      every conversion between the two is written out ([to_int], [to_uint]).
    - The received bytes are a [list byte]; a pointer into the buffer is
      its byte offset from [buf] (a [Z]); pointers are 64 bits wide, so
      adding an [unsigned int] to a pointer adds its zero-extended value.
    - A dereference outside [0, length buf) has no defined behaviour in C;
      the embedding stops there with [OutOfBounds off].
    - Calls into libev, libc and the kernel are recorded, in program order,
      in a list of [effect]s; what the kernel answers is an input. *)

From Stdlib Require Import ZArith List Bool Lia.
From Stdlib.Strings Require Import Byte.
Import ListNotations.
Local Open Scope Z_scope.

(** ** Machine integers *)

Definition to_uint (z : Z) : Z := z mod 2 ^ 32.

Definition to_int (z : Z) : Z := (z + 2 ^ 31) mod 2 ^ 32 - 2 ^ 31.

Definition int_range (z : Z) : Prop := - 2 ^ 31 <= z < 2 ^ 31.

Definition byte_val (b : byte) : Z := Z.of_N (Byte.to_N b).

Definition byte_of_Z (z : Z) : byte :=
  match Byte.of_N (Z.to_N (z mod 256)) with
  | Some b => b
  | None => x00
  end.

(** ** Outcome of running a piece of the decoder *)

Inductive outcome (A : Type) : Type :=
| Done (a : A)
| OutOfBounds (off : Z)
| OutOfFuel.

Arguments Done {A} a.
Arguments OutOfBounds {A} off.
Arguments OutOfFuel {A}.

Definition bind {A B : Type} (m : outcome A) (k : A -> outcome B) : outcome B :=
  match m with
  | Done a => k a
  | OutOfBounds off => OutOfBounds off
  | OutOfFuel => OutOfFuel
  end.

Declare Scope outcome_scope.
Delimit Scope outcome_scope with outcome.
Notation "x <- m ;; k" := (bind m (fun x => k))
  (at level 61, m at next level, right associativity) : outcome_scope.
Local Open Scope outcome_scope.

(** [p[i]] for a pointer at offset [p] of the received bytes. *)
Definition load (buf : list byte) (off : Z) : outcome Z :=
  if off <? 0 then OutOfBounds off
  else match nth_error buf (Z.to_nat off) with
       | Some b => Done (byte_val b)
       | None => OutOfBounds off
       end.

(** [*p] for [const char *p]: whether plain [char] is signed is the
    platform's choice ([sgn = true] on x86, [false] on ARM). *)
Definition load_char (sgn : bool) (buf : list byte) (off : Z) : outcome Z :=
  v <- load buf off ;;
  Done (if sgn && (128 <=? v) then v - 256 else v).

(** [memcpy(dst, p, n)]: the [n] bytes from offset [off] on. *)
Fixpoint load_bytes (buf : list byte) (off : Z) (n : nat) : outcome (list byte) :=
  match n with
  | O => Done []
  | S n' =>
      v <- load buf off ;;
      rest <- load_bytes buf (off + 1) n' ;;
      Done (byte_of_Z v :: rest)
  end.

(** ** Constants and structure layouts *)

Definition tls_magic : list Z := [0x16; 0x3; 0x1].
Definition tls_greeting : Z := 0x1.
Definition sni_type : Z := 0x0.
Definition sni_host : Z := 0x0.
Definition tls_alert : Z := 0x15.
Definition tls_alert_level : Z := 0x2.
Definition tls_alert_description : Z := 0x40.

(** [struct ssl_header], packed: tls_magic[3] len[2] type greeting_len[3]
    version(2) random[32]. *)
Definition sizeof_ssl_header : Z := 3 + 2 + 1 + 3 + 2 + 32.
Definition ssl_header_len : Z := 3.
Definition ssl_header_type : Z := 5.
Definition ssl_header_greeting_len : Z := 6.

(** [struct sni_ext], packed: slen[2] type hlen[2] host[1]. *)
Definition sizeof_sni_ext : Z := 2 + 1 + 2 + 1.
Definition sni_ext_slen : Z := 0.
Definition sni_ext_type : Z := 2.
Definition sni_ext_hlen : Z := 3.
Definition sni_ext_host : Z := 5.

(** [struct ssl_alert], packed: type version[2] len[2] level description. *)
Record ssl_alert : Type := mk_alert {
  alert_type : byte;
  alert_version0 : byte;
  alert_version1 : byte;
  alert_len0 : byte;
  alert_len1 : byte;
  alert_level : byte;
  alert_description : byte
}.

Definition sizeof_ssl_alert : Z := 1 + 2 + 2 + 1 + 1.

Definition alert_bytes (a : ssl_alert) : list byte :=
  [alert_type a; alert_version0 a; alert_version1 a;
   alert_len0 a; alert_len1 a; alert_level a; alert_description a].

Definition int_3byte_le (buf : list byte) (p : Z) : outcome Z :=
  b0 <- load buf p ;;
  b1 <- load buf (p + 1) ;;
  b2 <- load buf (p + 2) ;;
  Done (to_uint (Z.lor (Z.lor b0 (Z.shiftl b1 8)) (Z.shiftl b2 16))).

Definition int_2byte_le (buf : list byte) (p : Z) : outcome Z :=
  b0 <- load buf p ;;
  b1 <- load buf (p + 1) ;;
  Done (to_uint (Z.lor b0 (Z.shiftl b1 8))).

(** ** Sessions, watchers and effects *)

Inductive ssl_state : Type :=
| ssl_state_init
| ssl_state_alert
| ssl_state_alert_sent.

Inductive callback : Type := cb_greet | cb_alert | cb_accept.

Inductive ev_events : Type := EV_READ | EV_WRITE.

(** libev's [ev_io]: the callback, descriptor and event mask given to
    [ev_io_init], and whether the watcher is started. *)
Record ev_io : Type := mk_io {
  io_cb : callback;
  io_fd : Z;
  io_events : ev_events;
  io_active : bool
}.

(** [struct ssl_session]; [backends] and [loop] are opaque handles that
    no function below inspects and are left out.  [hostname] is [None]
    for a NULL pointer, else the bytes of the allocated block. *)
Record ssl_session : Type := mk_session {
  fd : Z;
  io : ev_io;
  hostname : option (list byte);
  state : ssl_state
}.

Inductive errno_t : Type :=
| EAGAIN
| EINTR
| EWOULDBLOCK
| EOTHER (code : Z).

Inductive effect : Type :=
| Ev_io_stop (w_fd : Z)
| Ev_io_init (cb : callback) (w_fd : Z) (ev : ev_events)
| Ev_io_start (cb : callback) (w_fd : Z) (ev : ev_events)
| Sys_close (d : Z)
| Sys_write (d : Z) (data : list byte)
| Sys_read (d : Z) (r : Z)
| Sys_accept (sock : Z) (r : Z)
| Sys_socket (r : Z)
| Sys_fcntl_setfd_cloexec (d : Z) (r : Z)
| Sys_fcntl_getfl (d : Z) (r : Z)
| Sys_fcntl_setfl_nonblock (d : Z) (ofl : Z) (r : Z)
| Sys_setsockopt_reuseaddr (d : Z)
| Sys_bind (d : Z) (r : Z)
| Sys_listen (d : Z) (r : Z)
| Xmalloc_hostname (size : Z)
| Assign_hostname (block : list byte)
| Free_hostname (block : option (list byte))
| Free_session
| Xmalloc0_session
| Xmalloc0_watcher
| Printf_got_hostname (h : option (list byte))
| Log_fcntl_failed
| Log_accept_failed (e : errno_t)
| Log_getaddrinfo
| Log_socket_listen.

Definition set_io (ssl : ssl_session) (w : ev_io) : ssl_session :=
  mk_session (fd ssl) w (hostname ssl) (state ssl).

Definition set_hostname (ssl : ssl_session) (h : option (list byte)) : ssl_session :=
  mk_session (fd ssl) (io ssl) h (state ssl).

Definition set_state (ssl : ssl_session) (s : ssl_state) : ssl_session :=
  mk_session (fd ssl) (io ssl) (hostname ssl) s.

(** [ev_io_stop(ssl->loop, &ssl->io)] *)
Definition ev_io_stop (ssl : ssl_session) : ssl_session * list effect :=
  (set_io ssl (mk_io (io_cb (io ssl)) (io_fd (io ssl)) (io_events (io ssl)) false),
   [Ev_io_stop (io_fd (io ssl))]).

(** ** The session's callbacks *)

(** What is left of a session after a callback: the object, or nothing
    once [terminate_session] has released it. *)
Inductive life : Type :=
| Live (ssl : ssl_session)
| Freed.

Definition terminate_session (ssl : ssl_session) : life * list effect :=
  (Freed,
   [Ev_io_stop (io_fd (io ssl));
    Sys_close (fd ssl);
    Free_hostname (hostname ssl);
    Free_session]).

(** Assignments to the members of a [struct ssl_alert]; [i] indexes the
    two-byte arrays [version] and [len]. *)
Definition set_alert_type (a : ssl_alert) (v : Z) : ssl_alert :=
  mk_alert (byte_of_Z v) (alert_version0 a) (alert_version1 a)
    (alert_len0 a) (alert_len1 a) (alert_level a) (alert_description a).

Definition set_alert_version (a : ssl_alert) (i : Z) (v : Z) : ssl_alert :=
  if i =? 0 then
    mk_alert (alert_type a) (byte_of_Z v) (alert_version1 a)
      (alert_len0 a) (alert_len1 a) (alert_level a) (alert_description a)
  else
    mk_alert (alert_type a) (alert_version0 a) (byte_of_Z v)
      (alert_len0 a) (alert_len1 a) (alert_level a) (alert_description a).

Definition set_alert_len (a : ssl_alert) (i : Z) (v : Z) : ssl_alert :=
  if i =? 0 then
    mk_alert (alert_type a) (alert_version0 a) (alert_version1 a)
      (byte_of_Z v) (alert_len1 a) (alert_level a) (alert_description a)
  else
    mk_alert (alert_type a) (alert_version0 a) (alert_version1 a)
      (alert_len0 a) (byte_of_Z v) (alert_level a) (alert_description a).

Definition set_alert_level (a : ssl_alert) (v : Z) : ssl_alert :=
  mk_alert (alert_type a) (alert_version0 a) (alert_version1 a)
    (alert_len0 a) (alert_len1 a) (byte_of_Z v) (alert_description a).

Definition set_alert_description (a : ssl_alert) (v : Z) : ssl_alert :=
  mk_alert (alert_type a) (alert_version0 a) (alert_version1 a)
    (alert_len0 a) (alert_len1 a) (alert_level a) (byte_of_Z v).

(** [alert_cb]; [stack] is what the automatic variable [alert] holds on
    entry, which the language leaves indeterminate.  The members are
    assigned in the order of the source, [version[0]] twice. *)
Definition alert_cb (stack : ssl_alert) (ssl : ssl_session) : life * list effect :=
  match state ssl with
  | ssl_state_alert =>
      let alert := stack in
      let alert := set_alert_type alert tls_alert in
      let alert := set_alert_version alert 0 0x03 in
      let alert := set_alert_version alert 0 0x01 in
      let alert := set_alert_len alert 1 2 in
      let alert := set_alert_level alert tls_alert_level in
      let alert := set_alert_description alert tls_alert_description in
      let ssl := set_state ssl ssl_state_alert_sent in
      (Live ssl, [Sys_write (fd ssl) (alert_bytes alert)])
  | _ => terminate_session ssl
  end.

(** [send_alert]: [ev_io_init] fills the watcher, [ev_io_start] starts it. *)
Definition send_alert (ssl : ssl_session) : ssl_session * list effect :=
  let ssl := set_state ssl ssl_state_alert in
  let ssl := set_io ssl (mk_io cb_alert (fd ssl) EV_WRITE false) in
  let ssl := set_io ssl (mk_io cb_alert (fd ssl) EV_WRITE true) in
  (ssl, [Ev_io_init cb_alert (fd ssl) EV_WRITE; Ev_io_start cb_alert (fd ssl) EV_WRITE]).

(** ** The wire-format decoder *)

(** [parse_extension(ssl, pos, remain)]: the return value, the session
    after the call and the effects of the call.  The cast in
    [(const struct sni_ext * )pos + 4] binds tighter than the addition, so
    [sni] lies [4 * sizeof(struct sni_ext)] bytes after [pos]. *)
Definition parse_extension (ssl : ssl_session) (buf : list byte) (pos remain : Z)
  : outcome (Z * ssl_session * list effect) :=
  if remain <? 0 then Done (-1, ssl, [])
  else if remain <? 4 then Done (0, ssl, [])
  else
    type <- int_2byte_le buf pos ;;
    tlen <- int_2byte_le buf (pos + 2) ;;
    if to_uint remain <? tlen then Done (-1, ssl, [])
    else if type =? sni_type then
      if tlen <? sizeof_sni_ext then Done (-1, ssl, [])
      else
        let sni := pos + 4 * sizeof_sni_ext in
        slen <- int_2byte_le buf (sni + sni_ext_slen) ;;
        if negb (slen =? to_uint (tlen - 2)) then Done (-1, ssl, [])
        else
          ty <- load buf (sni + sni_ext_type) ;;
          if negb (ty =? sni_host) then Done (-1, ssl, [])
          else
            hl <- int_2byte_le buf (sni + sni_ext_hlen) ;;
            if negb (hl =? to_uint (tlen - 3)) then Done (-1, ssl, [])
            else
              hlen <- int_2byte_le buf (sni + sni_ext_hlen) ;;
              host <- load_bytes buf (sni + sni_ext_host) (Z.to_nat hlen) ;;
              let block := host ++ [x00] in
              Done (to_int (tlen + 4),
                    set_hostname ssl (Some block),
                    [Xmalloc_hostname (to_uint (hlen + 1)); Assign_hostname block])
    else Done (to_int (tlen + 4), ssl, []).

(** The [while ((ret = parse_extension(ssl, p, remain)) > 0)] loop; the
    result is the last [ret].  Every turn consumes at least four bytes of
    [remain], so [fuel] only bounds the recursion (see
    [extensions_loop_fuel]). *)
Fixpoint extensions_loop (fuel : nat) (ssl : ssl_session) (buf : list byte)
    (p remain : Z) : outcome (Z * ssl_session * list effect) :=
  match fuel with
  | O => OutOfFuel
  | S fuel' =>
      r <- parse_extension ssl buf p remain ;;
      let '(ret, ssl1, ev1) := r in
      if 0 <? ret then
        r2 <- extensions_loop fuel' ssl1 buf (p + ret) (to_int (remain - ret)) ;;
        let '(ret2, ssl2, ev2) := r2 in
        Done (ret2, ssl2, ev1 ++ ev2)
      else Done (ret, ssl1, ev1)
  end.

(** The header test of [parse_ssl_greeting], [true] when the buffer is
    "not an SSL packet". *)
Definition not_ssl_packet (buf : list byte) (len : Z) : outcome bool :=
  m0 <- load buf 0 ;;
  m1 <- load buf 1 ;;
  m2 <- load buf 2 ;;
  if negb (forallb (fun ab => fst ab =? snd ab) (combine [m0; m1; m2] tls_magic))
  then Done true
  else
    ty <- load buf ssl_header_type ;;
    if negb (ty =? tls_greeting) then Done true
    else
      rl <- int_2byte_le buf ssl_header_len ;;
      if negb (rl =? to_uint (len - 5)) then Done true
      else
        gl <- int_3byte_le buf ssl_header_greeting_len ;;
        Done (negb (gl =? to_uint (len - 5 - 4))).

(** The part of [parse_ssl_greeting] from "Session id" to "Now
    extensions": the three length-prefixed fields are stepped over.
    [Some (p, remain)] are the cursor and the count on reaching the
    extensions, [None] stands for a [goto err]. *)
Definition skip_to_extensions (sgn : bool) (buf : list byte) (p remain : Z)
  : outcome (option (Z * Z)) :=
  (* Session id *)
  c <- load_char sgn buf p ;;
  let tlen := to_uint c in
  if to_uint (remain + 4) <=? tlen then Done None
  else
    let p := p + tlen + 1 in
    let remain := to_int (remain - (tlen + 1)) in
    (* Cipher suite *)
    tlen <- int_2byte_le buf p ;;
    if to_uint (remain + 4) <=? tlen then Done None
    else
      let p := p + tlen + 2 in
      let remain := to_int (remain - (tlen + 2)) in
      (* Compression methods *)
      c <- load_char sgn buf p ;;
      let tlen := to_uint c in
      if to_uint (remain + 4) <=? tlen then Done None
      else
        let p := p + tlen + 1 in
        let remain := to_int (remain - (tlen + 1)) in
        Done (Some (p, remain)).

(** The part of [parse_ssl_greeting] from "Session id" to the [while]
    loop's exit: [Some ret] with the loop's last [ret], or [None] for a
    [goto err]. *)
Definition parse_hello_body (sgn : bool) (ssl : ssl_session) (buf : list byte)
    (p remain : Z) : outcome (option Z * ssl_session * list effect) :=
  r <- skip_to_extensions sgn buf p remain ;;
  match r with
  | None => Done (None, ssl, [])
  | Some (p, remain) =>
      (* Now extensions *)
      tlen <- int_2byte_le buf p ;;
      if to_uint remain <? tlen then Done (None, ssl, [])
      else
        let p := p + 2 in
        let remain := to_int (remain - 2) in
        r <- extensions_loop (S (Z.to_nat remain)) ssl buf p remain ;;
        let '(ret, ssl', ev) := r in
        Done (Some ret, ssl', ev)
  end.

Definition parse_ssl_greeting (sgn : bool) (ssl : ssl_session) (buf : list byte)
    (len : Z) : outcome (ssl_session * list effect) :=
  let '(ssl, ev_stop) := ev_io_stop ssl in
  if len mod 2 ^ 64 <=? sizeof_ssl_header then
    let '(ssl, ev) := send_alert ssl in Done (ssl, ev_stop ++ ev)
  else
    bad <- not_ssl_packet buf len ;;
    if (bad : bool) then
      let '(ssl, ev) := send_alert ssl in Done (ssl, ev_stop ++ ev)
    else
      let p := sizeof_ssl_header in
      let remain := to_int (len - sizeof_ssl_header) in
      r <- parse_hello_body sgn ssl buf p remain ;;
      let '(ret, ssl, ev_ext) := r in
      match ret with
      | Some 0 =>
          let ev_print := [Printf_got_hostname (hostname ssl)] in
          let '(ssl, ev) := send_alert ssl in
          Done (ssl, ev_stop ++ ev_ext ++ ev_print ++ ev)
      | _ =>
          let '(ssl, ev) := send_alert ssl in
          Done (ssl, ev_stop ++ ev_ext ++ ev)
      end.

(** [greet_cb]: [r] is what [read(w->fd, buf, sizeof buf)] returned and
    [data] the content of the automatic array [buf] after the call: the
    [r] bytes received when [r > 0], followed by what the array held. *)
Definition greet_cb (sgn : bool) (ssl : ssl_session) (r : Z) (data : list byte)
  : outcome (life * list effect) :=
  let ev_read := [Sys_read (io_fd (io ssl)) r] in
  if r <=? 0 then
    let '(l, ev) := terminate_session ssl in Done (l, ev_read ++ ev)
  else
    r' <- parse_ssl_greeting sgn ssl data r ;;
    let '(ssl, ev) := r' in
    Done (Live ssl, ev_read ++ ev).

(** ** The reactor's view of one session

    libev calls a started watcher's callback when its descriptor is ready
    for the watcher's event, and never calls a stopped one.  [Readable r
    data] says the descriptor is readable and the [read] of the callback
    will return [r], storing [data]; [Writable stack] says it is writable,
    [stack] being the indeterminate content of the callback's frame. *)
Inductive readiness : Type :=
| Readable (r : Z) (data : list byte)
| Writable (stack : ssl_alert).

Definition deliver (sgn : bool) (l : life) (e : readiness)
  : outcome (life * list effect) :=
  match l with
  | Freed => Done (Freed, [])
  | Live ssl =>
      if io_active (io ssl) then
        match io_cb (io ssl), io_events (io ssl), e with
        | cb_greet, EV_READ, Readable r data => greet_cb sgn ssl r data
        | cb_alert, EV_WRITE, Writable stack => Done (alert_cb stack ssl)
        | _, _, _ => Done (Live ssl, [])
        end
      else Done (Live ssl, [])
  end.

Fixpoint run (sgn : bool) (l : life) (evs : list readiness)
  : outcome (life * list effect) :=
  match evs with
  | [] => Done (l, [])
  | e :: evs' =>
      r <- deliver sgn l e ;;
      let '(l1, tr1) := r in
      r2 <- run sgn l1 evs' ;;
      let '(l2, tr2) := r2 in
      Done (l2, tr1 ++ tr2)
  end.

(** ** The listener *)

(** What a system call answers: a value, or -1 with [errno] set. *)
Inductive sysret : Type :=
| Ret (v : Z)
| Fail (e : errno_t).

Definition ret_val (r : sysret) : Z :=
  match r with Ret v => v | Fail _ => -1 end.

Definition set_errno (r : sysret) (errno : errno_t) : errno_t :=
  match r with Ret _ => errno | Fail e => e end.

(** The kernel's answers to the calls of one [accept_from_socket]. *)
Record accept_answers : Type := mk_accept_answers {
  k_accept : sysret;
  k_acc_getfl : sysret;
  k_acc_setfl : sysret;
  k_acc_setfd : sysret
}.

(** [accept_from_socket(sock)]: the return value, [errno] on return and
    the effects. *)
Definition accept_from_socket (sock : Z) (k : accept_answers) (errno : errno_t)
  : Z * errno_t * list effect :=
  let nfd := ret_val (k_accept k) in
  let errno := set_errno (k_accept k) errno in
  let ev := [Sys_accept sock nfd] in
  if nfd =? -1 then
    match errno with
    | EAGAIN | EINTR | EWOULDBLOCK => (0, errno, ev)
    | EOTHER _ => (-1, errno, ev)
    end
  else
    let ofl := ret_val (k_acc_getfl k) in
    let errno := set_errno (k_acc_getfl k) errno in
    let ev := ev ++ [Sys_fcntl_getfl sock ofl] in
    let r := ret_val (k_acc_setfl k) in
    let errno := set_errno (k_acc_setfl k) errno in
    let ev := ev ++ [Sys_fcntl_setfl_nonblock sock ofl r] in
    if r =? -1 then
      (-1, errno, ev ++ [Sys_close sock; Sys_close nfd])
    else
      let r := ret_val (k_acc_setfd k) in
      let errno := set_errno (k_acc_setfd k) errno in
      let ev := ev ++ [Sys_fcntl_setfd_cloexec nfd r] in
      if r =? -1 then
        (-1, errno, ev ++ [Log_fcntl_failed; Sys_close nfd])
      else (nfd, errno, ev).

(** The session [accept_cb] builds on descriptor [nfd]: [xmalloc0]
    zeroes the block, so [hostname] is NULL and [state] is
    [ssl_state_init]; then [fd] is set and the watcher is initialised
    with [greet_cb] for [EV_READ] and started. *)
Definition fresh_session (nfd : Z) : ssl_session :=
  mk_session nfd (mk_io cb_greet nfd EV_READ true) None ssl_state_init.

(** [accept_cb] on the watcher of listening socket [w_fd]: the session
    it builds, if any, and the effects. *)
Definition accept_cb (w_fd : Z) (k : accept_answers) (errno : errno_t)
  : option ssl_session * list effect :=
  let '(nfd, errno, ev) := accept_from_socket w_fd k errno in
  if 0 <? nfd then
    (Some (fresh_session nfd),
     ev ++ [Xmalloc0_session; Ev_io_init cb_greet nfd EV_READ;
            Ev_io_start cb_greet nfd EV_READ])
  else (None, ev ++ [Log_accept_failed errno]).

(** The kernel's answers to the calls of one [listen_on]. *)
Record listen_answers : Type := mk_listen_answers {
  k_socket : sysret;
  k_setfd : sysret;
  k_getfl : sysret;
  k_setfl : sysret;
  k_bind : sysret;
  k_listen : sysret
}.

Definition listen_on (k : listen_answers) : Z * list effect :=
  let sock := ret_val (k_socket k) in
  let ev := [Sys_socket sock] in
  if sock =? -1 then (-1, ev)
  else
    let r := ret_val (k_setfd k) in
    let ev := ev ++ [Sys_fcntl_setfd_cloexec sock r] in
    if r =? -1 then (-1, ev ++ [Sys_close sock])
    else
      let ofl := ret_val (k_getfl k) in
      let ev := ev ++ [Sys_setsockopt_reuseaddr sock; Sys_fcntl_getfl sock ofl] in
      let r := ret_val (k_setfl k) in
      let ev := ev ++ [Sys_fcntl_setfl_nonblock sock ofl r] in
      if r =? -1 then (-1, ev ++ [Sys_close sock])
      else
        let r := ret_val (k_bind k) in
        let ev := ev ++ [Sys_bind sock r] in
        if r =? -1 then (-1, ev ++ [Sys_close sock])
        else
          let r := ret_val (k_listen k) in
          let ev := ev ++ [Sys_listen sock r] in
          if r =? -1 then (-1, ev ++ [Sys_close sock])
          else (sock, ev).

(** The [while (cur_ai != NULL)] loop of [start_listen] over the list
    [getaddrinfo] returned, one [listen_answers] per address. *)
Fixpoint start_listen_loop (cur_ai : list listen_answers) : bool * list effect :=
  match cur_ai with
  | [] => (true, [])
  | k :: ai_next =>
      let '(sock, ev) := listen_on k in
      if sock =? -1 then (false, ev ++ [Log_socket_listen])
      else
        let ev := ev ++ [Xmalloc0_watcher; Ev_io_init cb_accept sock EV_READ;
                         Ev_io_start cb_accept sock EV_READ] in
        let '(ok, ev') := start_listen_loop ai_next in
        (ok, ev ++ ev')
  end.

(** [start_listen]: [gai] is what [getaddrinfo] returned and [res] the
    list it produced. *)
Definition start_listen (gai : Z) (res : list listen_answers) : bool * list effect :=
  if negb (gai =? 0) then (false, [Log_getaddrinfo])
  else start_listen_loop res.

(** ** Reading traces *)

Definition bytes_of (l : list Z) : list byte := map byte_of_Z l.

Definition is_write (e : effect) : bool :=
  match e with Sys_write _ _ => true | _ => false end.

Definition is_close (e : effect) : bool :=
  match e with Sys_close _ => true | _ => false end.

Definition is_assign (e : effect) : bool :=
  match e with Assign_hostname _ => true | _ => false end.

Definition is_free_hostname (e : effect) : bool :=
  match e with Free_hostname _ => true | _ => false end.

Definition is_log (e : effect) : bool :=
  match e with
  | Log_fcntl_failed | Log_accept_failed _ | Log_getaddrinfo | Log_socket_listen => true
  | _ => false
  end.

Definition count (f : effect -> bool) (tr : list effect) : nat :=
  length (filter f tr).

(** The effects that follow the first [close] of a trace. *)
Fixpoint after_close (tr : list effect) : list effect :=
  match tr with
  | [] => []
  | Sys_close _ :: tr' => tr'
  | _ :: tr' => after_close tr'
  end.

(** The descriptors a trace opened with [socket] or [accept] and has
    not closed by its end. *)
Fixpoint open_fds (tr : list effect) (acc : list Z) : list Z :=
  match tr with
  | [] => acc
  | Sys_socket d :: tr' => open_fds tr' (if d =? -1 then acc else acc ++ [d])
  | Sys_accept _ d :: tr' => open_fds tr' (if d =? -1 then acc else acc ++ [d])
  | Sys_close d :: tr' => open_fds tr' (filter (fun x => negb (x =? d)) acc)
  | _ :: tr' => open_fds tr' acc
  end.

(** A 43-byte [struct ssl_header] that passes the header test for a
    buffer of [len] bytes. *)
Definition hello_header (len : Z) : list Z :=
  [0x16; 0x3; 0x1; (len - 5) mod 256; (len - 5) / 256; 0x1;
   (len - 9) mod 256; ((len - 9) / 256) mod 256; (len - 9) / 65536; 3; 3]
  ++ repeat 0 32.

(** ** Sample inputs *)

(** A 44-byte record: the header, then a session-id length of 3 with no
    byte left after it. *)
Definition hello_short_session_id : list byte :=
  bytes_of (hello_header 44 ++ [3]).

(** The body every sample hello below starts with: an empty session id,
    one cipher suite, one compression method. *)
Definition hello_fields : list Z := [0] ++ [2; 0; 0x2f; 0] ++ [1; 0].

Definition example_com : list Z :=
  [0x65; 0x78; 0x61; 0x6d; 0x70; 0x6c; 0x65; 0x2e; 0x63; 0x6f; 0x6d].

(** A server_name extension laid out as the decoder's checks ask: type
    0, payload length 14, list length 12 = 14 - 2, name type 0, host-name
    length 11 = 14 - 3, then the host name. *)
Definition sni_example_com : list Z :=
  [0; 0] ++ [14; 0] ++ [12; 0] ++ [0] ++ [11; 0] ++ example_com.

(** 72 bytes: header, fields, an extensions block of 20 bytes holding
    [sni_example_com]. *)
Definition hello_example_com : list byte :=
  bytes_of (hello_header 72 ++ hello_fields ++ [20; 0] ++ sni_example_com).

(** 90 bytes: the same hello with 18 further bytes, a length of 16 and
    a payload of 16 zero bytes, after the host name. *)
Definition hello_example_com_padded : list byte :=
  bytes_of (hello_header 90 ++ hello_fields ++ [38; 0] ++ sni_example_com
            ++ [16; 0] ++ repeat 0 16).

(** Two extensions of type 0 and a third of type 1 whose payload holds,
    24 bytes after each of the first two, the five bytes and the name
    that [parse_extension] looks at. *)
Definition two_sni_extensions : list Z :=
  [0; 0; 6; 0] ++ repeat 0 6 ++
  [0; 0; 6; 0] ++ repeat 0 6 ++
  [1; 0; 18; 0] ++ [4; 0; 0; 3; 0] ++ [0x61; 0x62; 0x63] ++ [0; 0]
                ++ [4; 0; 0; 3; 0] ++ [0x78; 0x79; 0x7a].

Definition hello_two_sni : list byte :=
  bytes_of (hello_header 94 ++ hello_fields ++ [42; 0] ++ two_sni_extensions).

(** An extension of type 0 and one of type 1 whose payload holds what
    [parse_extension] reads for the first. *)
Definition trailing_sni : list Z :=
  [0; 0; 6; 0] ++ repeat 0 6 ++
  [1; 0; 18; 0] ++ repeat 0 10 ++ [4; 0; 0; 3; 0] ++ [0x61; 0x62; 0x63].

(** 84 bytes: the declared extensions-block length is 0 and
    [trailing_sni] follows it. *)
Definition hello_empty_block_then_sni : list byte :=
  bytes_of (hello_header 84 ++ hello_fields ++ [0; 0] ++ trailing_sni).

(** The kernel's answers when every call of [listen_on] succeeds and
    [socket] yields [sock]. *)
Definition answers_ok (sock : Z) : listen_answers :=
  mk_listen_answers (Ret sock) (Ret 0) (Ret 2) (Ret 0) (Ret 0) (Ret 0).

(** The same, except that [bind] fails. *)
Definition answers_bind_fails (sock : Z) : listen_answers :=
  mk_listen_answers (Ret sock) (Ret 0) (Ret 2) (Ret 0) (Fail (EOTHER 98)) (Ret 0).

(** Two contents of the frame of [alert_cb]. *)
Definition stack_ff : ssl_alert := mk_alert xff xff xff xff xff xff xff.
Definition stack_00 : ssl_alert := mk_alert x00 x00 x00 x00 x00 x00 x00.

(** ** Predicates on sessions, traces and buffers *)

(** The effects of [parse_extension]. *)
Definition hostname_effect (e : effect) : Prop :=
  match e with
  | Xmalloc_hostname _ | Assign_hostname _ => True
  | _ => False
  end.

(** An effect that is neither a [write] nor a [close]. *)
Definition silent (e : effect) : Prop :=
  is_write e = false /\ is_close e = false.

(** What the first [read] of a run returns. *)
Fixpoint first_read (evs : list readiness) : option Z :=
  match evs with
  | [] => None
  | Readable r _ :: _ => Some r
  | Writable _ :: evs' => first_read evs'
  end.

(** The watcher [send_alert] leaves on a session. *)
Definition alert_watcher (ssl : ssl_session) : Prop :=
  io ssl = mk_io cb_alert (fd ssl) EV_WRITE true.

(** The [write] of [alert_cb] when its frame held [stack]. *)
Definition alert_write (ssl : ssl_session) (stack : ssl_alert) : effect :=
  Sys_write (fd ssl) [x15; x01; alert_version1 stack; alert_len0 stack; x02; x02; x40].

(** Two buffers hold the same bytes except at offsets [p] and [p + 1]. *)
Definition agree_outside (b1 b2 : list byte) (p : Z) : Prop :=
  forall off, off < p \/ p + 2 <= off -> load b1 off = load b2 off.

(** The automatic array [buf[8192]] of [greet_cb] after a [read] that
    stored [data]: the received bytes, then the rest of the array, here
    filled with zero bytes. *)
Definition stack_buf (data : list byte) : list byte :=
  data ++ repeat x00 (Z.to_nat 8192 - length data).

Definition is_xmalloc_hostname (e : effect) : bool :=
  match e with Xmalloc_hostname _ => true | _ => false end.

(** ** Wire layouts, for stating what the decoder accepts *)

(** A 16-bit and a 24-bit quantity, low byte first, as [int_2byte_le]
    and [int_3byte_le] read them. *)
Definition le16 (n : Z) : list byte := [byte_of_Z n; byte_of_Z (n / 256)].

Definition le24 (n : Z) : list byte :=
  [byte_of_Z n; byte_of_Z (n / 256); byte_of_Z (n / 65536)].

(** One extension: type, payload length, payload. *)
Definition encode_extension (e : Z * list byte) : list byte :=
  le16 (fst e) ++ le16 (Z.of_nat (length (snd e))) ++ snd e.

Fixpoint encode_extensions (exts : list (Z * list byte)) : list byte :=
  match exts with
  | [] => []
  | e :: exts' => encode_extension e ++ encode_extensions exts'
  end.

(** An extension the walk steps over: its type is not [sni_type] and its
    fields fit 16 bits. *)
Definition plain_extension (e : Z * list byte) : Prop :=
  0 < fst e < 65536 /\ Z.of_nat (length (snd e)) < 65536.

Definition is_free_session (e : effect) : bool :=
  match e with Free_session => true | _ => false end.

Definition is_printf (e : effect) : bool :=
  match e with Printf_got_hostname _ => true | _ => false end.

Definition is_io_start (e : effect) : bool :=
  match e with Ev_io_start _ _ _ => true | _ => false end.

Definition is_io_stop (e : effect) : bool :=
  match e with Ev_io_stop _ => true | _ => false end.

(** The sockets [start_listen] has set up when it returns: those of the
    addresses before the first one for which [listen_on] fails. *)
Fixpoint sockets_set_up (res : list listen_answers) : list Z :=
  match res with
  | [] => []
  | k :: ai_next =>
      if fst (listen_on k) =? -1 then []
      else fst (listen_on k) :: sockets_set_up ai_next
  end.

(** The number of write-readiness events of a list. *)
Fixpoint writables (evs : list readiness) : nat :=
  match evs with
  | [] => O
  | Readable _ _ :: evs' => writables evs'
  | Writable _ :: evs' => S (writables evs')
  end.

(** The events that follow the first read-readiness event. *)
Fixpoint after_first_read (evs : list readiness) : list readiness :=
  match evs with
  | [] => []
  | Readable _ _ :: evs' => evs'
  | Writable _ :: evs' => after_first_read evs'
  end.

(** The hostname pointer after the assignments of a trace, starting
    from [h]. *)
Definition last_assigned (tr : list effect) (h : option (list byte))
  : option (list byte) :=
  fold_left (fun h e => match e with Assign_hostname b => Some b | _ => h end) tr h.

(** A ClientHello record as the decoder expects it: the 43-byte header
    with its little-endian lengths, then session id, cipher suites and
    compression methods, each behind its length, then the extensions
    block behind its 2-byte length. *)
Definition client_hello_body (sid cs cm block : list byte) : list byte :=
  [byte_of_Z (Z.of_nat (length sid))] ++ sid ++
  le16 (Z.of_nat (length cs)) ++ cs ++
  [byte_of_Z (Z.of_nat (length cm))] ++ cm ++
  le16 (Z.of_nat (length block)) ++ block.

Definition client_hello (sid cs cm block : list byte) : list byte :=
  let body := client_hello_body sid cs cm block in
  let len := 43 + Z.of_nat (length body) in
  [x16; x03; x01] ++ le16 (len - 5) ++ [x01] ++ le24 (len - 9) ++
  repeat x00 34 ++ body.

(** Every out-of-bounds read of a computation is past the end of the
    buffer, none in front of it. *)
Definition past_end {A : Type} (buf : list byte) (m : outcome A) : Prop :=
  forall off, m = OutOfBounds off -> Z.of_nat (length buf) <= off.

(** ** Further sample inputs *)

(** The array [buf[8192]] of [greet_cb] after a read that stored the 44
    bytes of [hello_short_session_id], when the six bytes that follow
    are 00 00 00 00 00 80, left there by an earlier read. *)
Definition array_after_short_read : list byte :=
  hello_short_session_id ++ bytes_of [0; 0; 0; 0; 0; 0x80]
    ++ repeat x00 (Z.to_nat 8192 - 50).

(** A read that fills the array: 8192 bytes with a valid header, an
    empty session id and a cipher-suite length of 8151, three more than
    the 8148 bytes that follow the length field. *)
Definition hello_full_array : list byte :=
  bytes_of (hello_header 8192 ++ [0] ++ [0xd7; 0x1f]
            ++ repeat 0 (Z.to_nat 8192 - 46)).

(** 72 bytes: a declared extensions-block length of 0, then the
    server_name extension [sni_example_com]. *)
Definition hello_empty_block_then_example_com : list byte :=
  bytes_of (hello_header 72 ++ hello_fields ++ [0; 0] ++ sni_example_com).

(** 90 bytes: the same, with 18 further bytes after the host name as in
    [hello_example_com_padded]. *)
Definition hello_empty_block_then_example_com_padded : list byte :=
  bytes_of (hello_header 90 ++ hello_fields ++ [0; 0] ++ sni_example_com
            ++ [16; 0] ++ repeat 0 16).

(** The same 90 bytes with type 10 instead of 0 in the extension that
    follows the empty block. *)
Definition hello_empty_block_then_other_padded : list byte :=
  bytes_of (hello_header 90 ++ hello_fields ++ [0; 0]
            ++ [10; 0] ++ skipn 2 sni_example_com
            ++ [16; 0] ++ repeat 0 16).

(** * Properties *)

(** ** Termination of a session on a failed read *)

(** C5: when the [read] of [greet_cb] returns 0 or a negative value the
    session is released at once: the watcher is stopped, then the socket
    is closed, then the hostname pointer (NULL or not) and the session
    are freed, each exactly once, and nothing is written. *)
Theorem greet_cb_nonpositive_read_terminates :
  forall (sgn : bool) (ssl : ssl_session) (r : Z) (data : list byte),
    r <= 0 ->
    exists tr,
      greet_cb sgn ssl r data = Done (Freed, tr) /\
      tr = [Sys_read (io_fd (io ssl)) r;
            Ev_io_stop (io_fd (io ssl));
            Sys_close (fd ssl);
            Free_hostname (hostname ssl);
            Free_session] /\
      count is_write tr = 0%nat /\
      count is_close tr = 1%nat /\
      count is_free_hostname tr = 1%nat.
Proof.
  intros sgn ssl r data Hr.
  unfold greet_cb.
  apply Z.leb_le in Hr. rewrite Hr. simpl.
  eexists. split; [reflexivity|]. split; [reflexivity|].
  repeat split.
Qed.

Lemma greet_cb_nonpositive_read_terminates_witness :
  exists tr,
    greet_cb true (fresh_session 7) 0 [] = Done (Freed, tr) /\
    tr = [Sys_read 7 0; Ev_io_stop 7; Sys_close 7; Free_hostname None; Free_session] /\
    count is_write tr = 0%nat /\
    count is_close tr = 1%nat /\
    count is_free_hostname tr = 1%nat.
Proof.
  apply (greet_cb_nonpositive_read_terminates true (fresh_session 7) 0 []).
  lia.
Defined.

(** ** The alert record *)

Lemma alert_bytes_length :
  forall a, Z.of_nat (length (alert_bytes a)) = sizeof_ssl_alert.
Proof. intros a. reflexivity. Qed.

Lemma alert_cb_writes :
  forall (stack : ssl_alert) (ssl : ssl_session),
    state ssl = ssl_state_alert ->
    alert_cb stack ssl =
      (Live (set_state ssl ssl_state_alert_sent),
       [Sys_write (fd ssl)
          [x15; x01; alert_version1 stack; alert_len0 stack; x02; x02; x40]]).
Proof.
  intros stack ssl H. unfold alert_cb. rewrite H. reflexivity.
Qed.

(** C3: the seven bytes [alert_cb] writes keep whatever the stack held at
    [version[1]] and [len[0]]: [version[0]] is assigned twice and those
    two bytes never, so the record is not one fixed value; with 0xff on
    the stack the version field is 01 ff and the length field ff 02. *)
Theorem alert_cb_leaves_bytes_unset :
  let ssl := fst (send_alert (fresh_session 7)) in
  snd (alert_cb stack_ff ssl) = [Sys_write 7 [x15; x01; xff; xff; x02; x02; x40]] /\
  snd (alert_cb stack_00 ssl) = [Sys_write 7 [x15; x01; x00; x00; x02; x02; x40]] /\
  snd (alert_cb stack_ff ssl) <> snd (alert_cb stack_00 ssl).
Proof.
  cbv zeta. repeat split. discriminate.
Qed.

(** ** Accepting connections *)

(** C7: when [accept] answers -1 with [EAGAIN], [EINTR] or
    [EWOULDBLOCK], [accept_from_socket] returns 0 and [accept_cb], whose
    test is [nfd > 0], takes its [else] branch: no session is built and
    the watcher is left alone, but "accept failed" is logged. *)
Theorem accept_cb_logs_transient_accept :
  forall (w_fd : Z) (g sl sd : sysret) (errno : errno_t),
    accept_cb w_fd (mk_accept_answers (Fail EAGAIN) g sl sd) errno =
      (None, [Sys_accept w_fd (-1); Log_accept_failed EAGAIN]) /\
    accept_cb w_fd (mk_accept_answers (Fail EINTR) g sl sd) errno =
      (None, [Sys_accept w_fd (-1); Log_accept_failed EINTR]) /\
    accept_cb w_fd (mk_accept_answers (Fail EWOULDBLOCK) g sl sd) errno =
      (None, [Sys_accept w_fd (-1); Log_accept_failed EWOULDBLOCK]) /\
    count is_log (snd (accept_cb w_fd (mk_accept_answers (Fail EAGAIN) g sl sd) errno))
      = 1%nat.
Proof.
  intros. repeat split.
Qed.

(** C8: after a successful [accept] on listening socket 3 that yields
    descriptor 4, [F_SETFL] with [O_NONBLOCK] is applied to descriptor 3;
    descriptor 4 gets [FD_CLOEXEC] only and is registered for reading
    without ever being set non-blocking. *)
Theorem accept_cb_sets_nonblock_on_listener :
  let tr := snd (accept_cb 3 (mk_accept_answers (Ret 4) (Ret 2) (Ret 0) (Ret 0))
                   (EOTHER 0)) in
  tr = [Sys_accept 3 4;
        Sys_fcntl_getfl 3 2;
        Sys_fcntl_setfl_nonblock 3 2 0;
        Sys_fcntl_setfd_cloexec 4 0;
        Xmalloc0_session;
        Ev_io_init cb_greet 4 EV_READ;
        Ev_io_start cb_greet 4 EV_READ] /\
  (forall ofl r, ~ In (Sys_fcntl_setfl_nonblock 4 ofl r) tr) /\
  In (Ev_io_start cb_greet 4 EV_READ) tr.
Proof.
  cbv zeta. split; [reflexivity|]. split.
  - intros ofl r H. simpl in H.
    repeat (destruct H as [H | H]; [discriminate H|]). exact H.
  - simpl. tauto.
Qed.

(** ** Listener set-up *)

(** C6: with two resolved addresses, the first set up on descriptor 3
    and the second failing in [bind], [start_listen] returns [false]
    after closing descriptor 4 only: descriptor 3 is still open, and its
    accept watcher still started, on the failure return. *)
Theorem start_listen_leaves_earlier_socket_open :
  let res := [answers_ok 3; answers_bind_fails 4] in
  fst (start_listen 0 res) = false /\
  open_fds (snd (start_listen 0 res)) [] = [3] /\
  ~ In (Sys_close 3) (snd (start_listen 0 res)) /\
  In (Ev_io_start cb_accept 3 EV_READ) (snd (start_listen 0 res)) /\
  ~ In (Ev_io_stop 3) (snd (start_listen 0 res)).
Proof.
  cbv zeta. split; [reflexivity|]. split; [reflexivity|].
  split; [|split].
  - intro H. simpl in H.
    repeat (destruct H as [H | H]; [discriminate H|]). exact H.
  - simpl. tauto.
  - intro H. simpl in H.
    repeat (destruct H as [H | H]; [discriminate H|]). exact H.
Qed.

(** ** The decoder on the sample inputs *)

(** C1: on the 44-byte record whose session-id length byte says 3 while
    no byte is left after it, the test [tlen >= remain + 4] lets the
    length pass and the cipher-suite length is then read at offset 47,
    past the 44 received bytes. *)
Theorem parse_ssl_greeting_reads_past_the_end :
  forall sgn : bool,
    length hello_short_session_id = 44%nat /\
    load hello_short_session_id 43 = Done 3 /\
    parse_ssl_greeting sgn (fresh_session 7) hello_short_session_id 44
      = OutOfBounds 47.
Proof.
  intros [|]; repeat split.
Qed.

(** C2: on a hello whose server_name extension carries "example.com" in
    the stated layout the sub-fields are looked for 24 bytes, not 4,
    after the start of the extension.  When the extension ends the
    received bytes that is a read at offset 76 of 72; in [greet_cb],
    where those offsets fall into the rest of the array, and when further
    bytes were received after the host name, the checks are made on
    unrelated bytes and fail.  In no case is the hostname set. *)
Theorem parse_ssl_greeting_misses_example_com :
  forall sgn : bool,
    length hello_example_com = 72%nat /\
    parse_ssl_greeting sgn (fresh_session 7) hello_example_com 72 = OutOfBounds 76 /\
    greet_cb sgn (fresh_session 7) 72 (stack_buf hello_example_com) =
      Done (Live (fst (send_alert (fresh_session 7))),
            [Sys_read 7 72; Ev_io_stop 7; Ev_io_init cb_alert 7 EV_WRITE;
             Ev_io_start cb_alert 7 EV_WRITE]) /\
    length hello_example_com_padded = 90%nat /\
    parse_ssl_greeting sgn (fresh_session 7) hello_example_com_padded 90 =
      Done (fst (send_alert (fresh_session 7)),
            [Ev_io_stop 7; Ev_io_init cb_alert 7 EV_WRITE;
             Ev_io_start cb_alert 7 EV_WRITE]) /\
    hostname (fst (send_alert (fresh_session 7))) = None.
Proof.
  intros [|]; repeat split; vm_compute; reflexivity.
Qed.

(** C9: on a hello with two extensions of type 0 that both pass the
    checks, [ssl->hostname] is assigned twice while the state is
    [ssl_state_init], the second block replacing the first; over the
    whole session two blocks are allocated and one, the second, is
    freed. *)
Theorem parse_ssl_greeting_assigns_hostname_twice :
  forall sgn : bool,
    (exists ssl' tr,
        parse_ssl_greeting sgn (fresh_session 7) hello_two_sni 94 = Done (ssl', tr) /\
        filter is_assign tr =
          [Assign_hostname (bytes_of [0x61; 0x62; 0x63; 0]);
           Assign_hostname (bytes_of [0x78; 0x79; 0x7a; 0])] /\
        count is_assign tr = 2%nat /\
        hostname ssl' = Some (bytes_of [0x78; 0x79; 0x7a; 0])) /\
    (exists tr,
        run sgn (Live (fresh_session 7))
          [Readable 94 (stack_buf hello_two_sni); Writable stack_00; Writable stack_00]
          = Done (Freed, tr) /\
        count is_xmalloc_hostname tr = 2%nat /\
        filter is_free_hostname tr =
          [Free_hostname (Some (bytes_of [0x78; 0x79; 0x7a; 0]))]).
Proof.
  intros sgn. split.
  - destruct sgn; do 2 eexists; (split; [vm_compute; reflexivity|]); repeat split.
  - destruct sgn; eexists; (split; [vm_compute; reflexivity|]); repeat split.
Qed.

(** ** Integer and load facts *)

Lemma to_uint_id : forall z, 0 <= z < 2 ^ 32 -> to_uint z = z.
Proof. intros z H. unfold to_uint. apply Z.mod_small. exact H. Qed.

Lemma to_uint_nonneg : forall z, 0 <= to_uint z < 2 ^ 32.
Proof. intros z. unfold to_uint. apply Z.mod_pos_bound. lia. Qed.

Lemma to_uint_neg : forall z, - 2 ^ 32 <= z < 0 -> to_uint z = z + 2 ^ 32.
Proof.
  intros z H. unfold to_uint.
  symmetry. apply (Z.mod_unique_pos z (2 ^ 32) (-1) (z + 2 ^ 32)); lia.
Qed.

Lemma to_int_id : forall z, int_range z -> to_int z = z.
Proof.
  intros z H. unfold int_range in H. unfold to_int.
  rewrite Z.mod_small; lia.
Qed.

Lemma to_int_range : forall z, int_range (to_int z).
Proof.
  intros z. unfold int_range, to_int.
  pose proof (Z.mod_pos_bound (z + 2 ^ 31) (2 ^ 32)). lia.
Qed.

Lemma byte_val_range : forall b, 0 <= byte_val b < 256.
Proof.
  intros b. unfold byte_val.
  pose proof (Byte.to_N_bounded b) as H. lia.
Qed.

Lemma load_done :
  forall buf off v,
    load buf off = Done v ->
    0 <= off < Z.of_nat (length buf) /\ 0 <= v < 256.
Proof.
  intros buf off v H. unfold load in H.
  destruct (off <? 0) eqn:Hneg; [discriminate H|].
  apply Z.ltb_ge in Hneg.
  destruct (nth_error buf (Z.to_nat off)) as [b|] eqn:Hn; [|discriminate H].
  injection H as <-.
  split; [|apply byte_val_range].
  assert (Z.to_nat off < length buf)%nat
    by (apply nth_error_Some; rewrite Hn; discriminate).
  lia.
Qed.

Lemma load_char_done :
  forall sgn buf off v,
    load_char sgn buf off = Done v ->
    0 <= off < Z.of_nat (length buf) /\ -128 <= v < 256.
Proof.
  intros sgn buf off v H. unfold load_char in H.
  destruct (load buf off) as [b| |] eqn:E; cbv beta iota delta [bind] in H; try discriminate H.
  apply load_done in E. destruct E as [Hoff Hb].
  injection H as <-. split; [exact Hoff|].
  destruct (sgn && (128 <=? b)) eqn:Hs; [|lia].
  apply andb_prop in Hs. destruct Hs as [_ Hs]. apply Z.leb_le in Hs. lia.
Qed.

Lemma lor_below :
  forall a b n, 0 <= a < 2 ^ n -> 0 <= b < 2 ^ n -> 0 < n -> 0 <= Z.lor a b < 2 ^ n.
Proof.
  intros a b n Ha Hb Hn.
  assert (Hnn : 0 <= Z.lor a b) by (apply Z.lor_nonneg; lia).
  split; [exact Hnn|].
  destruct (Z.eq_dec (Z.lor a b) 0) as [E|E].
  - rewrite E. apply Z.pow_pos_nonneg; lia.
  - apply Z.log2_lt_pow2; [lia|].
    rewrite Z.log2_lor by lia.
    apply Z.max_lub_lt.
    + destruct (Z.eq_dec a 0) as [->|Ha0]; [simpl; lia|].
      apply Z.log2_lt_pow2; lia.
    + destruct (Z.eq_dec b 0) as [->|Hb0]; [simpl; lia|].
      apply Z.log2_lt_pow2; lia.
Qed.

Lemma Done_inj : forall (A : Type) (a b : A), Done a = Done b -> a = b.
Proof.
  intros A a b H.
  exact (f_equal (fun o => match o with Done x => x | _ => a end) H).
Qed.

Lemma int_2byte_le_done :
  forall buf p v,
    int_2byte_le buf p = Done v ->
    0 <= p /\ p + 1 < Z.of_nat (length buf) /\ 0 <= v < 65536.
Proof.
  intros buf p v H. unfold int_2byte_le in H.
  destruct (load buf p) as [b0| |] eqn:E0; cbv beta iota delta [bind] in H; try discriminate H.
  destruct (load buf (p + 1)) as [b1| |] eqn:E1; cbv beta iota delta [bind] in H; try discriminate H.
  apply load_done in E0. apply load_done in E1.
  apply Done_inj in H. subst v.
  assert (Hl : 0 <= Z.lor b0 (Z.shiftl b1 8) < 2 ^ 16).
  { apply lor_below; [lia| |lia].
    rewrite Z.shiftl_mul_pow2 by lia. lia. }
  rewrite to_uint_id by lia. lia.
Qed.

(** ** What the extension walk does to a session *)

Ltac bind_inv H :=
  match type of H with
  | bind ?m _ = Done _ =>
      let E := fresh "E" in
      destruct m eqn:E; cbv beta iota zeta delta [bind] in H;
      [|discriminate H|discriminate H]
  | match ?m with Done _ => _ | OutOfBounds _ => _ | OutOfFuel => _ end = Done _ =>
      let E := fresh "E" in
      destruct m eqn:E; [|discriminate H|discriminate H]
  | (if ?c then _ else _) = Done _ =>
      let E := fresh "C" in
      destruct c eqn:E
  end.

Lemma parse_extension_session :
  forall ssl buf pos remain ret ssl' ev,
    parse_extension ssl buf pos remain = Done (ret, ssl', ev) ->
    fd ssl' = fd ssl /\ io ssl' = io ssl /\ state ssl' = state ssl /\
    Forall hostname_effect ev.
Proof.
  intros ssl buf pos remain ret ssl' ev H.
  unfold parse_extension in H.
  repeat bind_inv H;
    injection H as <- <- <-; simpl; repeat split;
    repeat (constructor; simpl; try exact I).
Qed.

Lemma parse_extension_ret :
  forall ssl buf pos remain ret ssl' ev,
    parse_extension ssl buf pos remain = Done (ret, ssl', ev) ->
    int_range remain ->
    0 < ret ->
    4 <= remain /\ 4 <= ret <= remain + 4.
Proof.
  intros ssl buf pos remain ret ssl' ev H Hr Hpos.
  unfold int_range in Hr.
  unfold parse_extension in H.
  destruct (remain <? 0) eqn:C0; [injection H as <- <- <-; lia|].
  destruct (remain <? 4) eqn:C1; [injection H as <- <- <-; lia|].
  apply Z.ltb_ge in C1.
  bind_inv H. bind_inv H.
  apply int_2byte_le_done in E0. destruct E0 as (_ & _ & Ht).
  destruct (to_uint remain <? a0) eqn:C2; [injection H as <- <- <-; lia|].
  apply Z.ltb_ge in C2. rewrite to_uint_id in C2 by lia.
  assert (Hret : to_int (a0 + 4) = a0 + 4)
    by (apply to_int_id; unfold int_range; lia).
  repeat bind_inv H; injection H as <- <- <-; lia.
Qed.

Lemma extensions_loop_session :
  forall fuel ssl buf p remain ret ssl' ev,
    extensions_loop fuel ssl buf p remain = Done (ret, ssl', ev) ->
    fd ssl' = fd ssl /\ io ssl' = io ssl /\ state ssl' = state ssl /\
    Forall hostname_effect ev.
Proof.
  induction fuel as [|fuel IH]; intros ssl buf p remain ret ssl' ev H;
    simpl in H; [discriminate H|].
  bind_inv H. destruct a as [[ret1 ssl1] ev1].
  apply parse_extension_session in E. destruct E as (Hf & Hi & Hs & Hev).
  destruct (0 <? ret1).
  - bind_inv H. destruct a as [[ret2 ssl2] ev2].
    injection H as <- <- <-.
    apply IH in E. destruct E as (Hf2 & Hi2 & Hs2 & Hev2).
    repeat split; try congruence.
    apply Forall_app. split; assumption.
  - injection H as <- <- <-. repeat split; assumption.
Qed.

(** Loads never run out of fuel; only the loop consumes any. *)
Lemma load_fuel : forall buf off, load buf off <> OutOfFuel.
Proof.
  intros buf off. unfold load.
  destruct (off <? 0); [discriminate|].
  destruct (nth_error buf (Z.to_nat off)); discriminate.
Qed.

Ltac fuel_cases :=
  repeat match goal with
    | |- Done _ <> OutOfFuel => discriminate
    | |- OutOfBounds _ <> OutOfFuel => discriminate
    | |- (if ?c then _ else _) <> OutOfFuel => destruct c
    | |- bind ?m _ <> OutOfFuel =>
        let E := fresh "E" in
        destruct m eqn:E; cbv beta iota zeta delta [bind];
        [ | discriminate | exfalso; revert E ]
    | |- match ?m with Done _ => _ | OutOfBounds _ => _ | OutOfFuel => _ end
         <> OutOfFuel =>
        let E := fresh "E" in
        destruct m eqn:E; [ | discriminate | exfalso; revert E ]
    end.

Lemma load_char_fuel : forall sgn buf off, load_char sgn buf off <> OutOfFuel.
Proof.
  intros sgn buf off. unfold load_char. fuel_cases. apply load_fuel.
Qed.

Lemma int_2byte_le_fuel : forall buf p, int_2byte_le buf p <> OutOfFuel.
Proof.
  intros buf p. unfold int_2byte_le. fuel_cases; apply load_fuel.
Qed.

Lemma int_3byte_le_fuel : forall buf p, int_3byte_le buf p <> OutOfFuel.
Proof.
  intros buf p. unfold int_3byte_le. fuel_cases; apply load_fuel.
Qed.

Lemma load_bytes_fuel : forall n buf off, load_bytes buf off n <> OutOfFuel.
Proof.
  induction n as [|n IH]; intros buf off; simpl; [discriminate|].
  fuel_cases; [apply IH|apply load_fuel].
Qed.

Lemma parse_extension_fuel :
  forall ssl buf pos remain, parse_extension ssl buf pos remain <> OutOfFuel.
Proof.
  intros ssl buf pos remain. unfold parse_extension.
  fuel_cases;
    first [apply int_2byte_le_fuel | apply load_fuel | apply load_bytes_fuel].
Qed.

(** The fuel [parse_hello_body] gives the loop is never used up. *)
Lemma extensions_loop_fuel :
  forall fuel ssl buf p remain,
    int_range remain ->
    (Z.to_nat remain < fuel)%nat ->
    extensions_loop fuel ssl buf p remain <> OutOfFuel.
Proof.
  induction fuel as [|fuel IH]; intros ssl buf p remain Hr Hf; [lia|].
  simpl.
  destruct (parse_extension ssl buf p remain) as [[[ret ssl1] ev1]| |] eqn:E;
    simpl; [|discriminate|exfalso; exact (parse_extension_fuel _ _ _ _ E)].
  destruct (0 <? ret) eqn:Hpos; [|discriminate].
  apply Z.ltb_lt in Hpos.
  destruct (parse_extension_ret _ _ _ _ _ _ _ E Hr Hpos) as [H4 Hret].
  assert (Hnew : to_int (remain - ret) = remain - ret)
    by (apply to_int_id; unfold int_range in *; lia).
  specialize (IH ssl1 buf (p + ret) (to_int (remain - ret)) (to_int_range _)).
  rewrite Hnew in *.
  destruct (extensions_loop fuel ssl1 buf (p + ret) (remain - ret))
    as [[[ret2 ssl2] ev2]| |]; simpl; try discriminate.
  exfalso. apply IH; [lia|reflexivity].
Qed.

(** ** What the decoder does to a session *)

Lemma skip_to_extensions_fuel :
  forall sgn buf p remain, skip_to_extensions sgn buf p remain <> OutOfFuel.
Proof.
  intros sgn buf p remain. unfold skip_to_extensions.
  fuel_cases; first [apply int_2byte_le_fuel | apply load_char_fuel].
Qed.

Lemma parse_hello_body_fuel :
  forall sgn ssl buf p remain, parse_hello_body sgn ssl buf p remain <> OutOfFuel.
Proof.
  intros sgn ssl buf p remain. unfold parse_hello_body.
  destruct (skip_to_extensions sgn buf p remain) as [[[p' remain']|]| |] eqn:E;
    cbv beta iota zeta delta [bind];
    [ | discriminate | discriminate
      | exfalso; exact (skip_to_extensions_fuel _ _ _ _ E)].
  destruct (int_2byte_le buf p') as [tlen| |] eqn:E2;
    [ | discriminate | exfalso; exact (int_2byte_le_fuel _ _ E2)].
  destruct (to_uint remain' <? tlen); [discriminate|].
  destruct (extensions_loop (S (Z.to_nat (to_int (remain' - 2)))) ssl buf
              (p' + 2) (to_int (remain' - 2))) as [[[ret ssl'] ev]| |] eqn:E3;
    [discriminate|discriminate|].
  exfalso. revert E3. apply extensions_loop_fuel; [apply to_int_range|lia].
Qed.

Lemma not_ssl_packet_fuel : forall buf len, not_ssl_packet buf len <> OutOfFuel.
Proof.
  intros buf len. unfold not_ssl_packet.
  fuel_cases;
    first [apply int_2byte_le_fuel | apply int_3byte_le_fuel | apply load_fuel].
Qed.

(** The decoder returns: it never exhausts the fuel of its loop. *)
Lemma parse_ssl_greeting_fuel :
  forall sgn ssl buf len, parse_ssl_greeting sgn ssl buf len <> OutOfFuel.
Proof.
  intros sgn ssl buf len. unfold parse_ssl_greeting, ev_io_stop, send_alert.
  destruct (len mod 2 ^ 64 <=? sizeof_ssl_header); [discriminate|].
  destruct (not_ssl_packet buf len) as [[|]| |] eqn:E;
    cbv beta iota zeta delta [bind];
    [discriminate | | discriminate | exfalso; exact (not_ssl_packet_fuel _ _ E)].
  match goal with
  | |- match ?m with Done _ => _ | OutOfBounds _ => _ | OutOfFuel => _ end <> _ =>
      destruct m as [[[ret ssl'] ev]| |] eqn:E2
  end; [ | discriminate | exfalso; exact (parse_hello_body_fuel _ _ _ _ _ E2)].
  destruct ret as [[| |]|]; discriminate.
Qed.

Lemma parse_hello_body_session :
  forall sgn ssl buf p remain ret ssl' ev,
    parse_hello_body sgn ssl buf p remain = Done (ret, ssl', ev) ->
    fd ssl' = fd ssl /\ io ssl' = io ssl /\ state ssl' = state ssl /\
    Forall hostname_effect ev.
Proof.
  intros sgn ssl buf p remain ret ssl' ev H.
  unfold parse_hello_body in H.
  bind_inv H. destruct a as [[p' remain']|].
  - bind_inv H. destruct (to_uint remain' <? a).
    + injection H as <- <- <-. repeat split. constructor.
    + bind_inv H. destruct a0 as [[ret0 ssl0] ev0].
      injection H as <- <- <-.
      apply extensions_loop_session in E1. exact E1.
  - injection H as <- <- <-. repeat split. constructor.
Qed.

Lemma hostname_effect_silent : forall e, hostname_effect e -> silent e.
Proof. intros [] H; try contradiction H; split; reflexivity. Qed.

Lemma count_app :
  forall f tr1 tr2, count f (tr1 ++ tr2) = (count f tr1 + count f tr2)%nat.
Proof.
  intros f tr1 tr2. unfold count. rewrite filter_app. apply length_app.
Qed.

Lemma silent_count :
  forall tr, Forall silent tr ->
    count is_write tr = 0%nat /\ count is_close tr = 0%nat.
Proof.
  induction 1 as [|e tr [Hw Hc] _ [IHw IHc]]; [split; reflexivity|].
  unfold count in *. simpl. rewrite Hw, Hc. split; assumption.
Qed.

Lemma silent_after_close : forall tr, Forall silent tr -> after_close tr = [].
Proof.
  induction 1 as [|e tr [Hw Hc] _ IH]; [reflexivity|].
  destruct e; simpl; try exact IH. discriminate Hc.
Qed.

(** However the decode ends, [parse_ssl_greeting] leaves the session in
    [ssl_state_alert] with the watcher started on [alert_cb] for
    [EV_WRITE], having written and closed nothing. *)
Lemma parse_ssl_greeting_session :
  forall sgn ssl buf len ssl' tr,
    parse_ssl_greeting sgn ssl buf len = Done (ssl', tr) ->
    fd ssl' = fd ssl /\
    io ssl' = mk_io cb_alert (fd ssl) EV_WRITE true /\
    state ssl' = ssl_state_alert /\
    Forall silent tr.
Proof.
  intros sgn ssl buf len ssl' tr H.
  unfold parse_ssl_greeting, ev_io_stop, send_alert in H.
  destruct (len mod 2 ^ 64 <=? sizeof_ssl_header).
  - injection H as <- <-. simpl. repeat split.
    repeat (constructor; [split; reflexivity|]). constructor.
  - bind_inv H. destruct a.
    + injection H as <- <-. simpl. repeat split.
      repeat (constructor; [split; reflexivity|]). constructor.
    + bind_inv H. destruct a as [[ret ssl1] ev1].
      apply parse_hello_body_session in E0.
      destruct E0 as (Hf & Hi & Hs & Hev). simpl in Hf.
      assert (Hsil : Forall silent ev1).
      { eapply Forall_impl; [|exact Hev]. apply hostname_effect_silent. }
      destruct ret as [[| |]|]; injection H as <- <-; simpl;
        (repeat split; [congruence|congruence|]);
        (constructor; [split; reflexivity|]);
        repeat (apply Forall_app; split; [assumption|]);
        repeat (constructor; [split; reflexivity|]); constructor.
Qed.

(** ** Runs of a session *)

Lemma run_freed : forall sgn evs, run sgn Freed evs = Done (Freed, []).
Proof.
  intros sgn evs. induction evs as [|e evs IH]; [reflexivity|].
  simpl. rewrite IH. reflexivity.
Qed.

Lemma run_alert_sent :
  forall sgn evs ssl l tr,
    alert_watcher ssl ->
    state ssl = ssl_state_alert_sent ->
    run sgn (Live ssl) evs = Done (l, tr) ->
    (l = Live ssl /\ tr = []) \/
    (l = Freed /\ tr = snd (terminate_session ssl)).
Proof.
  intros sgn evs ssl l tr Hio Hst.
  induction evs as [|e evs IH]; intros H; simpl in H.
  - injection H as <- <-. left. split; reflexivity.
  - unfold deliver in H. rewrite Hio in H. simpl in H.
    destruct e as [r data|stack]; cbv beta iota zeta delta [bind] in H.
    + destruct (run sgn (Live ssl) evs) as [[l2 tr2]| |]; try discriminate H.
      injection H as <- <-. apply IH. reflexivity.
    + unfold alert_cb in H. rewrite Hst in H.
      unfold terminate_session in H. cbv beta iota zeta delta [bind] in H.
      rewrite run_freed in H. injection H as <- <-.
      right. split; [reflexivity|]. simpl. reflexivity.
Qed.

Lemma run_alert_pending :
  forall sgn evs ssl l tr,
    alert_watcher ssl ->
    state ssl = ssl_state_alert ->
    run sgn (Live ssl) evs = Done (l, tr) ->
    (l = Live ssl /\ tr = []) \/
    (exists stack,
        (l = Live (set_state ssl ssl_state_alert_sent) /\ tr = [alert_write ssl stack]) \/
        (l = Freed /\ tr = alert_write ssl stack :: snd (terminate_session ssl))).
Proof.
  intros sgn evs ssl l tr Hio Hst.
  induction evs as [|e evs IH]; intros H; simpl in H.
  - injection H as <- <-. left. split; reflexivity.
  - unfold deliver in H. rewrite Hio in H. simpl in H.
    destruct e as [r data|stack]; cbv beta iota zeta delta [bind] in H.
    + destruct (run sgn (Live ssl) evs) as [[l2 tr2]| |]; try discriminate H.
      injection H as <- <-. apply IH. reflexivity.
    + rewrite (alert_cb_writes stack ssl Hst) in H.
      destruct (run sgn (Live (set_state ssl ssl_state_alert_sent)) evs)
        as [[l2 tr2]| |] eqn:E; try discriminate H.
      injection H as <- <-.
      apply run_alert_sent in E; [|exact Hio|reflexivity].
      right. exists stack.
      destruct E as [[-> ->]|[-> ->]]; [left|right]; split; reflexivity.
Qed.

(** The shape of every run from a freshly accepted session. *)
Lemma run_fresh_session :
  forall sgn nfd evs l tr,
    run sgn (Live (fresh_session nfd)) evs = Done (l, tr) ->
    (first_read evs = None /\ l = Live (fresh_session nfd) /\ tr = []) \/
    (exists r, first_read evs = Some r /\ r <= 0 /\ l = Freed /\
               tr = Sys_read nfd r :: snd (terminate_session (fresh_session nfd))) \/
    (exists r ssl1 ev,
        first_read evs = Some r /\ 0 < r /\
        fd ssl1 = nfd /\ Forall silent ev /\
        ((l = Live ssl1 /\ tr = Sys_read nfd r :: ev) \/
         (exists stack,
             (l = Live (set_state ssl1 ssl_state_alert_sent) /\
              tr = Sys_read nfd r :: ev ++ [alert_write ssl1 stack]) \/
             (l = Freed /\
              tr = Sys_read nfd r :: ev ++
                     alert_write ssl1 stack :: snd (terminate_session ssl1))))).
Proof.
  intros sgn nfd evs.
  induction evs as [|e evs IH]; intros l tr H; simpl in H.
  - injection H as <- <-. left. repeat split.
  - destruct e as [r data|stack]; simpl in H.
    + unfold greet_cb in H. simpl in H.
      destruct (r <=? 0) eqn:Hr.
      * apply Z.leb_le in Hr. simpl in H. rewrite run_freed in H.
        injection H as <- <-. right. left. exists r. repeat split. exact Hr.
      * apply Z.leb_gt in Hr. cbv beta iota zeta delta [bind] in H.
        destruct (parse_ssl_greeting sgn (fresh_session nfd) data r)
          as [[ssl1 ev]| |] eqn:E; try discriminate H.
        destruct (run sgn (Live ssl1) evs) as [[l2 tr2]| |] eqn:E2;
          try discriminate H.
        injection H as <- <-.
        apply parse_ssl_greeting_session in E.
        destruct E as (Hfd & Hio & Hst & Hsil). simpl in Hfd, Hio.
        apply run_alert_pending in E2;
          [|unfold alert_watcher; rewrite Hio, Hfd; reflexivity|exact Hst].
        right. right. exists r, ssl1, ev. repeat split; try assumption.
        destruct E2 as [[-> ->]|[stack [[-> ->]|[-> ->]]]].
        -- left. split; [reflexivity|]. simpl. rewrite app_nil_r. reflexivity.
        -- right. exists stack. left. split; reflexivity.
        -- right. exists stack. right. split; reflexivity.
    + cbv beta iota zeta delta [bind] in H.
      destruct (run sgn (Live (fresh_session nfd)) evs) as [[l2 tr2]| |] eqn:E;
        try discriminate H.
      injection H as <- <-. simpl. apply IH. reflexivity.
Qed.

Lemma after_close_silent_app :
  forall tr1 tr2, Forall silent tr1 -> after_close (tr1 ++ tr2) = after_close tr2.
Proof.
  induction 1 as [|e tr [Hw Hc] _ IH]; [reflexivity|].
  destruct e; simpl; try exact IH. discriminate Hc.
Qed.

(** Runs on which the decode is defined.  Along every such run of
    readiness callbacks on a freshly accepted session the alert is
    written at most once; and when the run ends with the session
    released, the socket was closed once, no write follows the close, and
    the alert was written exactly once if the [read] returned a positive
    count and not at all if it returned 0 or a negative value. *)
Theorem session_writes_alert_exactly_once :
  forall (sgn : bool) (nfd : Z) (evs : list readiness) (l : life) (tr : list effect),
    run sgn (Live (fresh_session nfd)) evs = Done (l, tr) ->
    (count is_write tr <= 1)%nat /\
    (l = Freed ->
     count is_close tr = 1%nat /\
     count is_write (after_close tr) = 0%nat /\
     exists r, first_read evs = Some r /\
               count is_write tr = if r <=? 0 then 0%nat else 1%nat).
Proof.
  intros sgn nfd evs l tr H.
  apply run_fresh_session in H.
  destruct H as [(Hn & -> & ->)|[(r & Hfr & Hr & -> & ->)|
                 (r & ssl1 & ev & Hfr & Hr & Hfd & Hsil & H)]].
  - split; [unfold count; simpl; lia|]. discriminate.
  - split; [unfold count; simpl; lia|]. intros _.
    split; [reflexivity|]. split; [reflexivity|].
    exists r. split; [exact Hfr|].
    apply Z.leb_le in Hr. rewrite Hr. reflexivity.
  - destruct (silent_count ev Hsil) as [Hw Hc].
    assert (Hgt : (r <=? 0) = false) by (apply Z.leb_gt; exact Hr).
    destruct H as [[-> ->]|[stack [[-> ->]|[-> ->]]]].
    + split; [|discriminate].
      change (Sys_read nfd r :: ev) with ([Sys_read nfd r] ++ ev).
      rewrite count_app, Hw. unfold count. simpl. lia.
    + split; [|discriminate].
      change (Sys_read nfd r :: ev ++ [alert_write ssl1 stack])
        with ([Sys_read nfd r] ++ ev ++ [alert_write ssl1 stack]).
      rewrite !count_app, Hw. unfold count. simpl. lia.
    + change (Sys_read nfd r :: ev ++ alert_write ssl1 stack
                :: snd (terminate_session ssl1))
        with ([Sys_read nfd r] ++ ev ++ alert_write ssl1 stack
                :: snd (terminate_session ssl1)).
      split; [rewrite !count_app, Hw; unfold count; simpl; lia|]. intros _.
      split; [rewrite !count_app, Hc; reflexivity|].
      split.
      * rewrite after_close_silent_app
          by (constructor; [split; reflexivity|constructor]).
        rewrite after_close_silent_app by exact Hsil. reflexivity.
      * exists r. split; [exact Hfr|]. rewrite Hgt.
        rewrite !count_app, Hw. reflexivity.
Qed.

Lemma session_writes_alert_exactly_once_witness :
  exists tr,
    run true (Live (fresh_session 7))
      [Readable 90 (stack_buf hello_example_com_padded);
       Writable stack_ff; Writable stack_00]
      = Done (Freed, tr) /\
    count is_write tr = 1%nat /\
    count is_close tr = 1%nat /\
    count is_write (after_close tr) = 0%nat.
Proof.
  eexists. split; [vm_compute; reflexivity|].
  match goal with
  | |- count is_write ?t = _ /\ _ =>
      destruct (session_writes_alert_exactly_once true 7
                  [Readable 90 (stack_buf hello_example_com_padded);
                   Writable stack_ff; Writable stack_00] Freed t)
        as [_ H]; [vm_compute; reflexivity|]
  end.
  destruct (H eq_refl) as (Hc & Ha & r & Hr & Hw).
  injection Hr as <-.
  split; [exact Hw|]. split; [exact Hc|exact Ha].
Defined.

Lemma run_cons :
  forall sgn l e evs,
    run sgn l (e :: evs) =
      bind (deliver sgn l e)
        (fun r => let '(l1, tr1) := r in
                  bind (run sgn l1 evs)
                    (fun r2 => let '(l2, tr2) := r2 in Done (l2, tr1 ++ tr2))).
Proof. reflexivity. Qed.

Lemma deliver_writable :
  forall sgn ssl stack,
    alert_watcher ssl ->
    deliver sgn (Live ssl) (Writable stack) = Done (alert_cb stack ssl).
Proof.
  intros sgn ssl stack H. unfold deliver. rewrite H. reflexivity.
Qed.

(** A session whose decode is defined is released by the second
    write-readiness callback after the read. *)
Lemma session_reaches_release :
  forall sgn nfd r data ssl1 ev s1 s2,
    0 < r ->
    parse_ssl_greeting sgn (fresh_session nfd) data r = Done (ssl1, ev) ->
    run sgn (Live (fresh_session nfd)) [Readable r data; Writable s1; Writable s2] =
      Done (Freed,
            Sys_read nfd r :: ev ++
              alert_write ssl1 s1 :: snd (terminate_session ssl1)).
Proof.
  intros sgn nfd r data ssl1 ev s1 s2 Hr H.
  pose proof (parse_ssl_greeting_session _ _ _ _ _ _ H) as (Hfd & Hio & Hst & _).
  simpl in Hfd, Hio.
  assert (Hw : alert_watcher ssl1)
    by (unfold alert_watcher; rewrite Hio, Hfd; reflexivity).
  rewrite run_cons.
  change (deliver sgn (Live (fresh_session nfd)) (Readable r data))
    with (greet_cb sgn (fresh_session nfd) r data).
  unfold greet_cb. apply Z.leb_gt in Hr. rewrite Hr, H.
  cbv beta iota zeta delta [bind].
  rewrite run_cons, (deliver_writable sgn ssl1 s1 Hw).
  rewrite (alert_cb_writes s1 ssl1 Hst).
  cbv beta iota zeta delta [bind].
  rewrite run_cons, deliver_writable by exact Hw.
  unfold alert_cb, terminate_session, run.
  cbv beta iota zeta delta [bind state set_state].
  simpl. reflexivity.
Qed.

(** ** The declared length of the extensions block *)

Lemma agree_patch :
  forall pre post a1 a2 c1 c2,
    agree_outside (pre ++ [a1; a2] ++ post) (pre ++ [c1; c2] ++ post)
      (Z.of_nat (length pre)).
Proof.
  intros pre post a1 a2 c1 c2 off Hoff. unfold load.
  destruct (off <? 0) eqn:Hneg; [reflexivity|].
  apply Z.ltb_ge in Hneg.
  destruct Hoff as [Hlt|Hge].
  - rewrite !nth_error_app1 by lia. reflexivity.
  - rewrite !(nth_error_app2 pre) by lia.
    rewrite !(nth_error_app2 [_; _]) by (simpl; lia).
    reflexivity.
Qed.

Section Agree.

Variables (b1 b2 : list byte) (p : Z).
Hypothesis Hagree : agree_outside b1 b2 p.

Lemma load_char_agree :
  forall sgn off, off < p \/ p + 2 <= off ->
    load_char sgn b1 off = load_char sgn b2 off.
Proof.
  intros sgn off H. unfold load_char. rewrite (Hagree off H). reflexivity.
Qed.

Lemma int_2byte_le_agree :
  forall q, q + 1 < p \/ p + 2 <= q -> int_2byte_le b1 q = int_2byte_le b2 q.
Proof.
  intros q H. unfold int_2byte_le.
  rewrite (Hagree q) by lia. rewrite (Hagree (q + 1)) by lia. reflexivity.
Qed.

Lemma int_3byte_le_agree :
  forall q, q + 2 < p \/ p + 2 <= q -> int_3byte_le b1 q = int_3byte_le b2 q.
Proof.
  intros q H. unfold int_3byte_le.
  rewrite (Hagree q) by lia. rewrite (Hagree (q + 1)) by lia.
  rewrite (Hagree (q + 2)) by lia. reflexivity.
Qed.

Lemma load_bytes_agree :
  forall n q, p + 2 <= q -> load_bytes b1 q n = load_bytes b2 q n.
Proof.
  induction n as [|n IH]; intros q H; simpl; [reflexivity|].
  rewrite (Hagree q) by lia. rewrite (IH (q + 1)) by lia. reflexivity.
Qed.

Ltac agree_step :=
  match goal with
  | |- bind ?m1 _ = bind ?m2 _ =>
      let E := fresh "E" in
      assert (E : m1 = m2)
        by first [apply int_2byte_le_agree; lia | apply Hagree; lia
                 | apply load_bytes_agree; lia];
      rewrite E; destruct m2; cbv beta iota delta [bind];
      [|reflexivity|reflexivity]
  | |- match ?m1 with Done _ => _ | OutOfBounds _ => _ | OutOfFuel => _ end =
       match ?m2 with Done _ => _ | OutOfBounds _ => _ | OutOfFuel => _ end =>
      let E := fresh "E" in
      assert (E : m1 = m2)
        by first [apply int_2byte_le_agree; lia | apply Hagree; lia
                 | apply load_bytes_agree; lia];
      rewrite E; destruct m2; [|reflexivity|reflexivity]
  | |- (if ?c then _ else _) = (if ?c then _ else _) =>
      destruct c; [reflexivity|]
  end.

Lemma parse_extension_agree :
  forall ssl pos remain, p + 2 <= pos ->
    parse_extension ssl b1 pos remain = parse_extension ssl b2 pos remain.
Proof.
  intros ssl pos remain H. unfold parse_extension.
  unfold sizeof_sni_ext, sni_ext_slen, sni_ext_type, sni_ext_hlen, sni_ext_host.
  cbv zeta.
  destruct (remain <? 0); [reflexivity|].
  destruct (remain <? 4); [reflexivity|].
  agree_step. agree_step. agree_step.
  destruct (a =? sni_type); [|reflexivity].
  repeat agree_step. reflexivity.
Qed.

Lemma extensions_loop_agree :
  forall fuel ssl pos remain, p + 2 <= pos ->
    extensions_loop fuel ssl b1 pos remain = extensions_loop fuel ssl b2 pos remain.
Proof.
  induction fuel as [|fuel IH]; intros ssl pos remain H; simpl; [reflexivity|].
  rewrite (parse_extension_agree ssl pos remain H).
  destruct (parse_extension ssl b2 pos remain) as [[[ret ssl1] ev1]| |];
    cbv beta iota delta [bind]; try reflexivity.
  destruct (0 <? ret) eqn:Hpos; [|reflexivity].
  apply Z.ltb_lt in Hpos.
  rewrite (IH ssl1 (pos + ret) (to_int (remain - ret))) by lia.
  reflexivity.
Qed.

Lemma not_ssl_packet_agree :
  forall len, 9 <= p -> not_ssl_packet b1 len = not_ssl_packet b2 len.
Proof.
  intros len H. unfold not_ssl_packet.
  unfold ssl_header_type, ssl_header_len, ssl_header_greeting_len.
  rewrite (Hagree 0) by lia. rewrite (Hagree 1) by lia.
  rewrite (Hagree 2) by lia. rewrite (Hagree 5) by lia.
  rewrite (int_2byte_le_agree 3) by lia.
  rewrite (int_3byte_le_agree 6) by lia. reflexivity.
Qed.

(** The three skipped fields lie before the cursor they lead to. *)
Lemma skip_to_extensions_agree :
  forall sgn q remain remain',
    skip_to_extensions sgn b1 q remain = Done (Some (p, remain')) ->
    skip_to_extensions sgn b2 q remain = Done (Some (p, remain')).
Proof.
  intros sgn q remain remain' H.
  unfold skip_to_extensions in *.
  destruct (load_char sgn b1 q) as [c1| |] eqn:E1;
    cbv beta iota zeta delta [bind] in H; try discriminate H.
  destruct (to_uint (remain + 4) <=? to_uint c1) eqn:C1; [discriminate H|].
  destruct (int_2byte_le b1 (q + to_uint c1 + 1)) as [t2| |] eqn:E2;
    try discriminate H.
  destruct (to_uint (to_int (remain - (to_uint c1 + 1)) + 4) <=? t2) eqn:C2;
    [discriminate H|].
  destruct (load_char sgn b1 (q + to_uint c1 + 1 + t2 + 2)) as [c3| |] eqn:E3;
    try discriminate H.
  destruct (to_uint (to_int (to_int (remain - (to_uint c1 + 1)) - (t2 + 2)) + 4)
              <=? to_uint c3) eqn:C3; [discriminate H|].
  apply Done_inj in H.
  assert (Hp : q + to_uint c1 + 1 + t2 + 2 + to_uint c3 + 1 = p) by congruence.
  pose proof (to_uint_nonneg c1) as Hc1.
  pose proof (to_uint_nonneg c3) as Hc3.
  apply int_2byte_le_done in E2 as Ht2.
  rewrite load_char_agree in E1 by lia.
  rewrite int_2byte_le_agree in E2 by lia.
  rewrite load_char_agree in E3 by lia.
  rewrite E1. cbv beta iota zeta delta [bind]. rewrite C1.
  rewrite E2. rewrite C2. rewrite E3. rewrite C3.
  rewrite H. reflexivity.
Qed.

End Agree.

(** On reaching the extensions the count is the distance from the cursor
    to the end of the received bytes. *)
Lemma skip_to_extensions_cursor :
  forall sgn buf q remain p remain',
    skip_to_extensions sgn buf q remain = Done (Some (p, remain')) ->
    q + remain = Z.of_nat (length buf) ->
    remain < 2 ^ 31 - 4 ->
    p + remain' = Z.of_nat (length buf) /\ q + 4 <= p /\ -4 <= remain'.
Proof.
  intros sgn buf q remain p remain' H Hlen Hmax.
  unfold skip_to_extensions in H.
  destruct (load_char sgn buf q) as [c1| |] eqn:E1;
    cbv beta iota zeta delta [bind] in H; try discriminate H.
  destruct (to_uint (remain + 4) <=? to_uint c1) eqn:C1; [discriminate H|].
  destruct (int_2byte_le buf (q + to_uint c1 + 1)) as [t2| |] eqn:E2;
    try discriminate H.
  destruct (to_uint (to_int (remain - (to_uint c1 + 1)) + 4) <=? t2) eqn:C2;
    [discriminate H|].
  destruct (load_char sgn buf (q + to_uint c1 + 1 + t2 + 2)) as [c3| |] eqn:E3;
    try discriminate H.
  destruct (to_uint (to_int (to_int (remain - (to_uint c1 + 1)) - (t2 + 2)) + 4)
              <=? to_uint c3) eqn:C3; [discriminate H|].
  apply Done_inj in H.
  apply load_char_done in E1. destruct E1 as [Hq Hc1].
  apply Z.leb_gt in C1. rewrite (to_uint_id (remain + 4)) in C1 by lia.
  assert (Hu1 : to_uint c1 = c1 /\ 0 <= c1).
  { destruct (Z_lt_dec c1 0) as [Hn|Hn].
    - rewrite to_uint_neg in C1 by lia. lia.
    - split; [apply to_uint_id|]; lia. }
  destruct Hu1 as [Hu1 Hc1'].
  rewrite Hu1 in *.
  assert (Hr1 : to_int (remain - (c1 + 1)) = remain - (c1 + 1))
    by (apply to_int_id; unfold int_range; lia).
  rewrite Hr1 in *.
  apply int_2byte_le_done in E2. destruct E2 as (_ & Hq2 & Ht2).
  apply Z.leb_gt in C2. rewrite to_uint_id in C2 by lia.
  assert (Hr2 : to_int (remain - (c1 + 1) - (t2 + 2)) = remain - (c1 + 1) - (t2 + 2))
    by (apply to_int_id; unfold int_range; lia).
  rewrite Hr2 in *.
  apply load_char_done in E3. destruct E3 as [Hq3 Hc3].
  apply Z.leb_gt in C3.
  rewrite (to_uint_id (remain - (c1 + 1) - (t2 + 2) + 4)) in C3 by lia.
  assert (Hu3 : to_uint c3 = c3 /\ 0 <= c3).
  { destruct (Z_lt_dec c3 0) as [Hn|Hn].
    - rewrite to_uint_neg in C3 by lia. lia.
    - split; [apply to_uint_id|]; lia. }
  destruct Hu3 as [Hu3 Hc3'].
  rewrite Hu3 in *.
  assert (Hr3 : to_int (remain - (c1 + 1) - (t2 + 2) - (c3 + 1))
                = remain - (c1 + 1) - (t2 + 2) - (c3 + 1))
    by (apply to_int_id; unfold int_range; lia).
  rewrite Hr3 in H.
  assert (Hp : q + c1 + 1 + t2 + 2 + c3 + 1 = p) by congruence.
  assert (Hrem : remain - (c1 + 1) - (t2 + 2) - (c3 + 1) = remain') by congruence.
  lia.
Qed.

(** Once the declared extensions-block length has passed its test it
    plays no further part.  Two buffers of [len] bytes that differ only
    in the two bytes of that field, both values fitting, are decoded
    alike, and the walk is given the whole distance from the cursor to
    the end of the buffer; the second part is a run on
    [hello_empty_block_then_sni]. *)
Theorem extensions_walk_ignores_declared_length :
  (forall (sgn : bool) (ssl : ssl_session) (pre post : list byte)
          (a1 a2 c1 c2 : byte) (len p remain d1 d2 : Z),
      let b1 := pre ++ [a1; a2] ++ post in
      let b2 := pre ++ [c1; c2] ++ post in
      len = Z.of_nat (length b1) ->
      len < 2 ^ 31 ->
      p = Z.of_nat (length pre) ->
      skip_to_extensions sgn b1 sizeof_ssl_header (to_int (len - sizeof_ssl_header))
        = Done (Some (p, remain)) ->
      int_2byte_le b1 p = Done d1 -> d1 <= to_uint remain ->
      int_2byte_le b2 p = Done d2 -> d2 <= to_uint remain ->
      p + remain = len /\
      parse_ssl_greeting sgn ssl b1 len = parse_ssl_greeting sgn ssl b2 len) /\
  (forall sgn : bool,
      int_2byte_le hello_empty_block_then_sni 50 = Done 0 /\
      exists ssl' tr,
        parse_ssl_greeting sgn (fresh_session 7) hello_empty_block_then_sni 84
          = Done (ssl', tr) /\
        hostname ssl' = Some (bytes_of [0x61; 0x62; 0x63; 0]) /\
        In (Assign_hostname (bytes_of [0x61; 0x62; 0x63; 0])) tr).
Proof.
  split.
  - intros sgn ssl pre post a1 a2 c1 c2 len p remain d1 d2 b1 b2
      Hlen Hmax Hp Hskip Hd1 Hfit1 Hd2 Hfit2.
    assert (Hag : agree_outside b1 b2 p)
      by (rewrite Hp; apply agree_patch).
    assert (Hskip2 := skip_to_extensions_agree b1 b2 p Hag sgn _ _ _ Hskip).
    assert (Hrem0 : to_int (len - sizeof_ssl_header) = len - sizeof_ssl_header).
    { apply to_int_id. unfold int_range, sizeof_ssl_header. lia. }
    assert (Hcur : p + remain = len /\ sizeof_ssl_header + 4 <= p /\ -4 <= remain).
    { rewrite Hlen. rewrite Hrem0 in Hskip.
      apply (skip_to_extensions_cursor sgn b1 sizeof_ssl_header
               (len - sizeof_ssl_header) p remain Hskip);
        unfold sizeof_ssl_header; lia. }
    destruct Hcur as (Hcur & Hp9 & _). unfold sizeof_ssl_header in Hp9.
    split; [exact Hcur|].
    unfold parse_ssl_greeting, ev_io_stop.
    destruct (len mod 2 ^ 64 <=? sizeof_ssl_header); [reflexivity|].
    rewrite (not_ssl_packet_agree b1 b2 p Hag len) by lia.
    destruct (not_ssl_packet b2 len) as [[|]| |];
      cbv beta iota zeta delta [bind]; try reflexivity.
    unfold parse_hello_body. rewrite Hskip, Hskip2.
    cbv beta iota zeta delta [bind]. rewrite Hd1, Hd2.
    apply Z.ltb_ge in Hfit1, Hfit2. rewrite Hfit1, Hfit2.
    rewrite (extensions_loop_agree b1 b2 p Hag) by lia.
    reflexivity.
  - intros sgn. split; [reflexivity|].
    exists (set_hostname (fst (send_alert (fresh_session 7)))
              (Some (bytes_of [0x61; 0x62; 0x63; 0]))).
    eexists.
    split; [destruct sgn; vm_compute; reflexivity|].
    split; [reflexivity|].
    destruct sgn; simpl; tauto.
Qed.

Lemma extensions_walk_ignores_declared_length_witness :
  50 + 34 = 84 /\
  parse_ssl_greeting true (fresh_session 7) hello_empty_block_then_sni 84 =
  parse_ssl_greeting true (fresh_session 7)
    (firstn 50 hello_empty_block_then_sni ++ [byte_of_Z 32; x00]
       ++ skipn 52 hello_empty_block_then_sni) 84.
Proof.
  apply (proj1 extensions_walk_ignores_declared_length true (fresh_session 7)
           (firstn 50 hello_empty_block_then_sni)
           (skipn 52 hello_empty_block_then_sni)
           x00 x00 (byte_of_Z 32) x00 84 50 34 0 32).
  - reflexivity.
  - reflexivity.
  - reflexivity.
  - reflexivity.
  - reflexivity.
  - vm_compute. discriminate.
  - reflexivity.
  - vm_compute. discriminate.
Defined.

(** * Further properties of [listener.c] *)

(** ** Bytes and little-endian fields *)

Lemma byte_of_Z_val : forall b, byte_of_Z (byte_val b) = b.
Proof.
  intros b. unfold byte_of_Z, byte_val.
  pose proof (Byte.to_N_bounded b) as Hb.
  rewrite Z.mod_small by lia.
  rewrite N2Z.id, Byte.of_to_N. reflexivity.
Qed.

Lemma byte_val_of_Z : forall z, byte_val (byte_of_Z z) = z mod 256.
Proof.
  intros z. unfold byte_of_Z, byte_val.
  pose proof (Z.mod_pos_bound z 256 ltac:(lia)) as Hz.
  destruct (Byte.of_N (Z.to_N (z mod 256))) as [b|] eqn:E.
  - apply Byte.to_of_N in E. rewrite E. lia.
  - apply Byte.of_N_None_iff in E. lia.
Qed.

Lemma lor_shiftl_add :
  forall a b n, 0 <= n -> 0 <= a < 2 ^ n -> 0 <= b ->
    Z.lor a (Z.shiftl b n) = a + b * 2 ^ n.
Proof.
  intros a b n Hn Ha Hb.
  rewrite <- Z.shiftl_mul_pow2 by lia.
  rewrite <- Z.lxor_lor, <- Z.add_nocarry_lxor; try reflexivity.
  all: apply Z.bits_inj'; intros i Hi; rewrite Z.land_spec, Z.bits_0;
    destruct (Z_lt_dec i n) as [Hlt|Hge];
    [ rewrite Z.shiftl_spec_low by lia; apply andb_false_r
    | destruct (Z.eq_dec a 0) as [->|Hnz]; [rewrite Z.bits_0; reflexivity|];
      rewrite (Z.bits_above_log2 a i); [reflexivity|lia|];
      apply Z.log2_lt_pow2; [lia|];
      apply Z.lt_le_trans with (2 ^ n); [lia|];
      apply Z.pow_le_mono_r; lia ].
Qed.

Lemma load_app_at :
  forall pre x post,
    load (pre ++ x :: post) (Z.of_nat (length pre)) = Done (byte_val x).
Proof.
  intros pre x post. unfold load.
  destruct (Z.of_nat (length pre) <? 0) eqn:E; [apply Z.ltb_lt in E; lia|].
  rewrite Nat2Z.id, nth_error_app2, Nat.sub_diag by lia. reflexivity.
Qed.

Lemma load_app_skip :
  forall pre rest k, 0 <= k < Z.of_nat (length rest) ->
    load (pre ++ rest) (Z.of_nat (length pre) + k) = load rest k.
Proof.
  intros pre rest k Hk. unfold load.
  destruct (Z.of_nat (length pre) + k <? 0) eqn:E; [apply Z.ltb_lt in E; lia|].
  destruct (k <? 0) eqn:E2; [apply Z.ltb_lt in E2; lia|].
  rewrite nth_error_app2 by lia.
  replace (Z.to_nat (Z.of_nat (length pre) + k) - length pre)%nat
    with (Z.to_nat k) by lia.
  destruct (nth_error rest (Z.to_nat k)) eqn:En; [reflexivity|].
  apply nth_error_None in En. lia.
Qed.

Lemma int_2byte_le_le16_aux :
  forall (pre post : list byte) (n : Z),
    0 <= n < 65536 ->
    int_2byte_le (pre ++ le16 n ++ post) (Z.of_nat (length pre)) = Done n.
Proof.
  intros pre post n Hn. unfold int_2byte_le, le16.
  simpl app. rewrite load_app_at. cbv beta iota delta [bind].
  replace (Z.of_nat (length pre) + 1)
    with (Z.of_nat (length (pre ++ [byte_of_Z n])))
    by (rewrite length_app; simpl; lia).
  replace (pre ++ byte_of_Z n :: byte_of_Z (n / 256) :: post)
    with ((pre ++ [byte_of_Z n]) ++ byte_of_Z (n / 256) :: post)
    by (rewrite <- app_assoc; reflexivity).
  rewrite load_app_at. rewrite !byte_val_of_Z.
  rewrite (Z.mod_small (n / 256)) by (split; [apply Z.div_pos|apply Z.div_lt_upper_bound]; lia).
  rewrite (lor_shiftl_add (n mod 256) (n / 256) 8);
    [|lia|apply Z.mod_pos_bound; lia|apply Z.div_pos; lia].
  rewrite to_uint_id.
  - f_equal. change (2 ^ 8) with 256. pose proof (Z.div_mod n 256). lia.
  - change (2 ^ 8) with 256. pose proof (Z.div_mod n 256). lia.
Qed.

(** X1: [int_2byte_le] reads a 16-bit field low byte first: on the two
    bytes [n mod 256], [n / 256] it returns [n], wherever they lie. *)
Theorem int_2byte_le_le16 :
  forall (pre post : list byte) (n : Z),
    0 <= n < 65536 ->
    int_2byte_le (pre ++ le16 n ++ post) (Z.of_nat (length pre)) = Done n.
Proof.
  intros pre post n Hn.
  exact (int_2byte_le_le16_aux pre post n Hn).
Qed.

Lemma int_2byte_le_le16_witness :
  int_2byte_le (bytes_of [9; 9] ++ le16 0x1234 ++ bytes_of [7])
    (Z.of_nat (length (bytes_of [9; 9]))) = Done 0x1234.
Proof.
  apply (int_2byte_le_le16 (bytes_of [9; 9]) (bytes_of [7]) 0x1234). lia.
Defined.

Lemma load_in_list :
  forall buf pre rest k,
    buf = pre ++ rest -> 0 <= k < Z.of_nat (length rest) ->
    load buf (Z.of_nat (length pre) + k) = load rest k.
Proof. intros buf pre rest k -> Hk. apply load_app_skip. exact Hk. Qed.

Lemma int_3byte_le_le24_aux :
  forall (pre post : list byte) (n : Z),
    0 <= n < 2 ^ 24 ->
    int_3byte_le (pre ++ le24 n ++ post) (Z.of_nat (length pre)) = Done n.
Proof.
  intros pre post n Hn. unfold int_3byte_le.
  change (2 ^ 24) with 16777216 in Hn.
  rewrite <- (Z.add_0_r (Z.of_nat (length pre))) at 1.
  rewrite !(load_in_list _ pre (le24 n ++ post) _ eq_refl) by (simpl; lia).
  unfold le24. simpl app.
  change (load (byte_of_Z n :: byte_of_Z (n / 256) :: byte_of_Z (n / 65536) :: post) 0)
    with (Done (A:=Z) (byte_val (byte_of_Z n))).
  change (load (byte_of_Z n :: byte_of_Z (n / 256) :: byte_of_Z (n / 65536) :: post)
            1)
    with (Done (A:=Z) (byte_val (byte_of_Z (n / 256)))).
  change (load (byte_of_Z n :: byte_of_Z (n / 256) :: byte_of_Z (n / 65536) :: post)
            2)
    with (Done (A:=Z) (byte_val (byte_of_Z (n / 65536)))).
  cbv beta iota delta [bind]. rewrite !byte_val_of_Z.
  pose proof (Z.div_mod n 256 ltac:(lia)) as D1.
  pose proof (Z.mod_pos_bound n 256 ltac:(lia)) as M1.
  pose proof (Z.div_mod (n / 256) 256 ltac:(lia)) as D2.
  pose proof (Z.mod_pos_bound (n / 256) 256 ltac:(lia)) as M2.
  assert (Hq : n / 65536 = n / 256 / 256)
    by (rewrite Z.div_div by lia; reflexivity).
  rewrite Hq.
  assert (Hq2 : 0 <= n / 256 / 256 < 256).
  { split; [apply Z.div_pos; [apply Z.div_pos|]; lia|].
    apply Z.div_lt_upper_bound; [lia|]. apply Z.div_lt_upper_bound; lia. }
  rewrite (Z.mod_small (n / 256 / 256)) by exact Hq2.
  rewrite (lor_shiftl_add (n mod 256) ((n / 256) mod 256) 8) by lia.
  change (2 ^ 8) with 256.
  rewrite (lor_shiftl_add _ (n / 256 / 256) 16);
    [|lia|change (2 ^ 16) with 65536; lia|lia].
  change (2 ^ 16) with 65536.
  rewrite to_uint_id by (change (2 ^ 32) with 4294967296; lia).
  f_equal. lia.
Qed.

(** X2: [int_3byte_le] reads a 24-bit field low byte first: on the three
    bytes [n mod 256], [n / 256 mod 256], [n / 65536] it returns [n]. *)
Theorem int_3byte_le_le24 :
  forall (pre post : list byte) (n : Z),
    0 <= n < 2 ^ 24 ->
    int_3byte_le (pre ++ le24 n ++ post) (Z.of_nat (length pre)) = Done n.
Proof.
  intros pre post n Hn.
  exact (int_3byte_le_le24_aux pre post n Hn).
Qed.

Lemma int_3byte_le_le24_witness :
  int_3byte_le (bytes_of [9] ++ le24 0x123456 ++ [])
    (Z.of_nat (length (bytes_of [9]))) = Done 0x123456.
Proof.
  apply (int_3byte_le_le24 (bytes_of [9]) [] 0x123456).
  change (2 ^ 24) with 16777216. lia.
Defined.

(** ** Outcomes of the decoder *)

(** X3: a buffer of at most 43 bytes, the size of [struct ssl_header],
    goes straight to the alert: no byte of it is read (the result is the
    same for every content, the empty one included), the hostname is left
    as it was and nothing is printed. *)
Theorem parse_ssl_greeting_short_buffer :
  forall (sgn : bool) (ssl : ssl_session) (buf : list byte) (len : Z),
    0 <= len <= sizeof_ssl_header ->
    parse_ssl_greeting sgn ssl buf len =
      Done (mk_session (fd ssl) (mk_io cb_alert (fd ssl) EV_WRITE true)
              (hostname ssl) ssl_state_alert,
            [Ev_io_stop (io_fd (io ssl));
             Ev_io_init cb_alert (fd ssl) EV_WRITE;
             Ev_io_start cb_alert (fd ssl) EV_WRITE]).
Proof.
  intros sgn ssl buf len Hlen. unfold sizeof_ssl_header in Hlen.
  unfold parse_ssl_greeting, ev_io_stop.
  rewrite Z.mod_small by (change (2 ^ 64) with 18446744073709551616; lia).
  assert (H : (len <=? sizeof_ssl_header) = true)
    by (apply Z.leb_le; unfold sizeof_ssl_header; lia).
  rewrite H. reflexivity.
Qed.

Lemma parse_ssl_greeting_short_buffer_witness :
  parse_ssl_greeting true (fresh_session 7) [] 43 =
    Done (mk_session 7 (mk_io cb_alert 7 EV_WRITE true) None ssl_state_alert,
          [Ev_io_stop 7; Ev_io_init cb_alert 7 EV_WRITE;
           Ev_io_start cb_alert 7 EV_WRITE]).
Proof.
  apply (parse_ssl_greeting_short_buffer true (fresh_session 7) [] 43).
  unfold sizeof_ssl_header. lia.
Defined.

Lemma not_ssl_packet_false :
  forall buf len,
    not_ssl_packet buf len = Done false ->
    load buf 0 = Done 0x16 /\ load buf 1 = Done 0x3 /\ load buf 2 = Done 0x1 /\
    load buf 5 = Done 0x1 /\
    int_2byte_le buf 3 = Done (to_uint (len - 5)) /\
    int_3byte_le buf 6 = Done (to_uint (len - 5 - 4)).
Proof.
  intros buf len H. unfold not_ssl_packet in H.
  unfold ssl_header_type, ssl_header_len, ssl_header_greeting_len, tls_magic,
    tls_greeting in H.
  destruct (load buf 0) as [m0| |]; cbv beta iota delta [bind] in H;
    try discriminate H.
  destruct (load buf 1) as [m1| |]; try discriminate H.
  destruct (load buf 2) as [m2| |]; try discriminate H.
  cbn [forallb combine fst snd] in H.
  destruct (m0 =? 22) eqn:E0; [|discriminate H].
  destruct (m1 =? 3) eqn:E1; [|discriminate H].
  destruct (m2 =? 1) eqn:E2; [|discriminate H].
  cbn [andb negb] in H.
  destruct (load buf 5) as [ty| |]; try discriminate H.
  destruct (ty =? 1) eqn:E3; [|discriminate H].
  cbn [negb] in H.
  destruct (int_2byte_le buf 3) as [rl| |]; try discriminate H.
  destruct (rl =? to_uint (len - 5)) eqn:E4; [|discriminate H].
  cbn [negb] in H.
  destruct (int_3byte_le buf 6) as [gl| |]; try discriminate H.
  apply Done_inj in H.
  destruct (gl =? to_uint (len - 5 - 4)) eqn:E5; [|discriminate H].
  apply Z.eqb_eq in E0, E1, E2, E3, E4, E5. subst.
  repeat split; reflexivity.
Qed.

(** Every way [parse_ssl_greeting] returns: the watcher is stopped, the
    extensions walked so far have assigned hostnames, then either the
    alert is armed, or the hostname is printed and the alert is armed. *)
Lemma parse_ssl_greeting_inv :
  forall sgn ssl buf len ssl' tr,
    parse_ssl_greeting sgn ssl buf len = Done (ssl', tr) ->
    exists ev,
      Forall hostname_effect ev /\
      (tr = Ev_io_stop (io_fd (io ssl)) :: ev ++
              [Ev_io_init cb_alert (fd ssl) EV_WRITE;
               Ev_io_start cb_alert (fd ssl) EV_WRITE] \/
       (tr = Ev_io_stop (io_fd (io ssl)) :: ev ++
               [Printf_got_hostname (hostname ssl');
                Ev_io_init cb_alert (fd ssl) EV_WRITE;
                Ev_io_start cb_alert (fd ssl) EV_WRITE] /\
        sizeof_ssl_header < len mod 2 ^ 64 /\
        not_ssl_packet buf len = Done false)).
Proof.
  intros sgn ssl buf len ssl' tr H.
  unfold parse_ssl_greeting, ev_io_stop, send_alert in H.
  destruct (len mod 2 ^ 64 <=? sizeof_ssl_header) eqn:Hlen.
  - injection H as <- <-. exists []. split; [constructor|]. left. reflexivity.
  - apply Z.leb_gt in Hlen.
    bind_inv H. destruct a.
    + injection H as <- <-. exists []. split; [constructor|]. left. reflexivity.
    + bind_inv H. destruct a as [[ret ssl1] ev1].
      apply parse_hello_body_session in E0.
      destruct E0 as (Hf & Hi & Hs & Hev). simpl in Hf.
      exists ev1. split; [exact Hev|].
      destruct ret as [[| |]|]; injection H as <- <-; simpl; rewrite Hf.
      * right. split; [reflexivity|split; [exact Hlen|reflexivity]].
      * left. reflexivity.
      * left. reflexivity.
      * left. reflexivity.
Qed.

(** X4: however the decode ends (short buffer, bad header, a length that
    does not fit, a rejected or an accepted extension list), when
    [parse_ssl_greeting] returns the session is in [ssl_state_alert] on
    the same descriptor with its watcher started on [alert_cb] for
    [EV_WRITE]; the call begins by stopping the watcher and ends by
    starting it, and in between only allocates hostnames and prints. *)
Theorem parse_ssl_greeting_always_arms_alert :
  forall (sgn : bool) (ssl : ssl_session) (buf : list byte) (len : Z)
         (ssl' : ssl_session) (tr : list effect),
    parse_ssl_greeting sgn ssl buf len = Done (ssl', tr) ->
    fd ssl' = fd ssl /\
    io ssl' = mk_io cb_alert (fd ssl) EV_WRITE true /\
    state ssl' = ssl_state_alert /\
    exists mid,
      tr = Ev_io_stop (io_fd (io ssl)) :: mid ++
             [Ev_io_init cb_alert (fd ssl) EV_WRITE;
              Ev_io_start cb_alert (fd ssl) EV_WRITE] /\
      Forall (fun e => hostname_effect e \/ is_printf e = true) mid.
Proof.
  intros sgn ssl buf len ssl' tr H.
  destruct (parse_ssl_greeting_session _ _ _ _ _ _ H) as (Hf & Hi & Hs & _).
  repeat (split; [assumption|]).
  destruct (parse_ssl_greeting_inv _ _ _ _ _ _ H) as (ev & Hev & [->|(-> & _)]).
  - exists ev. split; [reflexivity|].
    eapply Forall_impl; [|exact Hev]. intros e He. left. exact He.
  - exists (ev ++ [Printf_got_hostname (hostname ssl')]). split.
    + rewrite <- app_assoc. reflexivity.
    + apply Forall_app. split.
      * eapply Forall_impl; [|exact Hev]. intros e He. left. exact He.
      * constructor; [right; reflexivity|constructor].
Qed.

Lemma parse_ssl_greeting_always_arms_alert_witness :
  exists ssl' tr,
    parse_ssl_greeting true (fresh_session 7) hello_two_sni 94 = Done (ssl', tr) /\
    state ssl' = ssl_state_alert /\
    io ssl' = mk_io cb_alert 7 EV_WRITE true.
Proof.
  do 2 eexists. split; [vm_compute; reflexivity|].
  match goal with
  | |- state ?s = _ /\ _ =>
      match goal with
      | |- context [io s] =>
          destruct (parse_ssl_greeting_always_arms_alert true (fresh_session 7)
                      hello_two_sni 94 s
                      (Ev_io_stop 7 ::
                       [Xmalloc_hostname 4;
                        Assign_hostname (bytes_of [0x61; 0x62; 0x63; 0]);
                        Xmalloc_hostname 4;
                        Assign_hostname (bytes_of [0x78; 0x79; 0x7a; 0]);
                        Printf_got_hostname (Some (bytes_of [0x78; 0x79; 0x7a; 0]));
                        Ev_io_init cb_alert 7 EV_WRITE;
                        Ev_io_start cb_alert 7 EV_WRITE]))
            as (_ & Hio & Hst & _); [vm_compute; reflexivity|]
      end
  end.
  split; [exact Hst|exact Hio].
Defined.

(** X5: "got hostname" is printed only for a buffer longer than the
    header whose first bytes are 16 03 01, whose handshake type is 1 and
    whose little-endian record and handshake lengths are [len - 5] and
    [len - 9]; what is printed is the hostname the session ends with. *)
Theorem parse_ssl_greeting_prints_only_for_valid_header :
  forall (sgn : bool) (ssl : ssl_session) (buf : list byte) (len : Z)
         (ssl' : ssl_session) (tr : list effect) (h : option (list byte)),
    parse_ssl_greeting sgn ssl buf len = Done (ssl', tr) ->
    In (Printf_got_hostname h) tr ->
    h = hostname ssl' /\
    sizeof_ssl_header < len mod 2 ^ 64 /\
    load buf 0 = Done 0x16 /\ load buf 1 = Done 0x3 /\ load buf 2 = Done 0x1 /\
    load buf 5 = Done 0x1 /\
    int_2byte_le buf 3 = Done (to_uint (len - 5)) /\
    int_3byte_le buf 6 = Done (to_uint (len - 5 - 4)).
Proof.
  intros sgn ssl buf len ssl' tr h H Hin.
  destruct (parse_ssl_greeting_inv _ _ _ _ _ _ H)
    as (ev & Hev & [->|(-> & Hlen & Hhdr)]).
  - exfalso. destruct Hin as [Hin|Hin]; [discriminate Hin|].
    apply in_app_or in Hin. destruct Hin as [Hin|Hin].
    + rewrite Forall_forall in Hev. exact (Hev _ Hin).
    + simpl in Hin. destruct Hin as [Hin|[Hin|[]]]; discriminate Hin.
  - split.
    + destruct Hin as [Hin|Hin]; [discriminate Hin|].
      apply in_app_or in Hin. destruct Hin as [Hin|Hin].
      * exfalso. rewrite Forall_forall in Hev. exact (Hev _ Hin).
      * simpl in Hin. destruct Hin as [Hin|[Hin|[Hin|[]]]];
          try discriminate Hin.
        injection Hin as <-. reflexivity.
    + split; [exact Hlen|]. apply not_ssl_packet_false. exact Hhdr.
Qed.

Lemma parse_ssl_greeting_prints_only_for_valid_header_witness :
  Some (bytes_of [0x61; 0x62; 0x63; 0]) =
    hostname (set_hostname (fst (send_alert (fresh_session 7)))
                (Some (bytes_of [0x61; 0x62; 0x63; 0]))) /\
  load hello_empty_block_then_sni 0 = Done 0x16.
Proof.
  destruct (parse_ssl_greeting_prints_only_for_valid_header true (fresh_session 7)
              hello_empty_block_then_sni 84
              (set_hostname (fst (send_alert (fresh_session 7)))
                 (Some (bytes_of [0x61; 0x62; 0x63; 0])))
              [Ev_io_stop 7; Xmalloc_hostname 4;
               Assign_hostname (bytes_of [0x61; 0x62; 0x63; 0]);
               Printf_got_hostname (Some (bytes_of [0x61; 0x62; 0x63; 0]));
               Ev_io_init cb_alert 7 EV_WRITE; Ev_io_start cb_alert 7 EV_WRITE]
              (Some (bytes_of [0x61; 0x62; 0x63; 0])))
    as (Hh & _ & H0 & _).
  - vm_compute. reflexivity.
  - simpl. tauto.
  - split; [exact Hh|exact H0].
Defined.

(** ** The extension walk *)

(** The values [parse_extension] returns. *)
Lemma parse_extension_ret_cases :
  forall (ssl : ssl_session) (buf : list byte) (pos remain ret : Z)
         (ssl' : ssl_session) (ev : list effect),
    int_range remain ->
    parse_extension ssl buf pos remain = Done (ret, ssl', ev) ->
    (ret = -1 /\ ssl' = ssl /\ ev = []) \/
    (ret = 0 /\ 0 <= remain < 4 /\ ssl' = ssl /\ ev = []) \/
    (4 <= remain /\ 4 <= ret <= remain + 4).
Proof.
  intros ssl buf pos remain ret ssl' ev Hr H.
  unfold int_range in Hr. unfold parse_extension in H.
  destruct (remain <? 0) eqn:C0.
  { injection H as <- <- <-. left. repeat split. }
  destruct (remain <? 4) eqn:C1.
  { apply Z.ltb_ge in C0. apply Z.ltb_lt in C1.
    injection H as <- <- <-. right. left. repeat split; lia. }
  apply Z.ltb_ge in C1.
  bind_inv H. bind_inv H.
  apply int_2byte_le_done in E0. destruct E0 as (_ & _ & Ht).
  destruct (to_uint remain <? a0) eqn:C2.
  { injection H as <- <- <-. left. repeat split. }
  apply Z.ltb_ge in C2. rewrite to_uint_id in C2 by lia.
  assert (Hret : to_int (a0 + 4) = a0 + 4)
    by (apply to_int_id; unfold int_range; lia).
  repeat bind_inv H; injection H as <- <- <-;
    first [left; repeat split; reflexivity | right; right; lia].
Qed.

(** X7: the walk always comes to an end, with 0 or with -1 as the last
    return value of [parse_extension]; it leaves the descriptor, the
    watcher and the state of the session as they were. *)
Theorem extensions_loop_ends_with_0_or_minus_1 :
  forall (fuel : nat) (ssl : ssl_session) (buf : list byte) (p remain : Z),
    int_range remain ->
    (Z.to_nat remain < fuel)%nat ->
    extensions_loop fuel ssl buf p remain <> OutOfFuel /\
    forall ret ssl' ev,
      extensions_loop fuel ssl buf p remain = Done (ret, ssl', ev) ->
      (ret = 0 \/ ret = -1) /\
      fd ssl' = fd ssl /\ io ssl' = io ssl /\ state ssl' = state ssl.
Proof.
  intros fuel ssl buf p remain Hr Hf.
  split; [apply extensions_loop_fuel; assumption|].
  revert ssl p remain Hr Hf.
  induction fuel as [|fuel IH]; intros ssl p remain Hr Hf ret ssl' ev H;
    [lia|].
  pose proof (extensions_loop_session _ _ _ _ _ _ _ _ H) as (Hfd & Hio & Hst & _).
  split; [|repeat split; assumption].
  simpl in H.
  destruct (parse_extension ssl buf p remain) as [[[ret1 ssl1] ev1]| |] eqn:E;
    cbv beta iota delta [bind] in H; try discriminate H.
  destruct (0 <? ret1) eqn:Hpos.
  - apply Z.ltb_lt in Hpos.
    destruct (parse_extension_ret _ _ _ _ _ _ _ E Hr Hpos) as [H4 Hret].
    assert (Hnew : to_int (remain - ret1) = remain - ret1)
      by (apply to_int_id; unfold int_range in *; lia).
    rewrite Hnew in H.
    destruct (extensions_loop fuel ssl1 buf (p + ret1) (remain - ret1))
      as [[[ret2 ssl2] ev2]| |] eqn:E2; try discriminate H.
    apply Done_inj in H.
    assert (ret2 = ret) by congruence. subst ret2.
    apply (IH ssl1 (p + ret1) (remain - ret1)) in E2;
      [tauto|unfold int_range in *; lia|lia].
  - apply Z.ltb_ge in Hpos. apply Done_inj in H.
    assert (ret1 = ret) by congruence. subst ret1.
    destruct (parse_extension_ret_cases _ _ _ _ _ _ _ Hr E)
      as [(-> & _)|[(-> & _)|(_ & Hge)]]; [right|left|]; try reflexivity. lia.
Qed.

Lemma extensions_loop_ends_with_0_or_minus_1_witness :
  extensions_loop 39 (fresh_session 7) hello_example_com_padded 52 38 <> OutOfFuel /\
  forall ret ssl' ev,
    extensions_loop 39 (fresh_session 7) hello_example_com_padded 52 38
      = Done (ret, ssl', ev) ->
    (ret = 0 \/ ret = -1) /\
    fd ssl' = fd (fresh_session 7) /\ io ssl' = io (fresh_session 7) /\
    state ssl' = state (fresh_session 7).
Proof.
  apply (extensions_loop_ends_with_0_or_minus_1 39 (fresh_session 7)
           hello_example_com_padded 52 38).
  - unfold int_range. lia.
  - lia.
Defined.

Lemma load_defined :
  forall buf off, 0 <= off < Z.of_nat (length buf) ->
    exists v, load buf off = Done v.
Proof.
  intros buf off H. unfold load.
  destruct (off <? 0) eqn:E; [apply Z.ltb_lt in E; lia|].
  destruct (nth_error buf (Z.to_nat off)) as [b|] eqn:En.
  - exists (byte_val b). reflexivity.
  - apply nth_error_None in En. lia.
Qed.

Lemma int_2byte_le_defined :
  forall buf p, 0 <= p -> p + 1 < Z.of_nat (length buf) ->
    exists v, int_2byte_le buf p = Done v.
Proof.
  intros buf p H0 H1. unfold int_2byte_le.
  destruct (load_defined buf p) as [b0 ->]; [lia|].
  destruct (load_defined buf (p + 1)) as [b1 ->]; [lia|].
  eexists. reflexivity.
Qed.

Lemma load_bytes_defined :
  forall n buf off, 0 <= off -> off + Z.of_nat n <= Z.of_nat (length buf) ->
    exists l, load_bytes buf off n = Done l.
Proof.
  induction n as [|n IH]; intros buf off H0 H1; simpl.
  - exists []. reflexivity.
  - destruct (load_defined buf off) as [v ->]; [lia|].
    destruct (IH buf (off + 1)) as [l ->]; [lia|lia|].
    eexists. reflexivity.
Qed.

(** The reads of [parse_extension] stay below [pos + remain + 26]. *)
Lemma parse_extension_defined :
  forall ssl buf pos remain,
    0 <= pos -> int_range remain ->
    pos + remain + 26 <= Z.of_nat (length buf) ->
    exists r, parse_extension ssl buf pos remain = Done r.
Proof.
  intros ssl buf pos remain Hpos Hr Hlen. unfold int_range in Hr.
  unfold parse_extension.
  unfold sizeof_sni_ext, sni_ext_slen, sni_ext_type, sni_ext_hlen, sni_ext_host.
  destruct (remain <? 0); [eexists; reflexivity|].
  destruct (remain <? 4) eqn:C1; [eexists; reflexivity|].
  apply Z.ltb_ge in C1.
  destruct (int_2byte_le_defined buf pos) as [type ->]; [lia|lia|].
  destruct (int_2byte_le_defined buf (pos + 2)) as [tlen Ht]; [lia|lia|].
  rewrite Ht. cbv beta iota zeta delta [bind].
  apply int_2byte_le_done in Ht. destruct Ht as (_ & _ & Ht).
  destruct (to_uint remain <? tlen) eqn:C2; [eexists; reflexivity|].
  apply Z.ltb_ge in C2. rewrite to_uint_id in C2 by lia.
  destruct (type =? sni_type); [|eexists; reflexivity].
  destruct (tlen <? 2 + 1 + 2 + 1) eqn:C3; [eexists; reflexivity|].
  apply Z.ltb_ge in C3.
  destruct (int_2byte_le_defined buf (pos + 4 * (2 + 1 + 2 + 1) + 0))
    as [slen ->]; [lia|lia|].
  destruct (negb (slen =? to_uint (tlen - 2))); [eexists; reflexivity|].
  destruct (load_defined buf (pos + 4 * (2 + 1 + 2 + 1) + 2)) as [ty ->]; [lia|].
  destruct (negb (ty =? sni_host)); [eexists; reflexivity|].
  destruct (int_2byte_le_defined buf (pos + 4 * (2 + 1 + 2 + 1) + 3))
    as [hl ->]; [lia|lia|].
  destruct (negb (hl =? to_uint (tlen - 3))) eqn:C4; [eexists; reflexivity|].
  apply negb_false_iff, Z.eqb_eq in C4.
  rewrite to_uint_id in C4 by lia.
  destruct (load_bytes_defined (Z.to_nat hl) buf (pos + 4 * (2 + 1 + 2 + 1) + 5))
    as [host ->]; [lia|lia|].
  eexists. reflexivity.
Qed.

Lemma extensions_loop_overreads_at_most_26_aux :
  forall (fuel : nat) (ssl : ssl_session) (buf : list byte) (pos remain : Z),
    0 <= pos ->
    int_range remain ->
    (Z.to_nat remain < fuel)%nat ->
    pos + remain + 26 <= Z.of_nat (length buf) ->
    exists r, extensions_loop fuel ssl buf pos remain = Done r.
Proof.
  induction fuel as [|fuel IH]; intros ssl buf pos remain Hpos Hr Hf Hlen; [lia|].
  simpl.
  destruct (parse_extension_defined ssl buf pos remain Hpos Hr Hlen)
    as [[[ret ssl1] ev1] E].
  rewrite E. cbv beta iota delta [bind].
  destruct (0 <? ret) eqn:Hret; [|eexists; reflexivity].
  apply Z.ltb_lt in Hret.
  destruct (parse_extension_ret _ _ _ _ _ _ _ E Hr Hret) as [H4 Hb].
  assert (Hnew : to_int (remain - ret) = remain - ret)
    by (apply to_int_id; unfold int_range in *; lia).
  rewrite Hnew.
  destruct (IH ssl1 buf (pos + ret) (remain - ret)) as [[[ret2 ssl2] ev2] ->];
    [lia|unfold int_range in *; lia|lia|lia|].
  eexists. reflexivity.
Qed.

(** X8: the walk reads at most 26 bytes past the end of what it was
    given: when the buffer extends 26 bytes beyond [pos + remain], every
    read of the walk is inside it and the walk returns. *)
Theorem extensions_loop_overreads_at_most_26 :
  forall (fuel : nat) (ssl : ssl_session) (buf : list byte) (pos remain : Z),
    0 <= pos ->
    int_range remain ->
    (Z.to_nat remain < fuel)%nat ->
    pos + remain + 26 <= Z.of_nat (length buf) ->
    exists r, extensions_loop fuel ssl buf pos remain = Done r.
Proof.
  intros fuel ssl buf pos remain Hpos Hr Hf Hlen.
  exact (extensions_loop_overreads_at_most_26_aux fuel ssl buf pos remain Hpos Hr Hf Hlen).
Qed.

Lemma extensions_loop_overreads_at_most_26_witness :
  exists r,
    extensions_loop 21 (fresh_session 7) (stack_buf hello_example_com) 52 20 = Done r.
Proof.
  apply (extensions_loop_overreads_at_most_26 21 (fresh_session 7)
           (stack_buf hello_example_com) 52 20).
  - lia.
  - unfold int_range. lia.
  - lia.
  - vm_compute. discriminate.
Defined.

Lemma load_nth_error :
  forall buf off v,
    load buf off = Done v ->
    exists b, nth_error buf (Z.to_nat off) = Some b /\ v = byte_val b.
Proof.
  intros buf off v H. unfold load in H.
  destruct (off <? 0); [discriminate H|].
  destruct (nth_error buf (Z.to_nat off)) as [b|]; [|discriminate H].
  apply Done_inj in H. exists b. split; [reflexivity|congruence].
Qed.

Lemma skipn_nth_error :
  forall (l : list byte) n b,
    nth_error l n = Some b -> skipn n l = b :: skipn (S n) l.
Proof.
  induction l as [|x l IH]; intros [|n] b H; simpl in H; try discriminate H.
  - injection H as ->. reflexivity.
  - simpl. rewrite (IH n b H). reflexivity.
Qed.

(** [load_bytes] copies a slice of the buffer. *)
Lemma load_bytes_slice :
  forall n buf off l,
    0 <= off ->
    load_bytes buf off n = Done l ->
    l = firstn n (skipn (Z.to_nat off) buf) /\ length l = n.
Proof.
  induction n as [|n IH]; intros buf off l Hoff H; simpl in H.
  - apply Done_inj in H. subst l. split; reflexivity.
  - destruct (load buf off) as [v| |] eqn:E; cbv beta iota delta [bind] in H;
      try discriminate H.
    destruct (load_bytes buf (off + 1) n) as [rest| |] eqn:E2; try discriminate H.
    apply Done_inj in H. subst l.
    apply load_nth_error in E. destruct E as (b & Hb & ->).
    apply IH in E2; [|lia]. destruct E2 as [Hrest Hlen].
    replace (Z.to_nat (off + 1)) with (S (Z.to_nat off)) in Hrest by lia.
    rewrite (skipn_nth_error _ _ _ Hb). rewrite byte_of_Z_val.
    split.
    + rewrite Hrest. reflexivity.
    + cbn [length]. rewrite Hlen. reflexivity.
Qed.

(** X9: when [parse_extension] assigns the hostname, the extension has
    type 0 and a payload length [tlen] of at least 6, the bytes 24 to 28
    after its start hold [tlen - 2], 0 and [tlen - 3], and the block
    assigned is the [tlen - 3] bytes that start 29 bytes after the start
    of the extension, followed by one NUL byte; the call returns
    [tlen + 4]. *)
Theorem parse_extension_copies_hostname :
  forall (ssl : ssl_session) (buf : list byte) (pos remain ret : Z)
         (ssl' : ssl_session) (ev : list effect) (block : list byte),
    parse_extension ssl buf pos remain = Done (ret, ssl', ev) ->
    In (Assign_hostname block) ev ->
    exists tlen,
      int_2byte_le buf pos = Done sni_type /\
      int_2byte_le buf (pos + 2) = Done tlen /\
      6 <= tlen <= remain /\
      int_2byte_le buf (pos + 24) = Done (tlen - 2) /\
      load buf (pos + 26) = Done sni_host /\
      int_2byte_le buf (pos + 27) = Done (tlen - 3) /\
      block = firstn (Z.to_nat (tlen - 3)) (skipn (Z.to_nat (pos + 29)) buf)
                ++ [x00] /\
      Z.of_nat (length block) = tlen - 2 /\
      hostname ssl' = Some block /\
      ret = tlen + 4.
Proof.
  intros ssl buf pos remain ret ssl' ev block H Hin.
  unfold parse_extension in H.
  unfold sizeof_sni_ext, sni_ext_slen, sni_ext_type, sni_ext_hlen, sni_ext_host in H.
  replace (pos + 4 * (2 + 1 + 2 + 1) + 0) with (pos + 24) in H by lia.
  replace (pos + 4 * (2 + 1 + 2 + 1) + 2) with (pos + 26) in H by lia.
  replace (pos + 4 * (2 + 1 + 2 + 1) + 3) with (pos + 27) in H by lia.
  replace (pos + 4 * (2 + 1 + 2 + 1) + 5) with (pos + 29) in H by lia.
  destruct (remain <? 0) eqn:C0;
    [injection H as <- <- <-; contradiction Hin|].
  destruct (remain <? 4) eqn:C1;
    [injection H as <- <- <-; contradiction Hin|].
  apply Z.ltb_ge in C0, C1.
  destruct (int_2byte_le buf pos) as [type| |] eqn:E0;
    cbv beta iota zeta delta [bind] in H; try discriminate H.
  destruct (int_2byte_le buf (pos + 2)) as [tlen| |] eqn:E1; try discriminate H.
  pose proof (int_2byte_le_done _ _ _ E0) as (Hpos & _ & _).
  pose proof (int_2byte_le_done _ _ _ E1) as (_ & _ & Ht).
  destruct (to_uint remain <? tlen) eqn:C2;
    [injection H as <- <- <-; contradiction Hin|].
  apply Z.ltb_ge in C2.
  destruct (type =? sni_type) eqn:C3;
    [|injection H as <- <- <-; contradiction Hin].
  apply Z.eqb_eq in C3. subst type.
  destruct (tlen <? 2 + 1 + 2 + 1) eqn:C4;
    [injection H as <- <- <-; contradiction Hin|].
  apply Z.ltb_ge in C4.
  destruct (int_2byte_le buf (pos + 24)) as [slen| |] eqn:E2; try discriminate H.
  destruct (slen =? to_uint (tlen - 2)) eqn:C5; cbn [negb] in H;
    [|injection H as <- <- <-; contradiction Hin].
  destruct (load buf (pos + 26)) as [ty| |] eqn:E3; try discriminate H.
  destruct (ty =? sni_host) eqn:C6; cbn [negb] in H;
    [|injection H as <- <- <-; contradiction Hin].
  destruct (int_2byte_le buf (pos + 27)) as [hl| |] eqn:E4; try discriminate H.
  destruct (hl =? to_uint (tlen - 3)) eqn:C7; cbn [negb] in H;
    [|injection H as <- <- <-; contradiction Hin].
  destruct (load_bytes buf (pos + 29) (Z.to_nat hl)) as [host| |] eqn:E5;
    try discriminate H.
  apply Z.eqb_eq in C5, C6, C7.
  rewrite to_uint_id in C5, C7 by lia.
  assert (Hrem : to_uint remain <= remain)
    by (unfold to_uint; apply Z.mod_le; lia).
  subst slen ty hl.
  apply load_bytes_slice in E5; [|lia]. destruct E5 as [Hhost Hlen].
  apply Done_inj in H.
  assert (Hret : ret = to_int (tlen + 4)) by congruence.
  assert (Hssl : ssl' = set_hostname ssl (Some (host ++ [x00]))) by congruence.
  assert (Hev : ev = [Xmalloc_hostname (to_uint (tlen - 3 + 1));
                      Assign_hostname (host ++ [x00])]) by congruence.
  subst ev. simpl in Hin.
  destruct Hin as [Hin|[Hin|[]]]; [discriminate Hin|].
  injection Hin as <-.
  exists tlen.
  repeat split; try reflexivity; try assumption; try lia.
  - rewrite Hhost at 1. reflexivity.
  - rewrite length_app, Hlen. simpl. lia.
  - rewrite Hssl. reflexivity.
  - rewrite Hret. apply to_int_id. unfold int_range. lia.
Qed.

Lemma parse_extension_copies_hostname_witness :
  exists tlen,
    int_2byte_le hello_empty_block_then_sni 52 = Done sni_type /\
    int_2byte_le hello_empty_block_then_sni (52 + 2) = Done tlen /\
    6 <= tlen <= 32 /\
    int_2byte_le hello_empty_block_then_sni (52 + 24) = Done (tlen - 2) /\
    load hello_empty_block_then_sni (52 + 26) = Done sni_host /\
    int_2byte_le hello_empty_block_then_sni (52 + 27) = Done (tlen - 3) /\
    bytes_of [0x61; 0x62; 0x63; 0] =
      firstn (Z.to_nat (tlen - 3))
        (skipn (Z.to_nat (52 + 29)) hello_empty_block_then_sni) ++ [x00] /\
    Z.of_nat (length (bytes_of [0x61; 0x62; 0x63; 0])) = tlen - 2 /\
    hostname (set_hostname (fresh_session 7) (Some (bytes_of [0x61; 0x62; 0x63; 0])))
      = Some (bytes_of [0x61; 0x62; 0x63; 0]) /\
    10 = tlen + 4.
Proof.
  apply (parse_extension_copies_hostname (fresh_session 7)
           hello_empty_block_then_sni 52 32 10
           (set_hostname (fresh_session 7) (Some (bytes_of [0x61; 0x62; 0x63; 0])))
           [Xmalloc_hostname 4; Assign_hostname (bytes_of [0x61; 0x62; 0x63; 0])]
           (bytes_of [0x61; 0x62; 0x63; 0])).
  - vm_compute. reflexivity.
  - simpl. tauto.
Defined.

Lemma int_2byte_le_in_list :
  forall buf pre post n,
    buf = pre ++ le16 n ++ post -> 0 <= n < 65536 ->
    int_2byte_le buf (Z.of_nat (length pre)) = Done n.
Proof. intros buf pre post n -> Hn. apply int_2byte_le_le16_aux. exact Hn. Qed.

Lemma encode_extension_length :
  forall e,
    Z.of_nat (length (encode_extension e)) = Z.of_nat (length (snd e)) + 4.
Proof.
  intros [ty payload]. unfold encode_extension, le16.
  rewrite !length_app. simpl. lia.
Qed.

(** One step of the walk over an extension of another type than 0. *)
Lemma parse_extension_plain :
  forall ssl pre e rest remain,
    plain_extension e ->
    Z.of_nat (length (encode_extension e)) <= remain < 2 ^ 31 ->
    parse_extension ssl (pre ++ encode_extension e ++ rest)
      (Z.of_nat (length pre)) remain
    = Done (Z.of_nat (length (encode_extension e)), ssl, []).
Proof.
  intros ssl pre [ty payload] rest remain [Hty Hpl] Hrem.
  rewrite encode_extension_length in *. simpl fst in *. simpl snd in *.
  unfold parse_extension.
  destruct (remain <? 0) eqn:C0; [apply Z.ltb_lt in C0; lia|].
  destruct (remain <? 4) eqn:C1; [apply Z.ltb_lt in C1; lia|].
  rewrite (int_2byte_le_in_list _ pre
             (le16 (Z.of_nat (length payload)) ++ payload ++ rest) ty);
    [|unfold encode_extension; simpl fst; simpl snd;
      rewrite <- !app_assoc; reflexivity|lia].
  cbv beta iota zeta delta [bind].
  replace (Z.of_nat (length pre) + 2) with (Z.of_nat (length (pre ++ le16 ty)))
    by (rewrite length_app; simpl; lia).
  rewrite (int_2byte_le_in_list _ (pre ++ le16 ty) (payload ++ rest)
             (Z.of_nat (length payload)));
    [|unfold encode_extension; simpl fst; simpl snd;
      rewrite <- !app_assoc; reflexivity|lia].
  rewrite to_uint_id by lia.
  destruct (remain <? Z.of_nat (length payload)) eqn:C2;
    [apply Z.ltb_lt in C2; lia|].
  unfold sni_type.
  destruct (ty =? 0) eqn:C3; [apply Z.eqb_eq in C3; lia|].
  rewrite to_int_id by (unfold int_range; lia).
  reflexivity.
Qed.

Lemma extensions_loop_skips_other_extensions_aux :
  forall (exts : list (Z * list byte)) (ssl : ssl_session)
         (pre tail : list byte) (fuel : nat),
    Forall plain_extension exts ->
    (length tail < 4)%nat ->
    Z.of_nat (length (encode_extensions exts ++ tail)) < 2 ^ 31 ->
    (length (encode_extensions exts ++ tail) < fuel)%nat ->
    extensions_loop fuel ssl (pre ++ encode_extensions exts ++ tail)
      (Z.of_nat (length pre))
      (Z.of_nat (length (encode_extensions exts ++ tail)))
    = Done (0, ssl, []).
Proof.
  induction exts as [|e exts IH]; intros ssl pre tail fuel Hall Htail Hmax Hfuel.
  - simpl in *. destruct fuel as [|fuel]; [lia|].
    simpl. unfold parse_extension.
    destruct (Z.of_nat (length tail) <? 0) eqn:C0; [apply Z.ltb_lt in C0; lia|].
    destruct (Z.of_nat (length tail) <? 4) eqn:C1;
      [reflexivity|apply Z.ltb_ge in C1; lia].
  - inversion Hall as [|e' exts' He Hexts]; subst.
    destruct fuel as [|fuel]; [lia|].
    cbn [encode_extensions] in *.
    rewrite <- app_assoc in *.
    pose proof (encode_extension_length e) as Hel.
    assert (Hsplit : Z.of_nat (length (encode_extension e ++ encode_extensions exts ++ tail))
                     = Z.of_nat (length (encode_extension e))
                       + Z.of_nat (length (encode_extensions exts ++ tail)))
      by (rewrite length_app; lia).
    cbn [extensions_loop].
    rewrite parse_extension_plain; [|exact He|lia].
    cbv beta iota delta [bind].
    destruct (0 <? Z.of_nat (length (encode_extension e))) eqn:Cp;
      [|apply Z.ltb_ge in Cp; lia].
    rewrite Hsplit.
    replace (Z.of_nat (length (encode_extension e))
             + Z.of_nat (length (encode_extensions exts ++ tail))
             - Z.of_nat (length (encode_extension e)))
      with (Z.of_nat (length (encode_extensions exts ++ tail))) by lia.
    rewrite to_int_id by (unfold int_range; lia).
    replace (Z.of_nat (length pre) + Z.of_nat (length (encode_extension e)))
      with (Z.of_nat (length (pre ++ encode_extension e)))
      by (rewrite length_app; lia).
    replace (pre ++ encode_extension e ++ encode_extensions exts ++ tail)
      with ((pre ++ encode_extension e) ++ encode_extensions exts ++ tail)
      by (rewrite <- app_assoc; reflexivity).
    rewrite IH; [reflexivity|exact Hexts|exact Htail|lia|].
    rewrite length_app in Hfuel. lia.
Qed.

(** X10: extensions of any type but 0 are stepped over: on a block made
    of such extensions, followed by fewer than 4 bytes, the walk returns
    0 with the session untouched and no effect, whatever the payloads
    hold. *)
Theorem extensions_loop_skips_other_extensions :
  forall (exts : list (Z * list byte)) (ssl : ssl_session)
         (pre tail : list byte) (fuel : nat),
    Forall plain_extension exts ->
    (length tail < 4)%nat ->
    Z.of_nat (length (encode_extensions exts ++ tail)) < 2 ^ 31 ->
    (length (encode_extensions exts ++ tail) < fuel)%nat ->
    extensions_loop fuel ssl (pre ++ encode_extensions exts ++ tail)
      (Z.of_nat (length pre))
      (Z.of_nat (length (encode_extensions exts ++ tail)))
    = Done (0, ssl, []).
Proof.
  intros exts ssl pre tail fuel Hall Htail Hmax Hfuel.
  exact (extensions_loop_skips_other_extensions_aux exts ssl pre tail fuel Hall Htail Hmax Hfuel).
Qed.

Lemma extensions_loop_skips_other_extensions_witness :
  extensions_loop 20 (fresh_session 7)
    (bytes_of [1; 2; 3] ++
     encode_extensions [(10, bytes_of [5; 6]); (0x2b, bytes_of [7; 8; 9])] ++
     bytes_of [4])
    (Z.of_nat (length (bytes_of [1; 2; 3])))
    (Z.of_nat (length
       (encode_extensions [(10, bytes_of [5; 6]); (0x2b, bytes_of [7; 8; 9])]
        ++ bytes_of [4])))
  = Done (0, fresh_session 7, []).
Proof.
  apply (extensions_loop_skips_other_extensions
           [(10, bytes_of [5; 6]); (0x2b, bytes_of [7; 8; 9])]
           (fresh_session 7) (bytes_of [1; 2; 3]) (bytes_of [4]) 20).
  - repeat constructor; simpl; lia.
  - simpl. lia.
  - vm_compute. reflexivity.
  - simpl. lia.
Defined.

(** ** The listener *)

(** X11: [accept_from_socket] after a successful [accept]: it returns
    the new descriptor, closing nothing, exactly when both [fcntl] calls
    succeed; otherwise it returns -1 having closed the new descriptor,
    and, when it is [F_SETFL] that failed, having closed the listening
    socket too. *)
Theorem accept_from_socket_after_accept :
  forall (sock nfd : Z) (g sl sd : sysret) (errno : errno_t),
    nfd <> -1 ->
    let '(ret, _, tr) :=
      accept_from_socket sock (mk_accept_answers (Ret nfd) g sl sd) errno in
    (ret_val sl <> -1 /\ ret_val sd <> -1 /\ ret = nfd /\ count is_close tr = 0%nat) \/
    (ret_val sl <> -1 /\ ret_val sd = -1 /\ ret = -1 /\
     filter is_close tr = [Sys_close nfd]) \/
    (ret_val sl = -1 /\ ret = -1 /\
     filter is_close tr = [Sys_close sock; Sys_close nfd]).
Proof.
  intros sock nfd g sl sd errno Hn.
  unfold accept_from_socket. cbn [k_accept k_acc_getfl k_acc_setfl k_acc_setfd ret_val].
  destruct (nfd =? -1) eqn:E; [apply Z.eqb_eq in E; contradiction|].
  destruct (ret_val sl =? -1) eqn:E1.
  - apply Z.eqb_eq in E1. right. right. repeat split; assumption.
  - apply Z.eqb_neq in E1.
    destruct (ret_val sd =? -1) eqn:E2.
    + apply Z.eqb_eq in E2. right. left. repeat split; assumption.
    + apply Z.eqb_neq in E2. left. repeat split; assumption.
Qed.

Lemma accept_from_socket_after_accept_witness :
  let '(ret, _, tr) :=
    accept_from_socket 3 (mk_accept_answers (Ret 4) (Ret 2) (Fail (EOTHER 9)) (Ret 0))
      (EOTHER 0) in
  (ret_val (Fail (EOTHER 9)) <> -1 /\ ret_val (Ret 0) <> -1 /\ ret = 4 /\
   count is_close tr = 0%nat) \/
  (ret_val (Fail (EOTHER 9)) <> -1 /\ ret_val (Ret 0) = -1 /\ ret = -1 /\
   filter is_close tr = [Sys_close 4]) \/
  (ret_val (Fail (EOTHER 9)) = -1 /\ ret = -1 /\
   filter is_close tr = [Sys_close 3; Sys_close 4]).
Proof.
  apply (accept_from_socket_after_accept 3 4 (Ret 2) (Fail (EOTHER 9)) (Ret 0)
           (EOTHER 0)).
  lia.
Defined.

(** X12: [accept_cb] either builds one session, on the descriptor
    [accept_from_socket] returned, in [ssl_state_init] with no hostname
    and its watcher started on [greet_cb] for [EV_READ], logging
    nothing; or it builds none, starts no watcher and logs "accept
    failed" last.  The second case includes a return value of 0. *)
Theorem accept_cb_session_or_log :
  forall (w_fd : Z) (k : accept_answers) (errno : errno_t),
    let nfd := fst (fst (accept_from_socket w_fd k errno)) in
    let tr := snd (accept_cb w_fd k errno) in
    (0 < nfd /\
     fst (accept_cb w_fd k errno) = Some (fresh_session nfd) /\
     count is_log tr = 0%nat /\
     filter is_io_start tr = [Ev_io_start cb_greet nfd EV_READ]) \/
    (nfd <= 0 /\
     fst (accept_cb w_fd k errno) = None /\
     count is_io_start tr = 0%nat /\
     exists pre e, tr = pre ++ [Log_accept_failed e]).
Proof.
  intros w_fd [a g sl sd] errno. cbv zeta.
  unfold accept_cb, accept_from_socket.
  cbn [k_accept k_acc_getfl k_acc_setfl k_acc_setfd].
  destruct (ret_val a =? -1) eqn:E.
  - right.
    destruct (set_errno a errno); cbn [fst snd];
      (split; [lia|]); (split; [reflexivity|]); (split; [reflexivity|]);
      eexists; eexists; reflexivity.
  - apply Z.eqb_neq in E.
    destruct (ret_val sl =? -1) eqn:E1.
    + right. cbn [fst snd]. split; [lia|]. split; [reflexivity|].
      split; [reflexivity|]. eexists; eexists. reflexivity.
    + destruct (ret_val sd =? -1) eqn:E2.
      * right. cbn [fst snd]. split; [lia|]. split; [reflexivity|].
        split; [reflexivity|]. eexists; eexists. reflexivity.
      * cbn [fst snd].
        destruct (0 <? ret_val a) eqn:E3.
        -- left. apply Z.ltb_lt in E3. cbn [fst snd].
           split; [exact E3|]. split; [reflexivity|]. split; reflexivity.
        -- right. apply Z.ltb_ge in E3. cbn [fst snd].
           split; [exact E3|]. split; [reflexivity|].
           split; [reflexivity|]. eexists; eexists. reflexivity.
Qed.

(** X13: a connection accepted on descriptor 0 is not served: with
    every call succeeding, [accept_from_socket] returns 0, which
    [accept_cb] takes for a failure; it logs, builds no session, and
    leaves descriptor 0 open. *)
Theorem accept_cb_drops_descriptor_0 :
  forall (w_fd ofl : Z) (errno : errno_t),
    accept_cb w_fd (mk_accept_answers (Ret 0) (Ret ofl) (Ret 0) (Ret 0)) errno =
      (None,
       [Sys_accept w_fd 0;
        Sys_fcntl_getfl w_fd ofl;
        Sys_fcntl_setfl_nonblock w_fd ofl 0;
        Sys_fcntl_setfd_cloexec 0 0;
        Log_accept_failed errno]) /\
    open_fds (snd (accept_cb w_fd
                     (mk_accept_answers (Ret 0) (Ret ofl) (Ret 0) (Ret 0)) errno)) []
      = [0].
Proof.
  intros w_fd ofl errno. split; reflexivity.
Qed.

Lemma listen_on_starts_nothing :
  forall k, filter is_io_start (snd (listen_on k)) = [] /\
            filter is_io_stop (snd (listen_on k)) = [].
Proof.
  intros k. unfold listen_on.
  repeat match goal with
         | |- context [if ?c then _ else _] => destruct c
         end; split; reflexivity.
Qed.

(** X14: [listen_on] leaks no descriptor: when it returns -1 the socket
    it opened, if any, is closed again; when it returns a socket, the
    socket is open and was marked close-on-exec, given [SO_REUSEADDR],
    set non-blocking, bound and put to listen, in this order. *)
Theorem listen_on_closes_on_failure :
  forall k : listen_answers,
    let sock := ret_val (k_socket k) in
    (fst (listen_on k) = -1 /\ open_fds (snd (listen_on k)) [] = []) \/
    (fst (listen_on k) = sock /\ sock <> -1 /\
     open_fds (snd (listen_on k)) [] = [sock] /\
     snd (listen_on k) =
       [Sys_socket sock;
        Sys_fcntl_setfd_cloexec sock (ret_val (k_setfd k));
        Sys_setsockopt_reuseaddr sock;
        Sys_fcntl_getfl sock (ret_val (k_getfl k));
        Sys_fcntl_setfl_nonblock sock (ret_val (k_getfl k)) (ret_val (k_setfl k));
        Sys_bind sock (ret_val (k_bind k));
        Sys_listen sock (ret_val (k_listen k))]).
Proof.
  intros k. cbv zeta. unfold listen_on.
  destruct (ret_val (k_socket k) =? -1) eqn:E0.
  { left. split; [reflexivity|]. cbn [snd open_fds]. rewrite E0. reflexivity. }
  assert (Hclosed : forall mid,
             Forall (fun e => match e with
                              | Sys_socket _ | Sys_accept _ _ | Sys_close _ => False
                              | _ => True
                              end) mid ->
             open_fds (Sys_socket (ret_val (k_socket k)) :: mid ++
                         [Sys_close (ret_val (k_socket k))]) [] = []).
  { intros mid Hmid. cbn [open_fds]. rewrite E0. cbn [app].
    induction Hmid as [|e mid He _ IH].
    - cbn [app open_fds filter]. rewrite Z.eqb_refl. reflexivity.
    - destruct e; try contradiction He; exact IH. }
  destruct (ret_val (k_setfd k) =? -1).
  { left. split; [reflexivity|]. cbn [snd app].
    apply (Hclosed [_]). repeat constructor. }
  destruct (ret_val (k_setfl k) =? -1).
  { left. split; [reflexivity|]. cbn [snd app].
    apply (Hclosed [_; _; _; _]). repeat constructor. }
  destruct (ret_val (k_bind k) =? -1).
  { left. split; [reflexivity|]. cbn [snd app].
    apply (Hclosed [_; _; _; _; _]). repeat constructor. }
  destruct (ret_val (k_listen k) =? -1).
  { left. split; [reflexivity|]. cbn [snd app].
    apply (Hclosed [_; _; _; _; _; _]). repeat constructor. }
  right. apply Z.eqb_neq in E0.
  split; [reflexivity|]. split; [exact E0|].
  split; [|reflexivity].
  cbn [snd app open_fds]. apply Z.eqb_neq in E0. rewrite E0. reflexivity.
Qed.

Lemma start_listen_loop_watchers :
  forall res,
    filter is_io_start (snd (start_listen_loop res)) =
      map (fun s => Ev_io_start cb_accept s EV_READ) (sockets_set_up res) /\
    filter is_io_stop (snd (start_listen_loop res)) = [] /\
    (fst (start_listen_loop res) = true <->
     length (sockets_set_up res) = length res).
Proof.
  induction res as [|k res (IHs & IHp & IHr)].
  - repeat split; reflexivity.
  - cbn [start_listen_loop sockets_set_up].
    destruct (listen_on k) as [sock ev] eqn:E.
    pose proof (listen_on_starts_nothing k) as [Hs Hp]. rewrite E in Hs, Hp.
    cbn [fst snd] in *.
    destruct (sock =? -1).
    + cbn [fst snd]. rewrite !filter_app, Hs, Hp.
      repeat split; try reflexivity; intros H; discriminate H.
    + destruct (start_listen_loop res) as [ok ev'].
      cbn [fst snd] in *. rewrite !filter_app, Hs, Hp, IHs, IHp.
      repeat split; try reflexivity.
      * intros H. cbn [length]. f_equal. apply IHr. exact H.
      * intros H. apply IHr. cbn [length] in H. lia.
Qed.

(** X15: [start_listen] returns [true] exactly when [getaddrinfo]
    succeeded and [listen_on] succeeded for every address; whether it
    returns [true] or [false], it has started one accept watcher on each
    socket set up before the first failure, in the order of the
    addresses, and has stopped none.  An empty address list gives [true]
    with nothing listening. *)
Theorem start_listen_watchers :
  forall (gai : Z) (res : list listen_answers),
    (fst (start_listen gai res) = true <->
     gai = 0 /\ length (sockets_set_up res) = length res) /\
    (gai = 0 ->
     filter is_io_start (snd (start_listen gai res)) =
       map (fun s => Ev_io_start cb_accept s EV_READ) (sockets_set_up res)) /\
    filter is_io_stop (snd (start_listen gai res)) = [] /\
    start_listen 0 [] = (true, []).
Proof.
  intros gai res. unfold start_listen.
  pose proof (start_listen_loop_watchers res) as (Hs & Hp & Hr).
  destruct (gai =? 0) eqn:E; cbn [negb].
  - apply Z.eqb_eq in E. subst gai.
    split; [|split; [intros _; exact Hs|split; [exact Hp|reflexivity]]].
    rewrite Hr. tauto.
  - apply Z.eqb_neq in E. cbn [fst snd].
    split; [|split; [intros H; contradiction|split; reflexivity]].
    split; [intros H; discriminate H|intros [H _]; contradiction].
Qed.

Lemma start_listen_watchers_witness :
  filter is_io_start (snd (start_listen 0 [answers_ok 3; answers_bind_fails 4; answers_ok 5])) =
    map (fun s => Ev_io_start cb_accept s EV_READ)
      (sockets_set_up [answers_ok 3; answers_bind_fails 4; answers_ok 5]).
Proof.
  apply (proj1 (proj2 (start_listen_watchers 0
                         [answers_ok 3; answers_bind_fails 4; answers_ok 5]))).
  reflexivity.
Defined.

(** ** Runs of a session, continued *)

Lemma run_alert_sent_released :
  forall sgn evs ssl l tr,
    alert_watcher ssl ->
    state ssl = ssl_state_alert_sent ->
    run sgn (Live ssl) evs = Done (l, tr) ->
    (l = Freed <-> (1 <= writables evs)%nat).
Proof.
  intros sgn evs ssl l tr Hio Hst.
  induction evs as [|e evs IH]; intros H.
  - simpl in H. injection H as <- <-. simpl. split; [discriminate|lia].
  - rewrite run_cons in H. destruct e as [r data|stack].
    + unfold deliver in H. rewrite Hio in H. cbn [io_active io_cb io_events] in H.
      cbv beta iota delta [bind] in H.
      destruct (run sgn (Live ssl) evs) as [[l2 tr2]| |]; try discriminate H.
      injection H as <- <-. simpl. apply IH. reflexivity.
    + rewrite (deliver_writable sgn ssl stack Hio) in H.
      unfold alert_cb in H. rewrite Hst in H. unfold terminate_session in H.
      cbv beta iota delta [bind] in H. rewrite run_freed in H.
      injection H as <- <-. simpl. split; [lia|reflexivity].
Qed.

Lemma run_alert_pending_released :
  forall sgn evs ssl l tr,
    alert_watcher ssl ->
    state ssl = ssl_state_alert ->
    run sgn (Live ssl) evs = Done (l, tr) ->
    (l = Freed <-> (2 <= writables evs)%nat).
Proof.
  intros sgn evs ssl l tr Hio Hst.
  induction evs as [|e evs IH]; intros H.
  - simpl in H. injection H as <- <-. simpl. split; [discriminate|lia].
  - rewrite run_cons in H. destruct e as [r data|stack].
    + unfold deliver in H. rewrite Hio in H. cbn [io_active io_cb io_events] in H.
      cbv beta iota delta [bind] in H.
      destruct (run sgn (Live ssl) evs) as [[l2 tr2]| |]; try discriminate H.
      injection H as <- <-. simpl. apply IH. reflexivity.
    + rewrite (deliver_writable sgn ssl stack Hio) in H.
      rewrite (alert_cb_writes stack ssl Hst) in H.
      cbv beta iota delta [bind] in H.
      destruct (run sgn (Live (set_state ssl ssl_state_alert_sent)) evs)
        as [[l2 tr2]| |] eqn:E; try discriminate H.
      injection H as <- <-.
      apply run_alert_sent_released in E; [|exact Hio|reflexivity].
      simpl. rewrite E. lia.
Qed.

(** X16: a session is released exactly when its [read] returned 0 or a
    negative value, or returned a positive count and was followed by two
    write-readiness callbacks; a session that is never readable, or is
    not written to twice after its read, stays allocated: there is no
    timeout. *)
Theorem session_released_iff :
  forall (sgn : bool) (nfd : Z) (evs : list readiness) (l : life) (tr : list effect),
    run sgn (Live (fresh_session nfd)) evs = Done (l, tr) ->
    (l = Freed <->
     exists r, first_read evs = Some r /\
               (r <= 0 \/ (2 <= writables (after_first_read evs))%nat)).
Proof.
  intros sgn nfd evs.
  induction evs as [|e evs IH]; intros l tr H.
  - simpl in H. injection H as <- <-. simpl.
    split; [discriminate|intros (r & Hr & _); discriminate Hr].
  - rewrite run_cons in H. destruct e as [r data|stack].
    + change (deliver sgn (Live (fresh_session nfd)) (Readable r data))
        with (greet_cb sgn (fresh_session nfd) r data) in H.
      unfold greet_cb in H. cbn [first_read after_first_read].
      destruct (r <=? 0) eqn:Hr.
      * apply Z.leb_le in Hr. unfold terminate_session in H.
        cbv beta iota delta [bind] in H. rewrite run_freed in H.
        injection H as <- <-.
        split; [intros _; exists r; split; [reflexivity|left; exact Hr]|reflexivity].
      * apply Z.leb_gt in Hr. cbv beta iota delta [bind] in H.
        destruct (parse_ssl_greeting sgn (fresh_session nfd) data r)
          as [[ssl1 ev]| |] eqn:E; try discriminate H.
        destruct (run sgn (Live ssl1) evs) as [[l2 tr2]| |] eqn:E2;
          try discriminate H.
        injection H as <- <-.
        apply parse_ssl_greeting_session in E.
        destruct E as (Hfd & Hio & Hst & _). simpl in Hfd, Hio.
        apply run_alert_pending_released in E2;
          [|unfold alert_watcher; rewrite Hio, Hfd; reflexivity|exact Hst].
        rewrite E2. split.
        -- intros Hw. exists r. split; [reflexivity|right; exact Hw].
        -- intros (r' & Hr' & [Hle|Hw]); [|exact Hw].
           injection Hr' as <-. lia.
    + change (deliver sgn (Live (fresh_session nfd)) (Writable stack))
        with (Done (A:=life * list effect) (Live (fresh_session nfd), [])) in H.
      cbv beta iota delta [bind] in H.
      destruct (run sgn (Live (fresh_session nfd)) evs) as [[l2 tr2]| |] eqn:E;
        try discriminate H.
      injection H as <- <-. cbn [first_read after_first_read].
      apply IH with (tr := tr2). reflexivity.
Qed.

Lemma session_released_iff_witness :
  Live (fst (send_alert (fresh_session 7))) = Freed <->
  exists r, first_read [Writable stack_00; Readable 43 []; Readable 0 []] = Some r /\
            (r <= 0 \/
             (2 <= writables (after_first_read
                                [Writable stack_00; Readable 43 []; Readable 0 []]))%nat).
Proof.
  apply (session_released_iff true 7
           [Writable stack_00; Readable 43 []; Readable 0 []]
           (Live (fst (send_alert (fresh_session 7))))
           [Sys_read 7 43; Ev_io_stop 7; Ev_io_init cb_alert 7 EV_WRITE;
            Ev_io_start cb_alert 7 EV_WRITE]).
  vm_compute. reflexivity.
Defined.

Lemma last_assigned_app :
  forall tr1 tr2 h,
    last_assigned (tr1 ++ tr2) h = last_assigned tr2 (last_assigned tr1 h).
Proof. intros tr1 tr2 h. unfold last_assigned. apply fold_left_app. Qed.

Lemma parse_extension_hostname :
  forall ssl buf pos remain ret ssl' ev,
    parse_extension ssl buf pos remain = Done (ret, ssl', ev) ->
    hostname ssl' = last_assigned ev (hostname ssl).
Proof.
  intros ssl buf pos remain ret ssl' ev H.
  unfold parse_extension in H.
  repeat bind_inv H; injection H as <- <- <-; reflexivity.
Qed.

Lemma extensions_loop_hostname :
  forall fuel ssl buf p remain ret ssl' ev,
    extensions_loop fuel ssl buf p remain = Done (ret, ssl', ev) ->
    hostname ssl' = last_assigned ev (hostname ssl).
Proof.
  induction fuel as [|fuel IH]; intros ssl buf p remain ret ssl' ev H;
    simpl in H; [discriminate H|].
  bind_inv H. destruct a as [[ret1 ssl1] ev1].
  apply parse_extension_hostname in E.
  destruct (0 <? ret1).
  - bind_inv H. destruct a as [[ret2 ssl2] ev2].
    injection H as <- <- <-.
    apply IH in E0. rewrite last_assigned_app, <- E. exact E0.
  - injection H as <- <- <-. exact E.
Qed.

Lemma parse_hello_body_hostname :
  forall sgn ssl buf p remain ret ssl' ev,
    parse_hello_body sgn ssl buf p remain = Done (ret, ssl', ev) ->
    hostname ssl' = last_assigned ev (hostname ssl).
Proof.
  intros sgn ssl buf p remain ret ssl' ev H.
  unfold parse_hello_body in H.
  bind_inv H. destruct a as [[p' remain']|].
  - bind_inv H. destruct (to_uint remain' <? a).
    + injection H as <- <- <-. reflexivity.
    + bind_inv H. destruct a0 as [[ret0 ssl0] ev0].
      injection H as <- <- <-.
      apply extensions_loop_hostname in E1. exact E1.
  - injection H as <- <- <-. reflexivity.
Qed.

Lemma parse_ssl_greeting_hostname :
  forall (sgn : bool) (ssl : ssl_session) (buf : list byte) (len : Z)
         (ssl' : ssl_session) (tr : list effect),
    parse_ssl_greeting sgn ssl buf len = Done (ssl', tr) ->
    hostname ssl' = last_assigned tr (hostname ssl).
Proof.
  intros sgn ssl buf len ssl' tr H.
  unfold parse_ssl_greeting, ev_io_stop, send_alert in H.
  destruct (len mod 2 ^ 64 <=? sizeof_ssl_header).
  - injection H as <- <-. reflexivity.
  - bind_inv H. destruct a.
    + injection H as <- <-. reflexivity.
    + bind_inv H. destruct a as [[ret ssl1] ev1].
      apply parse_hello_body_hostname in E0. cbn [hostname] in E0.
      destruct ret as [[| |]|]; injection H as <- <-;
        cbn [hostname set_io set_state app];
        unfold last_assigned in *; cbn [fold_left];
        rewrite ?fold_left_app; cbn [fold_left]; exact E0.
Qed.

(** X17: when [parse_ssl_greeting] returns, the session's hostname is
    the block of the last assignment the call made, or what it was
    before the call if it made none: blocks assigned earlier in the call
    are no longer referenced by the session. *)
Theorem parse_ssl_greeting_keeps_last_hostname :
  forall (sgn : bool) (ssl : ssl_session) (buf : list byte) (len : Z)
         (ssl' : ssl_session) (tr : list effect),
    parse_ssl_greeting sgn ssl buf len = Done (ssl', tr) ->
    hostname ssl' = last_assigned tr (hostname ssl).
Proof.
  intros sgn ssl buf len ssl' tr H.
  exact (parse_ssl_greeting_hostname sgn ssl buf len ssl' tr H).
Qed.

Lemma parse_ssl_greeting_keeps_last_hostname_witness :
  hostname (set_hostname (fst (send_alert (fresh_session 7)))
              (Some (bytes_of [0x78; 0x79; 0x7a; 0]))) =
  last_assigned
    [Ev_io_stop 7; Xmalloc_hostname 4;
     Assign_hostname (bytes_of [0x61; 0x62; 0x63; 0]);
     Xmalloc_hostname 4;
     Assign_hostname (bytes_of [0x78; 0x79; 0x7a; 0]);
     Printf_got_hostname (Some (bytes_of [0x78; 0x79; 0x7a; 0]));
     Ev_io_init cb_alert 7 EV_WRITE; Ev_io_start cb_alert 7 EV_WRITE]
    (hostname (fresh_session 7)).
Proof.
  apply (parse_ssl_greeting_keeps_last_hostname true (fresh_session 7)
           hello_two_sni 94).
  vm_compute. reflexivity.
Defined.

Lemma count_none :
  forall (f : effect -> bool) tr,
    Forall (fun e => f e = false) tr -> count f tr = 0%nat.
Proof.
  intros f tr H. unfold count.
  induction H as [|e tr He _ IH]; [reflexivity|].
  simpl. rewrite He. exact IH.
Qed.

(** The decoder closes and frees nothing. *)
Lemma parse_ssl_greeting_releases_nothing :
  forall sgn ssl buf len ssl' tr,
    parse_ssl_greeting sgn ssl buf len = Done (ssl', tr) ->
    count is_close tr = 0%nat /\
    count is_free_hostname tr = 0%nat /\
    count is_free_session tr = 0%nat.
Proof.
  intros sgn ssl buf len ssl' tr H.
  destruct (parse_ssl_greeting_inv _ _ _ _ _ _ H) as (ev & Hev & Hshape).
  assert (Hq : forall f : effect -> bool,
             (forall e, hostname_effect e -> f e = false) ->
             Forall (fun e => f e = false) ev).
  { intros f Hf. eapply Forall_impl; [|exact Hev]. exact Hf. }
  assert (Hc : forall f : effect -> bool,
             (forall e, hostname_effect e -> f e = false) ->
             f (Ev_io_stop (io_fd (io ssl))) = false ->
             f (Printf_got_hostname (hostname ssl')) = false ->
             f (Ev_io_init cb_alert (fd ssl) EV_WRITE) = false ->
             f (Ev_io_start cb_alert (fd ssl) EV_WRITE) = false ->
             count f tr = 0%nat).
  { intros f Hf H1 H2 H3 H4. apply count_none.
    destruct Hshape as [->|(-> & _)];
      (constructor; [exact H1|]); apply Forall_app; (split; [exact (Hq f Hf)|]);
      repeat (constructor; [assumption|]); constructor. }
  repeat split; apply Hc; try reflexivity;
    intros e He; destruct e; try contradiction He; reflexivity.
Qed.

Lemma run_fresh_session_released :
  forall sgn nfd evs tr,
    run sgn (Live (fresh_session nfd)) evs = Done (Freed, tr) ->
    (exists r, r <= 0 /\
               tr = Sys_read nfd r :: snd (terminate_session (fresh_session nfd))) \/
    (exists r data ssl1 ev stack,
        0 < r /\
        parse_ssl_greeting sgn (fresh_session nfd) data r = Done (ssl1, ev) /\
        tr = Sys_read nfd r :: ev ++
               alert_write ssl1 stack :: snd (terminate_session ssl1)).
Proof.
  intros sgn nfd evs.
  induction evs as [|e evs IH]; intros tr H.
  - simpl in H. discriminate H.
  - rewrite run_cons in H. destruct e as [r data|stack].
    + change (deliver sgn (Live (fresh_session nfd)) (Readable r data))
        with (greet_cb sgn (fresh_session nfd) r data) in H.
      unfold greet_cb in H.
      destruct (r <=? 0) eqn:Hr.
      * apply Z.leb_le in Hr. unfold terminate_session in H.
        cbv beta iota delta [bind] in H. rewrite run_freed in H.
        injection H as <-. left. exists r. split; [exact Hr|]. reflexivity.
      * apply Z.leb_gt in Hr. cbv beta iota delta [bind] in H.
        destruct (parse_ssl_greeting sgn (fresh_session nfd) data r)
          as [[ssl1 ev]| |] eqn:E; try discriminate H.
        destruct (run sgn (Live ssl1) evs) as [[l2 tr2]| |] eqn:E2;
          try discriminate H.
        injection H as -> <-.
        pose proof (parse_ssl_greeting_session _ _ _ _ _ _ E)
          as (Hfd & Hio & Hst & _). simpl in Hfd, Hio.
        apply run_alert_pending in E2;
          [|unfold alert_watcher; rewrite Hio, Hfd; reflexivity|exact Hst].
        destruct E2 as [[Hl _]|[stack [[Hl _]|[_ ->]]]]; try discriminate Hl.
        right. exists r, data, ssl1, ev, stack.
        split; [exact Hr|]. split; [exact E|reflexivity].
    + change (deliver sgn (Live (fresh_session nfd)) (Writable stack))
        with (Done (A:=life * list effect) (Live (fresh_session nfd), [])) in H.
      cbv beta iota delta [bind] in H.
      destruct (run sgn (Live (fresh_session nfd)) evs) as [[l2 tr2]| |] eqn:E;
        try discriminate H.
      injection H as -> <-. apply IH. reflexivity.
Qed.

(** X18: every run that releases a session ends with stopping its
    watcher, closing its socket, freeing its hostname pointer and freeing
    the session, in this order, and does none of the last three before;
    the pointer freed is the block of the last hostname assignment, NULL
    if there was none. *)
Theorem session_release_frees_once :
  forall (sgn : bool) (nfd : Z) (evs : list readiness) (tr : list effect),
    run sgn (Live (fresh_session nfd)) evs = Done (Freed, tr) ->
    exists pre h,
      tr = pre ++ [Ev_io_stop nfd; Sys_close nfd; Free_hostname h; Free_session] /\
      count is_close pre = 0%nat /\
      count is_free_hostname pre = 0%nat /\
      count is_free_session pre = 0%nat /\
      h = last_assigned pre None.
Proof.
  intros sgn nfd evs tr H.
  apply run_fresh_session_released in H.
  destruct H as [(r & Hr & ->)|(r & data & ssl1 & ev & stack & Hr & Hp & ->)].
  - exists [Sys_read nfd r], None. repeat split.
  - pose proof (parse_ssl_greeting_session _ _ _ _ _ _ Hp) as (Hfd & Hio & _ & _).
    pose proof (parse_ssl_greeting_hostname _ _ _ _ _ _ Hp) as Hh.
    pose proof (parse_ssl_greeting_releases_nothing _ _ _ _ _ _ Hp)
      as (Hc & Hfh & Hfs).
    simpl in Hfd, Hio, Hh.
    exists (Sys_read nfd r :: ev ++ [alert_write ssl1 stack]), (hostname ssl1).
    split.
    + unfold terminate_session. cbn [snd]. rewrite Hio, Hfd. cbn [io_fd].
      cbn [app]. rewrite <- app_assoc. reflexivity.
    + change (Sys_read nfd r :: ev ++ [alert_write ssl1 stack])
        with ([Sys_read nfd r] ++ ev ++ [alert_write ssl1 stack]).
      rewrite !count_app, Hc, Hfh, Hfs, !last_assigned_app.
      change (last_assigned [Sys_read nfd r] None) with (@None (list byte)).
      rewrite <- Hh.
      repeat split.
Qed.

Lemma session_release_frees_once_witness :
  exists pre h,
    [Sys_read 7 0; Ev_io_stop 7; Sys_close 7; Free_hostname None; Free_session] =
      pre ++ [Ev_io_stop 7; Sys_close 7; Free_hostname h; Free_session] /\
    count is_close pre = 0%nat /\
    count is_free_hostname pre = 0%nat /\
    count is_free_session pre = 0%nat /\
    h = last_assigned pre None.
Proof.
  apply (session_release_frees_once true 7 [Readable 0 []]).
  vm_compute. reflexivity.
Defined.

(** ** How far the decoder reads where plain [char] is unsigned *)

Lemma load_char_unsigned :
  forall buf off, load_char false buf off = load buf off.
Proof.
  intros buf off. unfold load_char.
  destruct (load buf off); reflexivity.
Qed.

Lemma int_3byte_le_defined :
  forall buf p, 0 <= p -> p + 2 < Z.of_nat (length buf) ->
    exists v, int_3byte_le buf p = Done v.
Proof.
  intros buf p H0 H1. unfold int_3byte_le.
  destruct (load_defined buf p) as [b0 ->]; [lia|].
  destruct (load_defined buf (p + 1)) as [b1 ->]; [lia|].
  destruct (load_defined buf (p + 2)) as [b2 ->]; [lia|].
  eexists. reflexivity.
Qed.

Lemma not_ssl_packet_defined :
  forall buf len, 9 <= Z.of_nat (length buf) ->
    exists b, not_ssl_packet buf len = Done b.
Proof.
  intros buf len H. unfold not_ssl_packet.
  unfold ssl_header_type, ssl_header_len, ssl_header_greeting_len.
  destruct (load_defined buf 0) as [m0 ->]; [lia|].
  destruct (load_defined buf 1) as [m1 ->]; [lia|].
  destruct (load_defined buf 2) as [m2 ->]; [lia|].
  cbv beta iota delta [bind].
  destruct (negb _); [eexists; reflexivity|].
  destruct (load_defined buf 5) as [ty ->]; [lia|].
  destruct (negb _); [eexists; reflexivity|].
  destruct (int_2byte_le_defined buf 3) as [rl ->]; [lia|lia|].
  destruct (negb _); [eexists; reflexivity|].
  destruct (int_3byte_le_defined buf 6) as [gl ->]; [lia|lia|].
  eexists. reflexivity.
Qed.

(** With unsigned [char] the three skips read at most 6 bytes past the
    end, and leave the cursor at most 261 bytes past it. *)
Lemma skip_to_extensions_defined_unsigned :
  forall buf q remain,
    0 <= q -> 0 < remain < 2 ^ 31 - 4 ->
    q + remain + 6 <= Z.of_nat (length buf) ->
    exists r,
      skip_to_extensions false buf q remain = Done r /\
      forall p' remain',
        r = Some (p', remain') ->
        p' + remain' = q + remain /\ 0 <= p' /\ -261 <= remain' < 2 ^ 31 - 4.
Proof.
  intros buf q remain Hq Hrem Hlen.
  unfold skip_to_extensions. rewrite load_char_unsigned.
  destruct (load_defined buf q) as [c1 E1]; [lia|].
  rewrite E1. cbv beta iota zeta delta [bind].
  apply load_done in E1. destruct E1 as [_ Hc1].
  rewrite (to_uint_id c1) by lia. rewrite (to_uint_id (remain + 4)) by lia.
  destruct (remain + 4 <=? c1) eqn:C1.
  { eexists. split; [reflexivity|]. intros p' r' H. discriminate H. }
  apply Z.leb_gt in C1.
  rewrite (to_int_id (remain - (c1 + 1))) by (unfold int_range; lia).
  destruct (int_2byte_le_defined buf (q + c1 + 1)) as [t2 E2]; [lia|lia|].
  rewrite E2. apply int_2byte_le_done in E2. destruct E2 as (_ & _ & Ht2).
  rewrite (to_uint_id (remain - (c1 + 1) + 4)) by lia.
  destruct (remain - (c1 + 1) + 4 <=? t2) eqn:C2.
  { eexists. split; [reflexivity|]. intros p' r' H. discriminate H. }
  apply Z.leb_gt in C2.
  rewrite (to_int_id (remain - (c1 + 1) - (t2 + 2))) by (unfold int_range; lia).
  rewrite load_char_unsigned.
  destruct (load_defined buf (q + c1 + 1 + t2 + 2)) as [c3 E3]; [lia|].
  rewrite E3. apply load_done in E3. destruct E3 as [_ Hc3].
  rewrite (to_uint_id c3) by lia.
  destruct (to_uint (remain - (c1 + 1) - (t2 + 2) + 4) <=? c3).
  { eexists. split; [reflexivity|]. intros p' r' H. discriminate H. }
  rewrite (to_int_id (remain - (c1 + 1) - (t2 + 2) - (c3 + 1)))
    by (unfold int_range; lia).
  eexists. split; [reflexivity|].
  intros p' r' H. injection H as <- <-. lia.
Qed.

Lemma parse_ssl_greeting_defined_unsigned_aux :
  forall (ssl : ssl_session) (buf : list byte) (len : Z),
    0 <= len < 2 ^ 31 - 4 ->
    len + 263 <= Z.of_nat (length buf) ->
    exists r, parse_ssl_greeting false ssl buf len = Done r.
Proof.
  intros ssl buf len Hlen Hbuf.
  unfold parse_ssl_greeting, ev_io_stop, send_alert.
  rewrite Z.mod_small by (change (2 ^ 64) with 18446744073709551616; lia).
  destruct (len <=? sizeof_ssl_header) eqn:C0; [eexists; reflexivity|].
  apply Z.leb_gt in C0. unfold sizeof_ssl_header in *.
  destruct (not_ssl_packet_defined buf len) as [bad ->]; [lia|].
  cbv beta iota zeta delta [bind].
  destruct bad; [eexists; reflexivity|].
  unfold parse_hello_body.
  rewrite (to_int_id (len - (3 + 2 + 1 + 3 + 2 + 32))) by (unfold int_range; lia).
  destruct (skip_to_extensions_defined_unsigned buf (3 + 2 + 1 + 3 + 2 + 32)
              (len - (3 + 2 + 1 + 3 + 2 + 32))) as (r & -> & Hr); [lia|lia|lia|].
  cbv beta iota zeta delta [bind].
  destruct r as [[p remain]|]; [|eexists; reflexivity].
  destruct (Hr p remain eq_refl) as (Hsum & Hp & Hrem).
  destruct (int_2byte_le_defined buf p) as [tlen ->]; [lia|lia|].
  destruct (to_uint remain <? tlen); [eexists; reflexivity|].
  rewrite (to_int_id (remain - 2)) by (unfold int_range; lia).
  match goal with
  | |- context [extensions_loop ?f ?s buf (p + 2) (remain - 2)] =>
      destruct (extensions_loop_overreads_at_most_26_aux f s buf (p + 2) (remain - 2))
        as [[[ret ssl1] ev1] ->]; [lia|unfold int_range; lia|lia|lia|]
  end.
  destruct ret; eexists; reflexivity.
Qed.

(** X19: where plain [char] is unsigned, the decoder reads at most 263
    bytes past the [len] it was given: on a buffer that extends that far
    (as [buf[8192]] does for every read of at most 7929 bytes) every
    read is inside the buffer and [parse_ssl_greeting] returns. *)
Theorem parse_ssl_greeting_defined_unsigned :
  forall (ssl : ssl_session) (buf : list byte) (len : Z),
    0 <= len < 2 ^ 31 - 4 ->
    len + 263 <= Z.of_nat (length buf) ->
    exists r, parse_ssl_greeting false ssl buf len = Done r.
Proof.
  intros ssl buf len Hlen Hbuf.
  exact (parse_ssl_greeting_defined_unsigned_aux ssl buf len Hlen Hbuf).
Qed.

Lemma parse_ssl_greeting_defined_unsigned_witness :
  exists r,
    parse_ssl_greeting false (fresh_session 7) (stack_buf hello_example_com) 72
      = Done r.
Proof.
  apply (parse_ssl_greeting_defined_unsigned (fresh_session 7)
           (stack_buf hello_example_com) 72).
  - lia.
  - vm_compute. discriminate.
Defined.

(** ** A hello without a server name *)

Lemma load_char_in_list :
  forall sgn buf pre post n,
    buf = pre ++ byte_of_Z n :: post -> 0 <= n < 128 ->
    load_char sgn buf (Z.of_nat (length pre)) = Done n.
Proof.
  intros sgn buf pre post n -> Hn. unfold load_char.
  rewrite load_app_at. cbv beta iota delta [bind].
  rewrite byte_val_of_Z, Z.mod_small by lia.
  destruct (128 <=? n) eqn:E; [apply Z.leb_le in E; lia|].
  rewrite andb_false_r. reflexivity.
Qed.

Lemma not_ssl_packet_client_hello :
  forall n rest,
    9 <= n <= 65540 ->
    not_ssl_packet ([x16; x03; x01] ++ le16 (n - 5) ++ [x01] ++ le24 (n - 9) ++ rest) n
    = Done false.
Proof.
  intros n rest Hn.
  set (buf := [x16; x03; x01] ++ le16 (n - 5) ++ [x01] ++ le24 (n - 9) ++ rest).
  assert (L0 : load buf 0 = Done 0x16) by reflexivity.
  assert (L1 : load buf 1 = Done 0x3) by reflexivity.
  assert (L2 : load buf 2 = Done 0x1) by reflexivity.
  assert (L5 : load buf 5 = Done 0x1) by reflexivity.
  assert (L3 : int_2byte_le buf 3 = Done (n - 5)).
  { apply (int_2byte_le_in_list buf [x16; x03; x01]
             ([x01] ++ le24 (n - 9) ++ rest) (n - 5)); [reflexivity|lia]. }
  assert (L6 : int_3byte_le buf 6 = Done (n - 9)).
  { change 6 with (Z.of_nat (length ([x16; x03; x01] ++ le16 (n - 5) ++ [x01]))).
    change buf with (([x16; x03; x01] ++ le16 (n - 5) ++ [x01])
                       ++ le24 (n - 9) ++ rest).
    apply int_3byte_le_le24_aux. change (2 ^ 24) with 16777216. lia. }
  unfold not_ssl_packet, ssl_header_type, ssl_header_len, ssl_header_greeting_len.
  rewrite L0, L1, L2. cbv beta iota delta [bind].
  change (negb (forallb (fun ab : Z * Z => fst ab =? snd ab)
                  (combine [22; 3; 1] tls_magic))) with false.
  cbv beta iota. rewrite L5. change (negb (1 =? tls_greeting)) with false.
  cbv beta iota. rewrite L3.
  rewrite (to_uint_id (n - 5)) by lia. rewrite Z.eqb_refl. cbn [negb].
  rewrite L6. replace (n - 5 - 4) with (n - 9) by lia.
  rewrite (to_uint_id (n - 9)) by lia. rewrite Z.eqb_refl. reflexivity.
Qed.

Lemma skip_to_extensions_client_hello :
  forall sgn hdr sid cs cm rest,
    Z.of_nat (length sid) < 128 ->
    Z.of_nat (length cs) < 65536 ->
    Z.of_nat (length cm) < 128 ->
    let body := [byte_of_Z (Z.of_nat (length sid))] ++ sid ++
                le16 (Z.of_nat (length cs)) ++ cs ++
                [byte_of_Z (Z.of_nat (length cm))] ++ cm ++ rest in
    Z.of_nat (length body) < 2 ^ 31 - 4 ->
    skip_to_extensions sgn (hdr ++ body) (Z.of_nat (length hdr))
      (Z.of_nat (length body))
    = Done (Some (Z.of_nat (length (hdr ++
                     [byte_of_Z (Z.of_nat (length sid))] ++ sid ++
                     le16 (Z.of_nat (length cs)) ++ cs ++
                     [byte_of_Z (Z.of_nat (length cm))] ++ cm)),
                  Z.of_nat (length rest))).
Proof.
  intros sgn hdr sid cs cm rest Hs Hc Hm body Hmax.
  assert (Hbody : Z.of_nat (length body) =
                  1 + Z.of_nat (length sid) + 2 + Z.of_nat (length cs)
                  + 1 + Z.of_nat (length cm) + Z.of_nat (length rest)).
  { unfold body, le16. rewrite !length_app. simpl length. lia. }
  unfold skip_to_extensions.
  rewrite (load_char_in_list sgn (hdr ++ body) hdr
             (sid ++ le16 (Z.of_nat (length cs)) ++ cs ++
              [byte_of_Z (Z.of_nat (length cm))] ++ cm ++ rest)
             (Z.of_nat (length sid))); [|reflexivity|lia].
  cbv beta iota zeta delta [bind].
  rewrite (to_uint_id (Z.of_nat (length sid))) by lia.
  rewrite (to_uint_id (Z.of_nat (length body) + 4)) by lia.
  destruct (Z.of_nat (length body) + 4 <=? Z.of_nat (length sid)) eqn:C1;
    [apply Z.leb_le in C1; lia|].
  rewrite (to_int_id (Z.of_nat (length body) - (Z.of_nat (length sid) + 1)))
    by (unfold int_range; lia).
  replace (Z.of_nat (length hdr) + Z.of_nat (length sid) + 1)
    with (Z.of_nat (length (hdr ++ [byte_of_Z (Z.of_nat (length sid))] ++ sid)))
    by (rewrite !length_app; simpl length; lia).
  rewrite (int_2byte_le_in_list (hdr ++ body)
             (hdr ++ [byte_of_Z (Z.of_nat (length sid))] ++ sid)
             (cs ++ [byte_of_Z (Z.of_nat (length cm))] ++ cm ++ rest)
             (Z.of_nat (length cs)));
    [|unfold body; rewrite <- !app_assoc; reflexivity|lia].
  rewrite (to_uint_id (_ + 4)) by lia.
  match goal with
  | |- context [if ?c then _ else _] =>
      destruct c eqn:C2; [apply Z.leb_le in C2; lia|]
  end.
  rewrite (to_int_id (_ - (Z.of_nat (length cs) + 2)))
    by (unfold int_range; lia).
  replace (Z.of_nat (length (hdr ++ [byte_of_Z (Z.of_nat (length sid))] ++ sid))
           + Z.of_nat (length cs) + 2)
    with (Z.of_nat (length (hdr ++ [byte_of_Z (Z.of_nat (length sid))] ++ sid
                            ++ le16 (Z.of_nat (length cs)) ++ cs)))
    by (unfold le16; rewrite !length_app; simpl length; lia).
  rewrite (load_char_in_list sgn (hdr ++ body)
             (hdr ++ [byte_of_Z (Z.of_nat (length sid))] ++ sid
                  ++ le16 (Z.of_nat (length cs)) ++ cs)
             (cm ++ rest) (Z.of_nat (length cm)));
    [|unfold body; rewrite <- !app_assoc; reflexivity|lia].
  rewrite (to_uint_id (Z.of_nat (length cm))) by lia.
  rewrite (to_uint_id (_ + 4)) by lia.
  match goal with
  | |- context [if ?c then _ else _] =>
      destruct c eqn:C3; [apply Z.leb_le in C3; lia|]
  end.
  rewrite (to_int_id (_ - (Z.of_nat (length cm) + 1)))
    by (unfold int_range; lia).
  f_equal. f_equal. f_equal.
  - unfold le16. rewrite !length_app. simpl length. lia.
  - lia.
Qed.

(** X20: a ClientHello in the layout the decoder expects, whose session
    id and compression list are shorter than 128 bytes and whose
    extensions block holds only extensions of other types than 0
    (possibly none, possibly followed by fewer than 4 stray bytes), is
    accepted: the walk ends with 0, "got hostname" is printed with the
    hostname the session had (NULL for a fresh one), nothing is assigned
    and the alert is armed. *)
Theorem parse_ssl_greeting_hello_without_server_name :
  forall (sgn : bool) (ssl : ssl_session) (sid cs cm : list byte)
         (exts : list (Z * list byte)) (tail : list byte),
    Z.of_nat (length sid) < 128 ->
    Z.of_nat (length cs) < 65536 ->
    Z.of_nat (length cm) < 128 ->
    Forall plain_extension exts ->
    (length tail < 4)%nat ->
    let buf := client_hello sid cs cm (encode_extensions exts ++ tail) in
    Z.of_nat (length buf) <= 65540 ->
    parse_ssl_greeting sgn ssl buf (Z.of_nat (length buf)) =
      Done (mk_session (fd ssl) (mk_io cb_alert (fd ssl) EV_WRITE true)
              (hostname ssl) ssl_state_alert,
            [Ev_io_stop (io_fd (io ssl));
             Printf_got_hostname (hostname ssl);
             Ev_io_init cb_alert (fd ssl) EV_WRITE;
             Ev_io_start cb_alert (fd ssl) EV_WRITE]).
Proof.
  intros sgn ssl sid cs cm exts tail Hs Hc Hm Hexts Htail buf Hmax.
  set (block := encode_extensions exts ++ tail) in *.
  set (body := client_hello_body sid cs cm block) in *.
  set (n := 43 + Z.of_nat (length body)).
  set (hdr := [x16; x03; x01] ++ le16 (n - 5) ++ [x01] ++ le24 (n - 9)
                ++ repeat x00 34).
  assert (Hbuf : buf = hdr ++ body).
  { unfold buf, client_hello, hdr. fold body. fold n.
    rewrite <- !app_assoc. reflexivity. }
  assert (Hhdr : Z.of_nat (length hdr) = 43) by reflexivity.
  assert (Hlen : Z.of_nat (length buf) = n).
  { rewrite Hbuf, length_app. unfold n. lia. }
  assert (Hbody : Z.of_nat (length body) =
                  1 + Z.of_nat (length sid) + 2 + Z.of_nat (length cs)
                  + 1 + Z.of_nat (length cm) + 2 + Z.of_nat (length block)).
  { unfold body, client_hello_body, le16. rewrite !length_app. simpl length. lia. }
  rewrite Hlen in *.
  unfold parse_ssl_greeting, ev_io_stop, send_alert.
  rewrite Z.mod_small by (change (2 ^ 64) with 18446744073709551616; lia).
  unfold sizeof_ssl_header.
  destruct (n <=? 3 + 2 + 1 + 3 + 2 + 32) eqn:C0; [apply Z.leb_le in C0; lia|].
  assert (Hnot : not_ssl_packet buf n = Done false).
  { rewrite Hbuf. unfold hdr. rewrite <- !app_assoc.
    apply not_ssl_packet_client_hello. lia. }
  rewrite Hnot. cbv beta iota zeta delta [bind].
  unfold parse_hello_body.
  rewrite (to_int_id (n - (3 + 2 + 1 + 3 + 2 + 32))) by (unfold int_range; lia).
  replace (n - (3 + 2 + 1 + 3 + 2 + 32)) with (Z.of_nat (length body))
    by (unfold n; lia).
  change (3 + 2 + 1 + 3 + 2 + 32) with (Z.of_nat (length hdr)).
  rewrite Hbuf.
  pose proof (skip_to_extensions_client_hello sgn hdr sid cs cm
                (le16 (Z.of_nat (length block)) ++ block) Hs Hc Hm) as Hskip.
  cbv zeta in Hskip. fold (client_hello_body sid cs cm block) in Hskip.
  fold body in Hskip.
  rewrite Hskip by lia. clear Hskip.
  cbv beta iota zeta delta [bind].
  set (pre := hdr ++ [byte_of_Z (Z.of_nat (length sid))] ++ sid ++
              le16 (Z.of_nat (length cs)) ++ cs ++
              [byte_of_Z (Z.of_nat (length cm))] ++ cm).
  assert (Hsplit : hdr ++ body = pre ++ le16 (Z.of_nat (length block)) ++ block).
  { unfold pre, body, client_hello_body. rewrite <- !app_assoc. reflexivity. }
  rewrite (int_2byte_le_in_list (hdr ++ body) pre block (Z.of_nat (length block)));
    [|exact Hsplit|lia].
  assert (Hrest : Z.of_nat (length (le16 (Z.of_nat (length block)) ++ block))
                  = Z.of_nat (length block) + 2)
    by (unfold le16; rewrite length_app; simpl length; lia).
  rewrite Hrest. rewrite (to_uint_id (Z.of_nat (length block) + 2)) by lia.
  destruct (Z.of_nat (length block) + 2 <? Z.of_nat (length block)) eqn:C4;
    [apply Z.ltb_lt in C4; lia|].
  replace (Z.of_nat (length block) + 2 - 2) with (Z.of_nat (length block)) by lia.
  rewrite (to_int_id (Z.of_nat (length block))) by (unfold int_range; lia).
  replace (Z.of_nat (length pre) + 2)
    with (Z.of_nat (length (pre ++ le16 (Z.of_nat (length block)))))
    by (unfold le16; rewrite length_app; simpl length; lia).
  replace (hdr ++ body)
    with ((pre ++ le16 (Z.of_nat (length block))) ++ encode_extensions exts ++ tail)
    by (rewrite Hsplit, <- app_assoc; reflexivity).
  unfold block.
  rewrite extensions_loop_skips_other_extensions_aux;
    [reflexivity|exact Hexts|exact Htail|fold block; lia|fold block; lia].
Qed.

Lemma parse_ssl_greeting_hello_without_server_name_witness :
  let buf := client_hello (bytes_of [1; 2]) (bytes_of [0x2f; 0]) (bytes_of [0])
               (encode_extensions [(10, bytes_of [0; 23]); (11, bytes_of [1; 0])]
                ++ []) in
  parse_ssl_greeting true (fresh_session 7) buf (Z.of_nat (length buf)) =
    Done (mk_session 7 (mk_io cb_alert 7 EV_WRITE true) None ssl_state_alert,
          [Ev_io_stop 7; Printf_got_hostname None;
           Ev_io_init cb_alert 7 EV_WRITE; Ev_io_start cb_alert 7 EV_WRITE]).
Proof.
  apply (parse_ssl_greeting_hello_without_server_name true (fresh_session 7)
           (bytes_of [1; 2]) (bytes_of [0x2f; 0]) (bytes_of [0])
           [(10, bytes_of [0; 23]); (11, bytes_of [1; 0])] []).
  - simpl. lia.
  - simpl. lia.
  - simpl. lia.
  - repeat constructor; simpl; lia.
  - simpl. lia.
  - vm_compute. discriminate.
Defined.

(** ** Sessions where plain [char] is unsigned *)

(** X21: where plain [char] is unsigned, a session whose [read] stored
    between 1 and 7929 bytes into the 8192-byte array, or more generally
    left 263 bytes of array after them, is released by the second
    write-readiness callback, having written the alert exactly once and
    closed its socket exactly once, whatever the bytes are. *)
Theorem session_released_after_two_writes_unsigned :
  forall (nfd r : Z) (data : list byte) (s1 s2 : ssl_alert),
    0 < r < 2 ^ 31 - 4 ->
    r + 263 <= Z.of_nat (length data) ->
    exists tr,
      run false (Live (fresh_session nfd))
        [Readable r data; Writable s1; Writable s2] = Done (Freed, tr) /\
      count is_write tr = 1%nat /\
      count is_close tr = 1%nat.
Proof.
  intros nfd r data s1 s2 Hr Hlen.
  destruct (parse_ssl_greeting_defined_unsigned_aux (fresh_session nfd) data r)
    as [[ssl1 ev] Hp]; [lia|exact Hlen|].
  pose proof (parse_ssl_greeting_session _ _ _ _ _ _ Hp) as (_ & _ & _ & Hsil).
  destruct (silent_count ev Hsil) as [Hw Hc].
  eexists. split.
  - apply session_reaches_release; [lia|exact Hp].
  - change (Sys_read nfd r :: ev ++ alert_write ssl1 s1 :: snd (terminate_session ssl1))
      with ([Sys_read nfd r] ++ ev ++ alert_write ssl1 s1 :: snd (terminate_session ssl1)).
    rewrite !count_app, Hw, Hc. split; reflexivity.
Qed.

Lemma session_released_after_two_writes_unsigned_witness :
  exists tr,
    run false (Live (fresh_session 7))
      [Readable 72 (stack_buf hello_example_com); Writable stack_ff; Writable stack_00]
      = Done (Freed, tr) /\
    count is_write tr = 1%nat /\
    count is_close tr = 1%nat.
Proof.
  apply (session_released_after_two_writes_unsigned 7 72
           (stack_buf hello_example_com) stack_ff stack_00).
  - lia.
  - vm_compute. discriminate.
Defined.

(** ** Where the decoder can read out of bounds *)

Lemma past_end_done : forall (A : Type) buf (a : A), past_end buf (Done a).
Proof. intros A buf a off H. discriminate H. Qed.

Lemma past_end_bind :
  forall (A B : Type) buf (m : outcome A) (k : A -> outcome B),
    past_end buf m ->
    (forall a, m = Done a -> past_end buf (k a)) ->
    past_end buf (bind m k).
Proof.
  intros A B buf m k Hm Hk off H.
  destruct m as [a|o|]; cbv beta iota delta [bind] in H.
  - exact (Hk a eq_refl off H).
  - apply Hm. injection H as ->. reflexivity.
  - discriminate H.
Qed.

Lemma past_end_load :
  forall buf off, 0 <= off -> past_end buf (load buf off).
Proof.
  intros buf off Hoff o H. unfold load in H.
  destruct (off <? 0) eqn:E; [apply Z.ltb_lt in E; lia|].
  destruct (nth_error buf (Z.to_nat off)) eqn:En; [discriminate H|].
  apply nth_error_None in En. injection H as <-. lia.
Qed.

Lemma past_end_load_char :
  forall sgn buf off, 0 <= off -> past_end buf (load_char sgn buf off).
Proof.
  intros sgn buf off Hoff. unfold load_char.
  apply past_end_bind; [apply past_end_load; exact Hoff|].
  intros a _. apply past_end_done.
Qed.

Lemma past_end_int_2byte_le :
  forall buf p, 0 <= p -> past_end buf (int_2byte_le buf p).
Proof.
  intros buf p Hp. unfold int_2byte_le.
  apply past_end_bind; [apply past_end_load; lia|]. intros b0 _.
  apply past_end_bind; [apply past_end_load; lia|]. intros b1 _.
  apply past_end_done.
Qed.

Lemma past_end_int_3byte_le :
  forall buf p, 0 <= p -> past_end buf (int_3byte_le buf p).
Proof.
  intros buf p Hp. unfold int_3byte_le.
  apply past_end_bind; [apply past_end_load; lia|]. intros b0 _.
  apply past_end_bind; [apply past_end_load; lia|]. intros b1 _.
  apply past_end_bind; [apply past_end_load; lia|]. intros b2 _.
  apply past_end_done.
Qed.

Lemma past_end_load_bytes :
  forall n buf off, 0 <= off -> past_end buf (load_bytes buf off n).
Proof.
  induction n as [|n IH]; intros buf off Hoff; simpl.
  - apply past_end_done.
  - apply past_end_bind; [apply past_end_load; lia|]. intros v _.
    apply past_end_bind; [apply IH; lia|]. intros rest _.
    apply past_end_done.
Qed.

Ltac past_end_step :=
  match goal with
  | |- past_end _ (Done _) => apply past_end_done
  | |- past_end _ (if ?c then _ else _) => destruct c
  | |- past_end _ (bind (load _ _) _) =>
      apply past_end_bind; [apply past_end_load; lia|intros ? ?]
  | |- past_end _ (bind (int_2byte_le _ _) _) =>
      apply past_end_bind; [apply past_end_int_2byte_le; lia|intros ? ?]
  | |- past_end _ (bind (int_3byte_le _ _) _) =>
      apply past_end_bind; [apply past_end_int_3byte_le; lia|intros ? ?]
  | |- past_end _ (bind (load_bytes _ _ _) _) =>
      apply past_end_bind; [apply past_end_load_bytes; lia|intros ? ?]
  end.

Lemma past_end_parse_extension :
  forall ssl buf pos remain,
    0 <= pos -> past_end buf (parse_extension ssl buf pos remain).
Proof.
  intros ssl buf pos remain Hpos. unfold parse_extension.
  unfold sizeof_sni_ext, sni_ext_slen, sni_ext_type, sni_ext_hlen, sni_ext_host.
  cbv zeta. repeat past_end_step.
Qed.

Lemma past_end_extensions_loop :
  forall fuel ssl buf pos remain,
    0 <= pos -> past_end buf (extensions_loop fuel ssl buf pos remain).
Proof.
  induction fuel as [|fuel IH]; intros ssl buf pos remain Hpos; simpl.
  - intros off H. discriminate H.
  - apply past_end_bind; [apply past_end_parse_extension; exact Hpos|].
    intros [[ret ssl1] ev1] _.
    destruct (0 <? ret) eqn:Hret; [|apply past_end_done].
    apply Z.ltb_lt in Hret.
    apply past_end_bind; [apply IH; lia|].
    intros [[ret2 ssl2] ev2] _. apply past_end_done.
Qed.

Lemma skip_to_extensions_forward :
  forall sgn buf q remain p' remain',
    skip_to_extensions sgn buf q remain = Done (Some (p', remain')) ->
    q + 4 <= p'.
Proof.
  intros sgn buf q remain p' remain' H. unfold skip_to_extensions in H.
  destruct (load_char sgn buf q) as [c1| |];
    cbv beta iota zeta delta [bind] in H; try discriminate H.
  destruct (to_uint (remain + 4) <=? to_uint c1); [discriminate H|].
  destruct (int_2byte_le buf (q + to_uint c1 + 1)) as [t2| |] eqn:E2;
    try discriminate H.
  destruct (_ <=? t2); [discriminate H|].
  destruct (load_char sgn buf (q + to_uint c1 + 1 + t2 + 2)) as [c3| |];
    try discriminate H.
  destruct (_ <=? to_uint c3); [discriminate H|].
  apply Done_inj in H.
  assert (Hp : q + to_uint c1 + 1 + t2 + 2 + to_uint c3 + 1 = p') by congruence.
  pose proof (to_uint_nonneg c1). pose proof (to_uint_nonneg c3).
  apply int_2byte_le_done in E2. lia.
Qed.

Lemma past_end_skip_to_extensions :
  forall sgn buf q remain,
    0 <= q -> past_end buf (skip_to_extensions sgn buf q remain).
Proof.
  intros sgn buf q remain Hq. unfold skip_to_extensions.
  apply past_end_bind; [apply past_end_load_char; exact Hq|]. intros c1 _.
  cbv zeta. pose proof (to_uint_nonneg c1).
  destruct (_ <=? to_uint c1); [apply past_end_done|].
  apply past_end_bind; [apply past_end_int_2byte_le; lia|]. intros t2 E2.
  apply int_2byte_le_done in E2.
  destruct (_ <=? t2); [apply past_end_done|].
  apply past_end_bind; [apply past_end_load_char; lia|]. intros c3 _.
  destruct (_ <=? to_uint c3); apply past_end_done.
Qed.

(** X22: the decoder never reads in front of the buffer: whenever a
    read of [parse_ssl_greeting] is out of bounds, its offset is at or
    past the end of the buffer. *)
Theorem parse_ssl_greeting_reads_forward :
  forall (sgn : bool) (ssl : ssl_session) (buf : list byte) (len off : Z),
    parse_ssl_greeting sgn ssl buf len = OutOfBounds off ->
    Z.of_nat (length buf) <= off.
Proof.
  intros sgn ssl buf len off. revert off.
  change (past_end buf (parse_ssl_greeting sgn ssl buf len)).
  unfold parse_ssl_greeting, ev_io_stop, send_alert.
  destruct (len mod 2 ^ 64 <=? sizeof_ssl_header); [apply past_end_done|].
  apply past_end_bind.
  { unfold not_ssl_packet, ssl_header_type, ssl_header_len, ssl_header_greeting_len.
    repeat past_end_step. }
  intros bad _. destruct bad; [apply past_end_done|].
  apply past_end_bind.
  - unfold parse_hello_body.
    apply past_end_bind;
      [apply past_end_skip_to_extensions; unfold sizeof_ssl_header; lia|].
    intros [[p remain]|] Hskip; [|apply past_end_done].
    apply skip_to_extensions_forward in Hskip. unfold sizeof_ssl_header in Hskip.
    apply past_end_bind; [apply past_end_int_2byte_le; lia|]. intros tlen _.
    destruct (to_uint remain <? tlen); [apply past_end_done|].
    cbv zeta.
    apply past_end_bind; [apply past_end_extensions_loop; lia|].
    intros [[ret ssl1] ev1] _. apply past_end_done.
  - intros [[ret ssl1] ev1] _.
    destruct ret as [[| |]|]; apply past_end_done.
Qed.

Lemma parse_ssl_greeting_reads_forward_witness :
  Z.of_nat (length hello_example_com) <= 76.
Proof.
  apply (parse_ssl_greeting_reads_forward true (fresh_session 7)
           hello_example_com 72 76).
  vm_compute. reflexivity.
Defined.

(** * Sessions the decoder does not bring to the alert *)

(** Whatever follows, a run whose first callback is a read on which the
    decoder reads out of bounds has no defined continuation. *)
Lemma run_undefined_read :
  forall sgn nfd r data evs off,
    greet_cb sgn (fresh_session nfd) r data = OutOfBounds off ->
    run sgn (Live (fresh_session nfd)) (Readable r data :: evs) = OutOfBounds off.
Proof.
  intros sgn nfd r data evs off H. rewrite run_cons.
  change (deliver sgn (Live (fresh_session nfd)) (Readable r data))
    with (greet_cb sgn (fresh_session nfd) r data).
  rewrite H. reflexivity.
Qed.

Lemma load_beyond :
  forall buf off,
    Z.of_nat (length buf) <= off -> load buf off = OutOfBounds off.
Proof.
  intros buf off H. unfold load.
  destruct (off <? 0) eqn:E; [reflexivity|].
  destruct (nth_error buf (Z.to_nat off)) eqn:En; [|reflexivity].
  assert (Z.to_nat off < length buf)%nat
    by (apply nth_error_Some; rewrite En; discriminate).
  lia.
Qed.

(** In a run on which the decode is defined, every [write] is the alert
    record on the session's descriptor: seven bytes, 15 01 .. .. 02 02
    40, the third and fourth being what the frame of [alert_cb] held. *)
Lemma session_write_is_alert_record :
  forall sgn nfd evs l tr d data,
    run sgn (Live (fresh_session nfd)) evs = Done (l, tr) ->
    In (Sys_write d data) tr ->
    d = nfd /\
    exists stack,
      data = [x15; x01; alert_version1 stack; alert_len0 stack; x02; x02; x40].
Proof.
  intros sgn nfd evs l tr d data H Hin.
  apply run_fresh_session in H.
  assert (Hsil : forall ev, Forall silent ev -> ~ In (Sys_write d data) ev).
  { intros ev Hev Hi. rewrite Forall_forall in Hev.
    destruct (Hev _ Hi) as [Hw _]. discriminate Hw. }
  destruct H as [(_ & _ & ->)|[(r & _ & _ & _ & ->)|
                 (r & ssl1 & ev & _ & _ & Hfd & Hev & H)]].
  - contradiction Hin.
  - simpl in Hin.
    repeat (destruct Hin as [Hin|Hin]; [discriminate Hin|]). contradiction Hin.
  - destruct H as [[_ ->]|[stack [[_ ->]|[_ ->]]]].
    + destruct Hin as [Hin|Hin]; [discriminate Hin|].
      exfalso. exact (Hsil ev Hev Hin).
    + destruct Hin as [Hin|Hin]; [discriminate Hin|].
      apply in_app_or in Hin. destruct Hin as [Hin|Hin];
        [exfalso; exact (Hsil ev Hev Hin)|].
      destruct Hin as [Hin|[]]. unfold alert_write in Hin.
      injection Hin as <- <-. split; [exact Hfd|]. exists stack. reflexivity.
    + destruct Hin as [Hin|Hin]; [discriminate Hin|].
      apply in_app_or in Hin. destruct Hin as [Hin|Hin];
        [exfalso; exact (Hsil ev Hev Hin)|].
      destruct Hin as [Hin|Hin].
      * unfold alert_write in Hin.
        injection Hin as <- <-. split; [exact Hfd|]. exists stack. reflexivity.
      * simpl in Hin.
        repeat (destruct Hin as [Hin|Hin]; [discriminate Hin|]).
        contradiction Hin.
Qed.

(** C4: two sessions that never write the alert.  With signed [char],
    after a read of the 44 bytes of [hello_short_session_id] into an
    array whose next six bytes are 00 00 00 00 00 80, the session-id
    length 3 passes its test, the cursor runs 5 bytes past the data, the
    compression length 0x80 read there is taken for 4294967168 and the
    extensions length is read at offset 4294967218.  With either
    signedness, after a read that fills the array with
    [hello_full_array], the cipher-suite length passes its test and the
    next byte is read at offset 8197 of 8192.  In both cases no callback
    that follows can write the alert or close the session. *)
Theorem session_read_out_of_bounds_before_alert :
  length array_after_short_read = Z.to_nat 8192 /\
  firstn 44 array_after_short_read = hello_short_session_id /\
  (forall evs : list readiness,
      run true (Live (fresh_session 7))
        (Readable 44 array_after_short_read :: evs) = OutOfBounds 4294967218) /\
  length hello_full_array = Z.to_nat 8192 /\
  (forall (sgn : bool) (evs : list readiness),
      run sgn (Live (fresh_session 7))
        (Readable 8192 hello_full_array :: evs) = OutOfBounds 8197).
Proof.
  split; [vm_compute; reflexivity|].
  split; [vm_compute; reflexivity|].
  split.
  - intros evs. apply run_undefined_read.
    assert (Hn : not_ssl_packet array_after_short_read 44 = Done false)
      by (vm_compute; reflexivity).
    assert (Hs : skip_to_extensions true array_after_short_read sizeof_ssl_header
                   (to_int (44 - sizeof_ssl_header))
                 = Done (Some (4294967218, 122)))
      by (vm_compute; reflexivity).
    assert (Hl : int_2byte_le array_after_short_read 4294967218
                 = OutOfBounds 4294967218).
    { unfold int_2byte_le. rewrite load_beyond; [reflexivity|].
      vm_compute. discriminate. }
    unfold greet_cb. change (44 <=? 0) with false. cbv iota.
    unfold parse_ssl_greeting, ev_io_stop.
    change (44 mod 2 ^ 64 <=? sizeof_ssl_header) with false. cbv iota.
    rewrite Hn. cbv beta iota delta [bind].
    unfold parse_hello_body. rewrite Hs. cbv beta iota delta [bind].
    rewrite Hl. reflexivity.
  - split; [vm_compute; reflexivity|].
    intros sgn evs. apply run_undefined_read.
    destruct sgn; vm_compute; reflexivity.
Qed.

(** * A server name after the declared end of the extensions *)

(** C10: with a declared extensions-block length of 0, the bytes after
    the field are still walked as extensions: the outcome changes with
    the type of the extension found there.  With type 10 it is stepped
    over and the decode ends well, printing a NULL hostname; with type 0,
    a server_name extension in the stated layout carrying "example.com",
    its sub-fields are looked for 24 bytes after its start, the checks
    fail (or, when it ends the received bytes, are made past them) and
    the hostname is not set. *)
Theorem extensions_walk_past_declared_end_misses_server_name :
  forall sgn : bool,
    int_2byte_le hello_empty_block_then_example_com_padded 50 = Done 0 /\
    skipn 52 hello_empty_block_then_example_com_padded =
      bytes_of (sni_example_com ++ [16; 0] ++ repeat 0 16) /\
    parse_ssl_greeting sgn (fresh_session 7)
      hello_empty_block_then_example_com_padded 90 =
      Done (fst (send_alert (fresh_session 7)),
            [Ev_io_stop 7; Ev_io_init cb_alert 7 EV_WRITE;
             Ev_io_start cb_alert 7 EV_WRITE]) /\
    hostname (fst (send_alert (fresh_session 7))) = None /\
    parse_ssl_greeting sgn (fresh_session 7)
      hello_empty_block_then_other_padded 90 =
      Done (fst (send_alert (fresh_session 7)),
            [Ev_io_stop 7; Printf_got_hostname None;
             Ev_io_init cb_alert 7 EV_WRITE; Ev_io_start cb_alert 7 EV_WRITE]) /\
    parse_ssl_greeting sgn (fresh_session 7)
      hello_empty_block_then_example_com 72 = OutOfBounds 76 /\
    greet_cb sgn (fresh_session 7) 72 (stack_buf hello_empty_block_then_example_com) =
      Done (Live (fst (send_alert (fresh_session 7))),
            [Sys_read 7 72; Ev_io_stop 7; Ev_io_init cb_alert 7 EV_WRITE;
             Ev_io_start cb_alert 7 EV_WRITE]).
Proof.
  intros [|]; repeat split; vm_compute; reflexivity.
Qed.

(** * The return values of [parse_extension] *)

(** X6: the return value of [parse_extension] in full.  With a negative
    [remain] it is -1 and with 0 to 3 bytes remaining it is 0, in both
    cases without a read and with the session untouched; it is 0 in no
    other case.  With 4 bytes or more it is -1 (session untouched) or the
    size of the extension, between 4 and [remain + 4]: never 1, 2 or 3.
    The upper end is reached: an extension of another type than 0 whose
    declared payload length is [remain] itself returns [remain + 4], four
    more than what remains. *)
Theorem parse_extension_return_values :
  forall (ssl : ssl_session) (buf : list byte) (pos remain : Z),
    int_range remain ->
    (remain < 0 -> parse_extension ssl buf pos remain = Done (-1, ssl, [])) /\
    (0 <= remain < 4 -> parse_extension ssl buf pos remain = Done (0, ssl, [])) /\
    (forall ret ssl' ev,
        parse_extension ssl buf pos remain = Done (ret, ssl', ev) ->
        (ret = -1 /\ ssl' = ssl /\ ev = []) \/
        (ret = 0 /\ 0 <= remain < 4 /\ ssl' = ssl /\ ev = []) \/
        (4 <= remain /\ 4 <= ret <= remain + 4)) /\
    (forall (pre post : list byte) (ty : Z),
        4 <= remain < 65536 ->
        0 < ty < 65536 ->
        parse_extension ssl (pre ++ le16 ty ++ le16 remain ++ post)
          (Z.of_nat (length pre)) remain
        = Done (remain + 4, ssl, [])).
Proof.
  intros ssl buf pos remain Hr.
  split; [|split; [|split]].
  - intros Hneg. unfold parse_extension.
    apply Z.ltb_lt in Hneg. rewrite Hneg. reflexivity.
  - intros [H0 H4]. unfold parse_extension.
    apply Z.ltb_ge in H0. apply Z.ltb_lt in H4. rewrite H0, H4. reflexivity.
  - intros ret ssl' ev H.
    exact (parse_extension_ret_cases ssl buf pos remain ret ssl' ev Hr H).
  - intros pre post ty Hrem Hty. unfold parse_extension.
    destruct (remain <? 0) eqn:C0; [apply Z.ltb_lt in C0; lia|].
    destruct (remain <? 4) eqn:C1; [apply Z.ltb_lt in C1; lia|].
    rewrite (int_2byte_le_in_list _ pre (le16 remain ++ post) ty);
      [|reflexivity|lia].
    cbv beta iota zeta delta [bind].
    replace (Z.of_nat (length pre) + 2) with (Z.of_nat (length (pre ++ le16 ty)))
      by (rewrite length_app; simpl; lia).
    rewrite (int_2byte_le_in_list _ (pre ++ le16 ty) post remain);
      [|rewrite <- app_assoc; reflexivity|lia].
    rewrite to_uint_id by lia. rewrite Z.ltb_irrefl.
    unfold sni_type.
    destruct (ty =? 0) eqn:C3; [apply Z.eqb_eq in C3; lia|].
    rewrite to_int_id by (unfold int_range; lia).
    reflexivity.
Qed.

Lemma parse_extension_return_values_witness :
  parse_extension (fresh_session 7) hello_example_com_padded 70 2
    = Done (0, fresh_session 7, []) /\
  parse_extension (fresh_session 7) (bytes_of [9] ++ le16 10 ++ le16 20 ++ [])
    (Z.of_nat (length (bytes_of [9]))) 20
    = Done (20 + 4, fresh_session 7, []).
Proof.
  split.
  - apply (proj1 (proj2 (parse_extension_return_values (fresh_session 7)
                           hello_example_com_padded 70 2
                           ltac:(unfold int_range; lia)))).
    lia.
  - apply (proj2 (proj2 (proj2
             (parse_extension_return_values (fresh_session 7)
                (bytes_of [9] ++ le16 10 ++ le16 20 ++ [])
                (Z.of_nat (length (bytes_of [9]))) 20
                ltac:(unfold int_range; lia))))
             (bytes_of [9]) [] 10); lia.
Defined.
